(** * Chia: the Airflow DAGs of colav/Chia

    A shallow embedding of the two DAG modules
      - [airflow/dags/impactu_airflow_pr_validator.py] (module [Validator])
      - [airflow/dags/auto_deploy_impactu.py]          (module [AutoDeploy])
    and the properties of their orchestration logic.

    The Python code talks to the outside world through HTTP requests,
    subprocesses, the wall clock and the filesystem.  Everything that is
    answered by the outside is taken from a record of oracles (the [world]);
    everything the code does to the outside is recorded in an event trace
    and, for the files written by the Python code itself, in a model of the
    scratch directories. *)

From Stdlib Require Import ZArith String Ascii List DecimalString DecimalPos DecimalZ
  Permutation Lia.
From stdpp Require Import base gmap strings list fin_maps.

Set Warnings "-register-all".

Local Open Scope string_scope.
Local Open Scope list_scope.
Local Open Scope Z_scope.

(** ** Python values shared by both modules *)

(** JSON documents, as produced by [response.json()] and consumed by
    [json.dump].  Objects are association lists: a Python [dict] keeps its
    insertion order. *)
Inductive json : Type :=
| JNull
| JBool (b : bool)
| JNum (n : Z)
| JStr (s : string)
| JArr (items : list json)
| JObj (fields : list (string * json)).

Definition dict : Type := list (string * json).

(** [d.get(k)] / [d[k]]: the first binding of [k]. *)
Fixpoint dict_get (k : string) (d : dict) : option json :=
  match d with
  | [] => None
  | (k', v) :: rest => if String.eqb k k' then Some v else dict_get k rest
  end.

(** [d[k] = v]: replaces the value in place when [k] is bound, appends the
    binding otherwise. *)
Fixpoint dict_set (k : string) (v : json) (d : dict) : dict :=
  match d with
  | [] => [(k, v)]
  | (k', v') :: rest =>
      if String.eqb k k' then (k', v) :: rest else (k', v') :: dict_set k v rest
  end.

Definition dict_has (k : string) (d : dict) : bool :=
  match dict_get k d with Some _ => true | None => false end.

(** Python exceptions: the class name and [str(e)]. *)
Record exn : Type := Exn { exn_type : string; exn_msg : string }.

(** [str(n)] for an [int]. *)
Definition str_of_Z (n : Z) : string := NilZero.string_of_int (Z.to_int n).
Definition str_of_nat (n : nat) : string := NilZero.string_of_uint (Nat.to_uint n).

(** [s.startswith(p)] and [s.endswith(p)]. *)
Definition startswith (s p : string) : bool := String.prefix p s.
Definition endswith (s p : string) : bool := String.prefix (String.rev p) (String.rev s).

(** [os.path.join(a, b)] on POSIX. *)
Definition path_join (a b : string) : string :=
  if startswith b "/" then b
  else if (String.eqb a "" || endswith a "/")%bool then a +:+ b
  else a +:+ "/" +:+ b.

(** ** HTTP, as seen through [requests] *)

Record response (A : Type) : Type :=
  Response { status_code : Z; reason : string; payload : A }.
Arguments Response {A} _ _ _.
Arguments status_code {A} _.
Arguments reason {A} _.
Arguments payload {A} _.

(** [requests.get] either raises (connection error, timeout) or returns a
    response. *)
Inductive http_result (A : Type) : Type :=
| ConnectionFailed (e : exn)
| Responded (r : response A).
Arguments ConnectionFailed {A} _.
Arguments Responded {A} _.

(** [response.raise_for_status()]: the exception it raises, if any. *)
Definition http_error {A} (url : string) (r : response A) : option exn :=
  if (400 <=? status_code r) && (status_code r <? 500) then
    Some (Exn "HTTPError"
            (str_of_Z (status_code r) +:+ " Client Error: " +:+ reason r
               +:+ " for url: " +:+ url))
  else if (500 <=? status_code r) && (status_code r <? 600) then
    Some (Exn "HTTPError"
            (str_of_Z (status_code r) +:+ " Server Error: " +:+ reason r
               +:+ " for url: " +:+ url))
  else None.

(** The outcome of a Python call: a value or a raised exception. *)
Inductive result (A : Type) : Type :=
| Ok (a : A)
| Raise (e : exn).
Arguments Ok {A} _.
Arguments Raise {A} _.

(** ** The polling job: [auto_deploy_impactu.py] *)

Module AutoDeploy.

Definition repo_url : string :=
  "https://api.github.com/repos/omazapa/impactu_airflow/commits/main".

Definition last_deployed_key : string := "impactu_last_deployed_commit".

(** What the outside answers: the HTTP request (the payload is the decoded
    body, [None] when the body is not JSON) and [Variable.get] with
    [default_var=None] ([Ok None] when the variable is absent). *)
Record world : Type := {
  requests_get : string -> http_result (option json);
  Variable_get : string -> result (option string);
}.

(** [j[k]] on a decoded JSON value. *)
Definition subscript (j : json) (k : string) : result json :=
  match j with
  | JObj d =>
      match dict_get k d with
      | Some v => Ok v
      | None => Raise (Exn "KeyError" ("'" +:+ k +:+ "'"))
      end
  | JArr _ => Raise (Exn "TypeError" "list indices must be integers or slices, not str")
  | JStr _ => Raise (Exn "TypeError" "string indices must be integers, not 'str'")
  | _ => Raise (Exn "TypeError" "object is not subscriptable")
  end.

(** [last_deployed_commit != latest_commit], where the left side is [None]
    or a [str] and the right side any decoded JSON value. *)
Definition py_ne (last : option string) (latest : json) : bool :=
  match last, latest with
  | None, JNull => false
  | Some s, JStr s' => negb (String.eqb s s')
  | _, _ => true
  end.

(** The body of the [try] block; the second component is the task
    instance's XCom store. *)
Definition check_body (w : world) (xcom : gmap string json)
  : result bool * gmap string json :=
  match requests_get w repo_url with
  | ConnectionFailed e => (Raise e, xcom)
  | Responded r =>
      match http_error repo_url r with
      | Some e => (Raise e, xcom)
      | None =>
          match payload r with
          | None => (Raise (Exn "JSONDecodeError" "Expecting value"), xcom)
          | Some body =>
              match subscript body "sha" with
              | Raise e => (Raise e, xcom)
              | Ok latest_commit =>
                  match Variable_get w last_deployed_key with
                  | Raise e => (Raise e, xcom)
                  | Ok last_deployed_commit =>
                      if py_ne last_deployed_commit latest_commit
                      then (Ok true, <["new_commit" := latest_commit]> xcom)
                      else (Ok false, xcom)
                  end
              end
          end
      end
  end.

(** [try: ... except Exception as e: ...; return False] *)
Definition check_for_updates (w : world) (xcom : gmap string json)
  : result bool * gmap string json :=
  match check_body w xcom with
  | (Ok b, xcom') => (Ok b, xcom')
  | (Raise _, xcom') => (Ok false, xcom')
  end.

(** The fetch of the latest commit fails: the request raises, the status
    is an error status, the body is not JSON, or it has no ["sha"]. *)
Definition fetch_fails (w : world) : Prop :=
  match requests_get w repo_url with
  | ConnectionFailed _ => True
  | Responded r =>
      is_Some (http_error repo_url r)
      \/ payload r = None
      \/ exists body e, payload r = Some body /\ subscript body "sha" = Raise e
  end.

End AutoDeploy.

(** ** The pull-request validator: [impactu_airflow_pr_validator.py] *)

Module Validator.

(** *** Configuration *)

Definition REPO_OWNER : string := "colav".
Definition REPO_NAME : string := "impactu_airflow".
Definition GITHUB_API_BASE : string := "https://api.github.com".

(** *** Data *)

(** One entry of [GET .../pulls/{n}/files] (the fields the code reads). *)
Record pr_file : Type := PrFile {
  filename : string;
  status : string;
  raw_url : string;
}.

(** [GET .../pulls/{n}]: [title], [base.ref] and [head.ref]. *)
Record pr_info : Type := PrInfo {
  title : string;
  base_ref : string;
  head_ref : string;
}.

(** [dag_run.conf]; [conf.get(k)] is [None] for a missing key. *)
Record dag_run_conf : Type := Conf {
  conf_pr_number : option Z;
  conf_github_token : option string;
}.

(** A file is either the bytes that were written to it or, for the report,
    the document handed to [json.dump]. *)
Inductive file_content : Type :=
| Raw (bytes : string)
| JsonText (doc : json).

(** A scratch directory maps the relative paths of its regular files to
    their contents; its directories are the paths that files lie below.
    The filesystem maps the paths of the scratch directories that exist to
    their trees. *)
Abbreviation workspace := (gmap string file_content).
Abbreviation filesystem := (gmap string workspace).

(** The top-level entries of an unpacked zip archive, in [os.listdir]
    order. *)
Inductive zip_entry : Type :=
| ZFile (bytes : string)
| ZDir (tree : gmap string file_content).

Definition archive : Type := list (string * zip_entry).

(** [subprocess.CompletedProcess] with [capture_output=True, text=True]. *)
Record completed_process : Type := Completed {
  returncode : Z;
  stdout : string;
  stderr : string;
}.

Definition headers : Type := list (string * string).

(** The result dict of [validate_syntax] and [validate_dag_structure]. *)
Record check_result : Type := CheckResult {
  passed : list string;
  failed : list (string * string);   (* {"file": ..., "error": ...} *)
}.

(** The result dict of [validate_imports]. *)
Record import_result : Type := ImportResult {
  success : bool;
  error : option string;
}.

Definition json_of_failure (fe : string * string) : json :=
  JObj [("file", JStr (fst fe)); ("error", JStr (snd fe))].

Definition json_of_check_result (r : check_result) : json :=
  JObj [("passed", JArr (map JStr (passed r)));
        ("failed", JArr (map json_of_failure (failed r)))].

Definition json_of_import_result (r : import_result) : json :=
  JObj (("success", JBool (success r))
          :: match error r with
             | Some e => [("error", JStr e)]
             | None => []
             end).

Inductive stage : Type := Syntax | Imports | Structure.

(** What a run does to the outside, in order. *)
Inductive event : Type :=
| EvRmtree (dir : string)
| EvMakedirs (dir : string)
| EvHttpGet (url : string)
| EvCopytree (dst : string)
| EvWrite (path : string)
| EvJsonDump (path : string) (doc : json)
| EvUvVenv (venv_dir : string)
| EvUvPipInstall (python_exe : string) (args : list string)
| EvDbMigrate (python_exe : string)
| EvStage (s : stage)
| EvPyCompile (python_exe file_path : string)
| EvDagBagLoad (python_exe dag_folder : string)
| EvDagCheck (python_exe dag_folder dag_file : string).

(** *** The outside world *)

Record world : Type := {
  now_isoformat : string;                       (* datetime.now().isoformat() *)
  sys_executable : string;
  get_pull : string -> headers -> http_result pr_info;
  get_pull_files : string -> headers -> http_result (list pr_file);
  get_zipball : string -> headers -> http_result (option archive);
  get_raw : string -> headers -> http_result string;
  uv_venv : string -> Z;                        (* exit status *)
  uv_pip_install : string -> list string -> Z;  (* exit status *)
  airflow_db_migrate : string -> completed_process;
  py_compile : string -> string -> completed_process;
  dagbag_load : string -> string -> completed_process;
  dag_check : string -> string -> string -> completed_process;
}.

(** *** State and exceptions *)

Record state : Type := State {
  st_fs : gmap string (gmap string file_content);
  st_report : dict;                 (* the local [validation_report] *)
  st_trace : list event;
}.

Definition M (A : Type) : Type := state -> result A * state.

Definition ret {A} (a : A) : M A := fun s => (Ok a, s).
Definition raise {A} (e : exn) : M A := fun s => (Raise e, s).
Definition bind {A B} (m : M A) (k : A -> M B) : M B :=
  fun s =>
    match m s with
    | (Ok a, s') => k a s'
    | (Raise e, s') => (Raise e, s')
    end.

(** [try: m except Exception as e: h e] *)
Definition try_except {A} (m : M A) (h : exn -> M A) : M A :=
  fun s =>
    match m s with
    | (Ok a, s') => (Ok a, s')
    | (Raise e, s') => h e s'
    end.

Notation "'let!' x ':=' m 'in' k" := (bind m (fun x => k))
  (at level 10, x pattern, m at level 100, k at level 200).
Notation "m '>>' k" := (bind m (fun _ => k))
  (at level 100, k at level 200, right associativity).

Fixpoint for_each {A} (l : list A) (body : A -> M unit) : M unit :=
  match l with
  | [] => ret tt
  | x :: rest => body x >> for_each rest body
  end.

Definition emit (e : event) : M unit :=
  fun s => (Ok tt, State (st_fs s) (st_report s) (st_trace s ++ [e])).

Definition get_report : M dict := fun s => (Ok (st_report s), s).

(** [validation_report[k] = v] *)
Definition report_set (k : string) (v : json) : M unit :=
  fun s => (Ok tt, State (st_fs s) (dict_set k v (st_report s)) (st_trace s)).

(** [validation_report["checks"][name] = v] *)
Definition report_set_check (name : string) (v : json) : M unit :=
  fun s =>
    match dict_get "checks" (st_report s) with
    | Some (JObj checks) =>
        (Ok tt, State (st_fs s)
                  (dict_set "checks" (JObj (dict_set name v checks)) (st_report s))
                  (st_trace s))
    | Some _ => (Raise (Exn "TypeError" "object does not support item assignment"), s)
    | None => (Raise (Exn "KeyError" "'checks'"), s)
    end.

(** *** Filesystem operations *)

(** An [OSError] of the file system, with the text [str(e)] gives. *)
Definition os_error (name errno strerror path : string) : exn :=
  Exn name ("[Errno " +:+ errno +:+ "] " +:+ strerror +:+ ": '" +:+ path +:+ "'").

Definition file_exists_error : string -> exn :=
  os_error "FileExistsError" "17" "File exists".
Definition not_a_directory_error : string -> exn :=
  os_error "NotADirectoryError" "20" "Not a directory".
Definition is_a_directory_error : string -> exn :=
  os_error "IsADirectoryError" "21" "Is a directory".
Definition file_not_found_error : string -> exn :=
  os_error "FileNotFoundError" "2" "No such file or directory".

Definition path_exists (dir : string) : M bool :=
  fun s => (Ok (bool_decide (is_Some (st_fs s !! dir))), s).

Definition rmtree (dir : string) : M unit :=
  fun s =>
    match st_fs s !! dir with
    | Some _ =>
        (Ok tt, State (delete dir (st_fs s)) (st_report s) (st_trace s ++ [EvRmtree dir]))
    | None => (Raise (file_not_found_error dir), s)
    end.

(** [os.makedirs(dir)], without [exist_ok]. *)
Definition makedirs (dir : string) : M unit :=
  fun s =>
    match st_fs s !! dir with
    | Some _ => (Raise (file_exists_error dir), s)
    | None =>
        (Ok tt, State (<[dir := ∅]> (st_fs s)) (st_report s) (st_trace s ++ [EvMakedirs dir]))
    end.

(** [shutil.copytree(src, dst, dirs_exist_ok=True)]: every file of the
    source tree lands in [dst], over what is there.  The validator copies
    into the scratch directory it has just created. *)
Definition copytree (tree : gmap string file_content) (dst : string) : M unit :=
  fun s =>
    (Ok tt, State (<[dst := tree ∪ default ∅ (st_fs s !! dst)]> (st_fs s))
              (st_report s) (st_trace s ++ [EvCopytree dst])).

(** A scratch directory is the map from the paths of its regular files,
    relative to it, to their contents; a directory of it is a path that
    some file lies below.  Paths are the ones of a git tree, as the archive
    and the changed-file list have them: names separated by single
    slashes.  The directories a relative path runs through, outermost
    first: ["a"] and ["a/b"] for ["a/b/c.py"]. *)
Fixpoint ancestors_from (seen rest : string) : list string :=
  match rest with
  | EmptyString => []
  | String c rest' =>
      if Ascii.eqb c "/"%char then seen :: ancestors_from (seen +:+ "/") rest'
      else ancestors_from (seen +:+ String c EmptyString) rest'
  end.

Definition ancestors (rel : string) : list string := ancestors_from "" rel.

(** [rel] is a directory of the tree: some file lies below it. *)
Definition is_directory (ws : gmap string file_content) (rel : string) : bool :=
  bool_decide (map_Exists (fun k _ => rel ∈ ancestors k) ws).

(** [os.path.exists] below a scratch directory: a file or a directory. *)
Definition exists_in (ws : gmap string file_content) (rel : string) : bool :=
  bool_decide (is_Some (ws !! rel)) || is_directory ws rel.

(** [os.makedirs(d, exist_ok=True)] along the directories [dirs] of a path:
    what it raises at the first of them that is a regular file,
    [FileExistsError] when that is the directory to create,
    [NotADirectoryError] when a directory has to be created below it. *)
Fixpoint makedirs_error (dir : string) (ws : gmap string file_content) (dirs : list string)
  : option exn :=
  match dirs with
  | [] => None
  | d :: rest =>
      match ws !! d with
      | Some _ =>
          Some (match rest with
                | [] => file_exists_error (path_join dir d)
                | next :: _ => not_a_directory_error (path_join dir next)
                end)
      | None => makedirs_error dir ws rest
      end
  end.

(** What [open(path, 'w')] raises because of the directories [dirs] of the
    path [rel]: [NotADirectoryError] when one of them is a regular file,
    [FileNotFoundError] when one of them is missing. *)
Fixpoint open_error (dir : string) (ws : gmap string file_content) (rel : string)
  (dirs : list string) : option exn :=
  match dirs with
  | [] => None
  | d :: rest =>
      match ws !! d with
      | Some _ => Some (not_a_directory_error (path_join dir rel))
      | None =>
          if is_directory ws d then open_error dir ws rel rest
          else Some (file_not_found_error (path_join dir rel))
      end
  end.

(** [with open(os.path.join(dir, rel), mode) as f: f.write(...)]: the
    directories of the path must exist, and the path must not be a
    directory. *)
Definition write_file (dir rel : string) (c : file_content) (ev : event) : M unit :=
  fun s =>
    match st_fs s !! dir with
    | Some ws =>
        match open_error dir ws rel (ancestors rel) with
        | Some e => (Raise e, s)
        | None =>
            if is_directory ws rel
            then (Raise (is_a_directory_error (path_join dir rel)), s)
            else (Ok tt, State (<[dir := <[rel := c]> ws]> (st_fs s)) (st_report s)
                           (st_trace s ++ [ev]))
        end
    | None => (Raise (file_not_found_error (path_join dir rel)), s)
    end.

(** The same after [os.makedirs(os.path.dirname(full_path), exist_ok=True)],
    which creates every missing directory on the way and fails on a
    regular file in the way. *)
Definition write_file_makedirs (dir rel : string) (c : file_content) : M unit :=
  fun s =>
    let ws := default ∅ (st_fs s !! dir) in
    match makedirs_error dir ws (ancestors rel) with
    | Some e => (Raise e, s)
    | None =>
        if is_directory ws rel
        then (Raise (is_a_directory_error (path_join dir rel)), s)
        else (Ok tt, State (<[dir := <[rel := c]> ws]> (st_fs s)) (st_report s)
                       (st_trace s ++ [EvWrite (path_join dir rel)]))
    end.

(** *** Helper functions *)

(** [requests.get(url, ...)], [raise_for_status()], then the body. *)
Definition http_get {A} (url : string) (answer : http_result A) : M A :=
  emit (EvHttpGet url) >>
  match answer with
  | ConnectionFailed e => raise e
  | Responded r =>
      match http_error url r with
      | Some e => raise e
      | None => ret (payload r)
      end
  end.

Definition pulls_url (pr_number : Z) : string :=
  GITHUB_API_BASE +:+ "/repos/" +:+ REPO_OWNER +:+ "/" +:+ REPO_NAME
    +:+ "/pulls/" +:+ str_of_Z pr_number.

Definition zipball_url (branch : string) : string :=
  GITHUB_API_BASE +:+ "/repos/" +:+ REPO_OWNER +:+ "/" +:+ REPO_NAME
    +:+ "/zipball/" +:+ branch.

Definition setup_logger (base_dir : string) : M unit := ret tt.

Definition fetch_pr_info (w : world) (pr_number : Z) (hd : headers) : M pr_info :=
  let url := pulls_url pr_number in
  http_get url (get_pull w url hd).

Definition fetch_pr_files (w : world) (pr_number : Z) (hd : headers) : M (list pr_file) :=
  let url := pulls_url pr_number +:+ "/files" in
  http_get url (get_pull_files w url hd).

Definition download_branch_archive (w : world) (branch base_dir : string) (hd : headers)
  : M unit :=
  let url := zipball_url branch in
  let! content := http_get url (get_zipball w url hd) in
  match content with
  | None => raise (Exn "BadZipFile" "File is not a zip file")
  | Some extracted_dirs =>
      match extracted_dirs with
      | [] => raise (Exn "ValueError" ("Empty archive for branch " +:+ branch))
      | (name, ZFile _) :: _ => raise (Exn "NotADirectoryError" name)
      | (_, ZDir source_dir) :: _ => copytree source_dir base_dir
      end
  end.

Definition download_pr_file (w : world) (file_path raw_url base_dir : string) (hd : headers)
  : M unit :=
  let! content := http_get raw_url (get_raw w raw_url hd) in
  write_file_makedirs base_dir file_path (Raw content).

(** [repr] of a list of plain strings, as in [CalledProcessError]. *)
Definition py_repr_list (l : list string) : string :=
  "[" +:+ String.concat ", " (map (fun s => "'" +:+ s +:+ "'") l) +:+ "]".

(** [subprocess.run(cmd, check=True)] given the exit status. *)
Definition check_call (cmd : list string) (ev : event) (exit_status : Z) : M unit :=
  emit ev >>
  if exit_status =? 0 then ret tt
  else raise (Exn "CalledProcessError"
                ("Command '" +:+ py_repr_list cmd +:+ "' returned non-zero exit status "
                   +:+ str_of_Z exit_status +:+ "."))%string.

Definition airflow_packages : list string :=
  ["apache-airflow==3.1.5"; "apache-airflow-providers-fab"; "structlog==25.5.0"].

(** Returns [(venv_dir, python_executable)].  The requirements file is
    looked up in the scratch directory, where [requirements_path] points. *)
Definition setup_virtual_environment (w : world) (base_dir requirements : string)
  : M (string * string) :=
  let venv_dir := path_join base_dir "venv" in
  let python_exe := path_join (path_join venv_dir "bin") "python" in
  let requirements_path := path_join base_dir requirements in
  fun s =>
    if negb (exists_in (default ∅ (st_fs s !! base_dir)) requirements)
    then ret (venv_dir, sys_executable w) s
    else
        (check_call ["uv"; "venv"; venv_dir] (EvUvVenv venv_dir) (uv_venv w venv_dir) >>
         check_call ["uv"; "pip"; "install"; "--python"; python_exe; "-r"; requirements_path]
           (EvUvPipInstall python_exe ["-r"; requirements_path])
           (uv_pip_install w python_exe ["-r"; requirements_path]) >>
         check_call ("uv" :: "pip" :: "install" :: "--python" :: python_exe :: airflow_packages)
           (EvUvPipInstall python_exe airflow_packages)
           (uv_pip_install w python_exe airflow_packages) >>
         ret (venv_dir, python_exe)) s.

Definition initialize_test_database (w : world) (python_exe : string) : M unit :=
  emit (EvDbMigrate python_exe) >>
  let result := airflow_db_migrate w python_exe in
  if negb (returncode result =? 0)
  then raise (Exn "RuntimeError" "Failed to initialize Airflow database")
  else ret tt.

(** *** Validation checks *)

(** The loop of [validate_syntax]: one [py_compile] subprocess per file,
    the file recorded under ["passed"] or ["failed"]. *)
Fixpoint validate_syntax_loop (w : world) (base_dir python_exe : string)
  (dag_files : list string) (results : check_result) : M check_result :=
  match dag_files with
  | [] => ret results
  | dag_file :: rest =>
      let file_path := path_join base_dir dag_file in
      emit (EvPyCompile python_exe file_path) >>
      let result := py_compile w python_exe file_path in
      if returncode result =? 0
      then validate_syntax_loop w base_dir python_exe rest
             (CheckResult (passed results ++ [dag_file]) (failed results))
      else validate_syntax_loop w base_dir python_exe rest
             (CheckResult (passed results) (failed results ++ [(dag_file, stderr result)]))
  end.

Definition validate_syntax (w : world) (dag_files : list string) (base_dir python_exe : string)
  : M check_result :=
  emit (EvStage Syntax) >>
  validate_syntax_loop w base_dir python_exe dag_files (CheckResult [] []).

Definition validate_imports (w : world) (base_dir python_exe : string) : M import_result :=
  emit (EvStage Imports) >>
  let dag_folder := path_join base_dir "dags" in
  emit (EvDagBagLoad python_exe dag_folder) >>
  let result := dagbag_load w python_exe dag_folder in
  if negb (returncode result =? 0)
  then ret (ImportResult false (Some (stderr result)))
  else ret (ImportResult true None).

Fixpoint validate_dag_structure_loop (w : world) (base_dir python_exe : string)
  (dag_files : list string) (results : check_result) : M check_result :=
  match dag_files with
  | [] => ret results
  | dag_file :: rest =>
      let file_path := path_join base_dir dag_file in
      let dag_folder := path_join base_dir "dags" in
      emit (EvDagCheck python_exe dag_folder file_path) >>
      let result := dag_check w python_exe dag_folder file_path in
      if returncode result =? 0
      then validate_dag_structure_loop w base_dir python_exe rest
             (CheckResult (passed results ++ [dag_file]) (failed results))
      else validate_dag_structure_loop w base_dir python_exe rest
             (CheckResult (passed results) (failed results ++ [(dag_file, stderr result)]))
  end.

Definition validate_dag_structure (w : world) (dag_files : list string)
  (base_dir python_exe : string) : M check_result :=
  emit (EvStage Structure) >>
  validate_dag_structure_loop w base_dir python_exe dag_files (CheckResult [] []).

(** *** Main validation logic *)

Definition is_dag_file (name : string) : bool :=
  startswith name "dags/" && endswith name ".py".

(** [[f['filename'] for f in pr_files if ...]] *)
Definition changed_dag_files (pr_files : list pr_file) : list string :=
  List.filter is_dag_file (map filename pr_files).

Definition base_dir_of (pr_number : Z) : string := "/tmp/airflow_pr_" +:+ str_of_Z pr_number.

Definition report_name : string := "validation_report.json".

Definition newline : string := String (ascii_of_nat 10) EmptyString.

Definition airflowignore : string :=
  "venv/" +:+ newline +:+ ".git/" +:+ newline +:+ "__pycache__/" +:+ newline.

(** "Clean previous runs" *)
Definition clean_previous_runs (base_dir : string) : M unit :=
  let! present := path_exists base_dir in
  (if (present : bool) then rmtree base_dir else ret tt) >>
  makedirs base_dir.

(** "Overlay PR changes" *)
Definition overlay_pr_changes (w : world) (pr_files : list pr_file) (base_dir : string)
  (hd : headers) : M unit :=
  for_each pr_files (fun pr_file =>
    if negb (String.eqb (status pr_file) "removed")
    then download_pr_file w (filename pr_file) (raw_url pr_file) base_dir hd
    else ret tt).

(** "ENVIRONMENT SETUP": the interpreter the checks run with. *)
Definition environment_setup (w : world) (base_dir : string) : M string :=
  let! venv := setup_virtual_environment w base_dir "requirements.txt" in
  let python_exe := snd venv in
  initialize_test_database w python_exe >>
  ret python_exe.

(** "VALIDATION PHASE" *)
Definition validation_phase (w : world) (changed_dags : list string)
  (base_dir python_exe : string) : M unit :=
  let! syntax_results := validate_syntax w changed_dags base_dir python_exe in
  report_set_check "syntax" (json_of_check_result syntax_results) >>
  match failed syntax_results with
  | _ :: _ =>
      report_set "status" (JStr "failed") >>
      report_set "message" (JStr "Syntax validation failed") >>
      raise (Exn "Exception"
               ("Syntax errors in " +:+ str_of_nat (length (failed syntax_results))
                  +:+ " file(s)"))
  | [] =>
      let! import_results := validate_imports w base_dir python_exe in
      report_set_check "imports" (json_of_import_result import_results) >>
      if negb (success import_results) then
        report_set "status" (JStr "failed") >>
        report_set "message" (JStr "Import validation failed") >>
        raise (Exn "Exception" "DAG import errors detected")
      else
        let! structure_results := validate_dag_structure w changed_dags base_dir python_exe in
        report_set_check "structure" (json_of_check_result structure_results) >>
        match failed structure_results with
        | _ :: _ =>
            report_set "status" (JStr "failed") >>
            report_set "message" (JStr "Structure validation failed") >>
            raise (Exn "Exception"
                     ("Structure errors in "
                        +:+ str_of_nat (length (failed structure_results)) +:+ " file(s)"))
        | [] => ret tt
        end
  end.

(** [json.dump(validation_report, f, indent=2)] into the report file. *)
Definition save_report (base_dir : string) : M unit :=
  let! report := get_report in
  write_file base_dir report_name (JsonText (JObj report))
    (EvJsonDump (path_join base_dir report_name) (JObj report)).

(** The body of the [try] block. *)
Definition validate_body (w : world) (pr_number : Z) (hd : headers) (base_dir : string)
  : M dict :=
  clean_previous_runs base_dir >>
  setup_logger base_dir >>
  let! pr_info := fetch_pr_info w pr_number hd in
  let! pr_files := fetch_pr_files w pr_number hd in
  let changed_dags := changed_dag_files pr_files in
  match changed_dags with
  | [] =>
      report_set "status" (JStr "skipped") >>
      report_set "message" (JStr "No DAG files modified") >>
      get_report
  | _ :: _ =>
      download_branch_archive w (base_ref pr_info) base_dir hd >>
      overlay_pr_changes w pr_files base_dir hd >>
      write_file base_dir ".airflowignore" (Raw airflowignore)
        (EvWrite (path_join base_dir ".airflowignore")) >>
      let! python_exe := environment_setup w base_dir in
      validation_phase w changed_dags base_dir python_exe >>
      report_set "status" (JStr "success") >>
      report_set "message" (JStr "All validations passed") >>
      save_report base_dir >>
      get_report
  end.

(** The [except Exception as e] clause: record, persist, re-raise. *)
Definition on_exception (base_dir : string) (e : exn) : M dict :=
  report_set "status" (JStr "error") >>
  report_set "error" (JStr (exn_msg e)) >>
  save_report base_dir >>
  raise e.

Definition initial_report (w : world) (pr_number : Z) : dict :=
  [("pr_number", JNum pr_number);
   ("timestamp", JStr (now_isoformat w));
   ("status", JStr "running");
   ("checks", JObj [])].

Definition headers_of (github_token : option string) : headers :=
  match github_token with
  | Some tok => if String.eqb tok "" then [] else [("Authorization", "token " +:+ tok)]
  | None => []
  end.

(** [validate_pr] run on a filesystem: the value returned or the
    exception raised, and the final state. *)
Definition validate_pr (w : world) (conf : dag_run_conf)
  (fs : gmap string (gmap string file_content)) : result dict * state :=
  match conf_pr_number conf with
  | None | Some 0 =>
      (Raise (Exn "ValueError" "Missing required parameter: pr_number"), State fs [] [])
  | Some pr_number =>
      let hd := headers_of (conf_github_token conf) in
      let base_dir := base_dir_of pr_number in
      try_except (validate_body w pr_number hd base_dir) (on_exception base_dir)
        (State fs (initial_report w pr_number) [])
  end.

End Validator.

(** ** The other tasks of the polling job *)

Module AutoDeployTasks.

(** What the update and save tasks ask of the outside: the interpreter
    path, [subprocess.run] (the completed process, or the exception it
    raises: [TimeoutExpired] after the 300 seconds, [OSError], ...) and
    [str(value)] for the values that are not strings already. *)
Record world : Type := {
  sys_executable : string;
  subprocess_run : list string -> result Validator.completed_process;
  py_str : json -> string;
}.

Definition pip_command (w : world) : list string :=
  [sys_executable w; "-m"; "pip"; "install";
   "--upgrade"; "--force-reinstall"; "--no-cache-dir";
   "git+https://github.com/omazapa/impactu_airflow.git@main"].

(** The body of the [try] block of [update_package_locally]. *)
Definition update_body (w : world) : result bool :=
  match subprocess_run w (pip_command w) with
  | Raise e => Raise e
  | Ok result =>
      if Validator.returncode result =? 0 then Ok true
      else Raise (Exn "Exception" ("Update failed: " +:+ Validator.stderr result))
  end.

(** [except subprocess.TimeoutExpired: ...  except Exception as e: ...] *)
Definition update_package_locally (w : world) : result bool :=
  match update_body w with
  | Ok b => Ok b
  | Raise e =>
      if String.eqb (exn_type e) "TimeoutExpired"
      then Raise (Exn "Exception" "Update timeout")
      else Raise (Exn "Exception" ("Error updating package: " +:+ exn_msg e))
  end.

(** Python truth value of a decoded JSON value. *)
Definition truthy (j : json) : bool :=
  match j with
  | JNull => false
  | JBool b => b
  | JNum n => negb (n =? 0)
  | JStr s => negb (String.eqb s "")
  | JArr items => match items with [] => false | _ :: _ => true end
  | JObj fields => match fields with [] => false | _ :: _ => true end
  end.

(** What [Variable.set] stores for a value. *)
Definition stored_form (w : world) (j : json) : string :=
  match j with
  | JStr s => s
  | _ => py_str w j
  end.

(** [ti.xcom_pull(task_ids="check_updates", key="new_commit")]: [None] when
    nothing was pushed. *)
Definition xcom_pull (xcom : gmap string json) (key : string) : json :=
  default JNull (xcom !! key).

(** [save_deployed_commit]: the variables after the task. *)
Definition save_deployed_commit (w : world) (xcom : gmap string json)
  (variables : gmap string string) : gmap string string :=
  let new_commit := xcom_pull xcom "new_commit" in
  if truthy new_commit
  then <[AutoDeploy.last_deployed_key := stored_form w new_commit]> variables
  else variables.

(** The polling world in which [Variable.get] reads these variables. *)
Definition polling (answer : http_result (option json)) (variables : gmap string string)
  : AutoDeploy.world :=
  {| AutoDeploy.requests_get := fun _ => answer;
     AutoDeploy.Variable_get := fun key => Ok (variables !! key) |}.

(** The answer of GitHub that carries the commit [sha]. *)
Definition commit_answer (sha : string) : http_result (option json) :=
  Responded (Response 200 "OK" (Some (JObj [("sha", JStr sha)]))).

End AutoDeployTasks.

(** ** Concrete scenarios, used to exercise the model *)

Module Scenarios.

Definition ok_response {A} (a : A) : http_result A := Responded (Response 200 "OK" a).

(** The repository moved on to ["b2c4"]; ["a1f3"] is what was deployed. *)
Definition poll_new_commit : AutoDeploy.world := {|
  AutoDeploy.requests_get := fun _ => ok_response (Some (JObj [("sha", JStr "b2c4")]));
  AutoDeploy.Variable_get := fun _ => Ok (Some "a1f3");
|}.

(** The request to GitHub times out. *)
Definition poll_timeout : AutoDeploy.world := {|
  AutoDeploy.requests_get := fun _ => ConnectionFailed (Exn "ReadTimeout" "timed out");
  AutoDeploy.Variable_get := fun _ => Ok (Some "a1f3");
|}.

(** Pull request 7 adds [dags/a.py], which does not compile, modifies
    [dags/b.py] and removes [docs/old.md]; the base branch has no
    [requirements.txt]. *)
Definition pr_files_7 : list Validator.pr_file :=
  [Validator.PrFile "dags/a.py" "added" "https://raw.example/a.py";
   Validator.PrFile "dags/b.py" "modified" "https://raw.example/b.py";
   Validator.PrFile "docs/old.md" "removed" "https://raw.example/old.md"].

Definition base_tree_7 : gmap string Validator.file_content :=
  {[ "dags/b.py" := Validator.Raw "print(0)";
     "docs/old.md" := Validator.Raw "old notes" ]}.

Definition raw_content_7 (f : Validator.pr_file) : string :=
  if String.eqb (Validator.filename f) "dags/a.py" then "def (" else "print(1)".

Definition pr_syntax_error : Validator.world := {|
  Validator.now_isoformat := "2025-06-01T12:00:00";
  Validator.sys_executable := "/usr/bin/python3";
  Validator.get_pull := fun _ _ =>
    ok_response (Validator.PrInfo "Add DAG a" "main" "feature/a");
  Validator.get_pull_files := fun _ _ => ok_response pr_files_7;
  Validator.get_zipball := fun _ _ =>
    ok_response (Some [("colav-impactu_airflow-0a1b", Validator.ZDir base_tree_7)]);
  Validator.get_raw := fun url _ =>
    ok_response (if String.eqb url "https://raw.example/a.py" then "def (" else "print(1)");
  Validator.uv_venv := fun _ => 0;
  Validator.uv_pip_install := fun _ _ => 0;
  Validator.airflow_db_migrate := fun _ => Validator.Completed 0 "" "";
  Validator.py_compile := fun _ path =>
    if endswith path "a.py"
    then Validator.Completed 1 "" "SyntaxError: invalid syntax"
    else Validator.Completed 0 "" "";
  Validator.dagbag_load := fun _ _ => Validator.Completed 0 "" "";
  Validator.dag_check := fun _ _ _ => Validator.Completed 0 "" "";
|}.

(** Pull request 8 touches the documentation only. *)
Definition pr_docs_only : Validator.world := {|
  Validator.now_isoformat := "2025-06-02T08:30:00";
  Validator.sys_executable := "/usr/bin/python3";
  Validator.get_pull := fun _ _ =>
    ok_response (Validator.PrInfo "Fix typos" "main" "docs/typos");
  Validator.get_pull_files := fun _ _ =>
    ok_response [Validator.PrFile "README.md" "modified" "https://raw.example/README.md"];
  Validator.get_zipball := fun _ _ => ok_response (Some []);
  Validator.get_raw := fun _ _ => ok_response "hello";
  Validator.uv_venv := fun _ => 0;
  Validator.uv_pip_install := fun _ _ => 0;
  Validator.airflow_db_migrate := fun _ => Validator.Completed 0 "" "";
  Validator.py_compile := fun _ _ => Validator.Completed 0 "" "";
  Validator.dagbag_load := fun _ _ => Validator.Completed 0 "" "";
  Validator.dag_check := fun _ _ _ => Validator.Completed 0 "" "";
|}.

Definition fresh_state : Validator.state := Validator.State ∅ [] [].

(** Pull request 5 turns the module [pkg] into a package: the file [pkg]
    is removed and [pkg/mod.py] is added. *)
Definition pr_files_5 : list Validator.pr_file :=
  [Validator.PrFile "pkg" "removed" "https://raw.example/pkg";
   Validator.PrFile "pkg/mod.py" "added" "https://raw.example/mod.py"].

Definition base_tree_5 : gmap string Validator.file_content :=
  {[ "pkg" := Validator.Raw "legacy";
     "dags/b.py" := Validator.Raw "print(0)" ]}.

Definition pr_file_becomes_package : Validator.world := {|
  Validator.now_isoformat := "2025-06-05T07:45:00";
  Validator.sys_executable := "/usr/bin/python3";
  Validator.get_pull := fun _ _ =>
    ok_response (Validator.PrInfo "Turn pkg into a package" "main" "refactor/pkg");
  Validator.get_pull_files := fun _ _ => ok_response pr_files_5;
  Validator.get_zipball := fun _ _ =>
    ok_response (Some [("colav-impactu_airflow-0a1b", Validator.ZDir base_tree_5)]);
  Validator.get_raw := fun _ _ => ok_response "x = 1";
  Validator.uv_venv := fun _ => 0;
  Validator.uv_pip_install := fun _ _ => 0;
  Validator.airflow_db_migrate := fun _ => Validator.Completed 0 "" "";
  Validator.py_compile := fun _ _ => Validator.Completed 0 "" "";
  Validator.dagbag_load := fun _ _ => Validator.Completed 0 "" "";
  Validator.dag_check := fun _ _ _ => Validator.Completed 0 "" "";
|}.

(** What the run on pull request 7 leaves in [validation_report.json]. *)
Definition report_7 : dict :=
  [("pr_number", JNum 7);
   ("timestamp", JStr "2025-06-01T12:00:00");
   ("status", JStr "error");
   ("checks",
     JObj [("syntax",
             JObj [("passed", JArr [JStr "dags/b.py"]);
                   ("failed",
                     JArr [JObj [("file", JStr "dags/a.py");
                                 ("error", JStr "SyntaxError: invalid syntax")]])])]);
   ("message", JStr "Syntax validation failed");
   ("error", JStr "Syntax errors in 1 file(s)")].

(** A scratch directory left behind by an earlier run. *)
Definition stale_workspace : gmap string Validator.file_content :=
  {[ "dags/gone.py" := Validator.Raw "import os";
     "validation_report.json" := Validator.JsonText (JObj report_7) ]}.

(** Pull request 7 again, but the raw content of [dags/b.py] is gone, and
    the structure check rejects [dags/a.py]. *)
Definition pr_download_fails : Validator.world := {|
  Validator.now_isoformat := "2025-06-03T09:00:00";
  Validator.sys_executable := "/usr/bin/python3";
  Validator.get_pull := fun _ _ =>
    ok_response (Validator.PrInfo "Add DAG a" "main" "feature/a");
  Validator.get_pull_files := fun _ _ => ok_response pr_files_7;
  Validator.get_zipball := fun _ _ =>
    ok_response (Some [("colav-impactu_airflow-0a1b", Validator.ZDir base_tree_7)]);
  Validator.get_raw := fun url _ =>
    if String.eqb url "https://raw.example/b.py"
    then Responded (Response 404 "Not Found" "")
    else ok_response "def (";
  Validator.uv_venv := fun _ => 0;
  Validator.uv_pip_install := fun _ _ => 0;
  Validator.airflow_db_migrate := fun _ => Validator.Completed 0 "" "";
  Validator.py_compile := fun _ _ => Validator.Completed 0 "" "";
  Validator.dagbag_load := fun _ _ => Validator.Completed 0 "" "";
  Validator.dag_check := fun _ _ path =>
    if endswith path "a.py"
    then Validator.Completed 1 "" "No DAG found"
    else Validator.Completed 0 "" "";
|}.

(** Pull request 9 modifies [dags/b.py]; everything works and every check
    passes.  The base branch has a requirements file. *)
Definition pr_passes : Validator.world := {|
  Validator.now_isoformat := "2025-06-04T10:15:00";
  Validator.sys_executable := "/usr/bin/python3";
  Validator.get_pull := fun _ _ =>
    ok_response (Validator.PrInfo "Tune DAG b" "main" "feature/b");
  Validator.get_pull_files := fun _ _ =>
    ok_response [Validator.PrFile "dags/b.py" "modified" "https://raw.example/b.py"];
  Validator.get_zipball := fun _ _ =>
    ok_response
      (Some [("colav-impactu_airflow-0a1b",
               Validator.ZDir {[ "dags/b.py" := Validator.Raw "print(0)";
                                 "requirements.txt" := Validator.Raw "requests" ]})]);
  Validator.get_raw := fun _ _ => ok_response "print(1)";
  Validator.uv_venv := fun _ => 0;
  Validator.uv_pip_install := fun _ _ => 0;
  Validator.airflow_db_migrate := fun _ => Validator.Completed 0 "" "";
  Validator.py_compile := fun _ _ => Validator.Completed 0 "" "";
  Validator.dagbag_load := fun _ _ => Validator.Completed 0 "" "";
  Validator.dag_check := fun _ _ _ => Validator.Completed 0 "" "";
|}.

(** Pull request 11 modifies [dags/b.py] and adds a file below a directory
    named like the report; everything works and every check passes. *)
Definition pr_shadows_report : Validator.world := {|
  Validator.now_isoformat := "2025-06-06T09:00:00";
  Validator.sys_executable := "/usr/bin/python3";
  Validator.get_pull := fun _ _ =>
    ok_response (Validator.PrInfo "Keep old reports" "main" "feature/reports");
  Validator.get_pull_files := fun _ _ =>
    ok_response
      [Validator.PrFile "dags/b.py" "modified" "https://raw.example/b.py";
       Validator.PrFile "validation_report.json/2024.txt" "added"
         "https://raw.example/2024.txt"];
  Validator.get_zipball := fun _ _ =>
    ok_response
      (Some [("colav-impactu_airflow-0a1b",
               Validator.ZDir {[ "dags/b.py" := Validator.Raw "print(0)" ]})]);
  Validator.get_raw := fun _ _ => ok_response "print(1)";
  Validator.uv_venv := fun _ => 0;
  Validator.uv_pip_install := fun _ _ => 0;
  Validator.airflow_db_migrate := fun _ => Validator.Completed 0 "" "";
  Validator.py_compile := fun _ _ => Validator.Completed 0 "" "";
  Validator.dagbag_load := fun _ _ => Validator.Completed 0 "" "";
  Validator.dag_check := fun _ _ _ => Validator.Completed 0 "" "";
|}.

(** The scratch directory of pull request 7 with a requirements file. *)
Definition state_with_requirements : Validator.state :=
  Validator.State
    {[ "/tmp/airflow_pr_7" := {[ "requirements.txt" := Validator.Raw "requests" ]} ]} [] [].

(** [pip] exits with status 1. *)
Definition pip_fails : AutoDeployTasks.world := {|
  AutoDeployTasks.sys_executable := "/usr/bin/python3";
  AutoDeployTasks.subprocess_run := fun _ =>
    Ok (Validator.Completed 1 "" "ERROR: Could not find a version");
  AutoDeployTasks.py_str := fun _ => "";
|}.

End Scenarios.

(** ** Vocabulary of the properties *)

Module ValidatorSpec.
Import Validator.

(** The stage an event belongs to: the call of a stage function or one of
    its subprocesses. *)
Definition stage_of (e : event) : option stage :=
  match e with
  | EvStage s => Some s
  | EvPyCompile _ _ => Some Syntax
  | EvDagBagLoad _ _ => Some Imports
  | EvDagCheck _ _ _ => Some Structure
  | _ => None
  end.

Definition call_of (e : event) : option stage :=
  match e with
  | EvStage s => Some s
  | _ => None
  end.

(** The calls of the Check Runner, in order. *)
Definition stage_calls (t : list event) : list stage := omap call_of t.

(** The Environment Provisioner: [uv venv], [uv pip install] and the
    database migration. *)
Definition is_provisioning (e : event) : bool :=
  match e with
  | EvUvVenv _ | EvUvPipInstall _ _ | EvDbMigrate _ => true
  | _ => false
  end.

Definition is_dump (e : event) : bool :=
  match e with
  | EvJsonDump _ _ => true
  | _ => false
  end.

(** Events of the setup, fetch and provisioning code: neither a check nor
    a report. *)
Definition plain (e : event) : bool :=
  match stage_of e with
  | Some _ => false
  | None => negb (is_dump e)
  end.

(** The entry [name] of the report's ["checks"] records a failure: a
    non-empty ["failed"] list or ["success"] false. *)
Definition result_failed (r : json) : bool :=
  match r with
  | JObj fields =>
      match dict_get "failed" fields, dict_get "success" fields with
      | Some (JArr (_ :: _)), _ => true
      | _, Some (JBool false) => true
      | _, _ => false
      end
  | _ => false
  end.

Definition check_failed (name : string) (report : dict) : bool :=
  match dict_get "checks" report with
  | Some (JObj checks) =>
      match dict_get name checks with
      | Some r => result_failed r
      | None => false
      end
  | _ => false
  end.

Definition status_of (report : dict) : option string :=
  match dict_get "status" report with
  | Some (JStr s) => Some s
  | _ => None
  end.

Definition valid_status (s : string) : Prop :=
  In s ["running"; "skipped"; "success"; "failed"; "error"].

(** A persisted document is a report: one JSON object with the keys
    [pr_number], [timestamp] and [status], the latter a valid status. *)
Definition is_report (doc : json) : Prop :=
  match doc with
  | JObj d =>
      dict_has "pr_number" d = true /\ dict_has "timestamp" d = true
      /\ exists s, status_of d = Some s /\ valid_status s
  | _ => False
  end.

(** Both metadata requests for pull request [n] succeed, with these
    answers. *)
Definition fetched (w : world) (n : Z) (hd : headers) (info : pr_info)
  (files : list pr_file) : Prop :=
  (exists r, get_pull w (pulls_url n) hd = Responded r
             /\ http_error (pulls_url n) r = None /\ payload r = info)
  /\ (exists r, get_pull_files w (pulls_url n +:+ "/files") hd = Responded r
                /\ http_error (pulls_url n +:+ "/files") r = None /\ payload r = files).

(** What "Clean previous runs" removes: the scratch directory, when there
    is one. *)
Definition removal (fs : gmap string (gmap string file_content)) (base_dir : string)
  : list event :=
  match fs !! base_dir with
  | Some _ => [EvRmtree base_dir]
  | None => []
  end.

(** The report returned on the skipped path. *)
Definition skipped_report (w : world) (n : Z) : dict :=
  [("pr_number", JNum n);
   ("timestamp", JStr (now_isoformat w));
   ("status", JStr "skipped");
   ("checks", JObj []);
   ("message", JStr "No DAG files modified")].

(** The base tree [ws] with the changed files laid over it: every entry
    whose status is not ["removed"] replaces the file at its path by the
    content of the pull request. *)
Definition overlay_tree (content : pr_file -> string) (overlay : list pr_file)
  (ws : gmap string file_content) : gmap string file_content :=
  fold_left
    (fun ws f =>
       if String.eqb (status f) "removed" then ws
       else <[filename f := Raw (content f)]> ws)
    overlay ws.

(** A computation that leaves the report alone and emits plain events
    only. *)
Definition quiet {A} (m : M A) : Prop :=
  forall s,
    st_report (snd (m s)) = st_report s
    /\ exists evs, st_trace (snd (m s)) = st_trace s ++ evs
                   /\ Forall (fun e => plain e = true) evs.

(** A state predicate that such computations cannot break. *)
Definition plain_closed (I : state -> Prop) : Prop :=
  forall s s' evs,
    st_report s' = st_report s ->
    st_trace s' = st_trace s ++ evs ->
    Forall (fun e => plain e = true) evs ->
    I s -> I s'.

(** Triples with a normal and an exceptional postcondition. *)
Definition hoare {A} (P : state -> Prop) (m : M A)
  (Q : A -> state -> Prop) (E : exn -> state -> Prop) : Prop :=
  forall s, P s ->
    match m s with
    | (Ok a, s') => Q a s'
    | (Raise e, s') => E e s'
    end.

(** A computation that hands nothing to [json.dump]. *)
Definition dumpless {A} (m : M A) : Prop :=
  forall s, exists evs, st_trace (snd (m s)) = st_trace s ++ evs
                        /\ Forall (fun e => is_dump e = false) evs.

(** Nothing has been handed to [json.dump] so far. *)
Definition undumped (s : state) : Prop := Forall (fun e => is_dump e = false) (st_trace s).

(** A state predicate kept by a computation, however it ends. *)
Definition preserves {A} (I : state -> Prop) (m : M A) : Prop :=
  forall s, I s -> I (snd (m s)).

(** The outcome of the syntax stage, file by file. *)
Definition compile_ok (w : world) (base_dir python_exe dag_file : string) : bool :=
  returncode (py_compile w python_exe (path_join base_dir dag_file)) =? 0.

Definition compile_error (w : world) (base_dir python_exe dag_file : string) : string :=
  stderr (py_compile w python_exe (path_join base_dir dag_file)).

Definition syntax_outcome (w : world) (base_dir python_exe : string) (dag_files : list string)
  : check_result :=
  CheckResult
    (List.filter (compile_ok w base_dir python_exe) dag_files)
    (map (fun f => (f, compile_error w base_dir python_exe f))
       (List.filter (fun f => negb (compile_ok w base_dir python_exe f)) dag_files)).

(** The same for the structure stage. *)
Definition structure_ok (w : world) (base_dir python_exe dag_file : string) : bool :=
  returncode (dag_check w python_exe (path_join base_dir "dags")
                (path_join base_dir dag_file)) =? 0.

Definition structure_error (w : world) (base_dir python_exe dag_file : string) : string :=
  stderr (dag_check w python_exe (path_join base_dir "dags") (path_join base_dir dag_file)).

Definition structure_outcome (w : world) (base_dir python_exe : string)
  (dag_files : list string) : check_result :=
  CheckResult
    (List.filter (structure_ok w base_dir python_exe) dag_files)
    (map (fun f => (f, structure_error w base_dir python_exe f))
       (List.filter (fun f => negb (structure_ok w base_dir python_exe f)) dag_files)).

(** The outcome of the import stage. *)
Definition import_outcome (w : world) (base_dir python_exe : string) : import_result :=
  let result := dagbag_load w python_exe (path_join base_dir "dags") in
  if negb (returncode result =? 0)
  then ImportResult false (Some (stderr result))
  else ImportResult true None.

(** Before the validation phase: no check has run and ["checks"] is
    empty. *)
Definition pristine (s : state) : Prop :=
  omap stage_of (st_trace s) = []
  /\ dict_get "checks" (st_report s) = Some (JObj []).

(** Fixed stage order with fail-fast: the events of the stages come in the
    order syntax, imports, structure; the stage functions are called at most
    once each, in that order; nothing of a later stage happens once a stage
    has recorded a failure. *)
Definition fail_fast (s : state) : Prop :=
  (exists a b c : nat,
      omap stage_of (st_trace s)
        = replicate a Syntax ++ replicate b Imports ++ replicate c Structure
      /\ (check_failed "syntax" (st_report s) = true -> b = 0%nat /\ c = 0%nat)
      /\ (check_failed "imports" (st_report s) = true -> c = 0%nat))
  /\ stage_calls (st_trace s) `prefix_of` [Syntax; Imports; Structure]
  /\ (check_failed "syntax" (st_report s) = true -> stage_calls (st_trace s) = [Syntax])
  /\ (check_failed "imports" (st_report s) = true ->
      stage_calls (st_trace s) = [Syntax; Imports]).

(** The report has its three mandatory keys. *)
Definition keyed (d : dict) : Prop :=
  dict_has "pr_number" d = true /\ dict_has "timestamp" d = true
  /\ dict_has "status" d = true.

(** What the code can persist: a keyed object whose status is ["success"]
    or ["error"]. *)
Definition dump_sound (e : event) : Prop :=
  match e with
  | EvJsonDump _ (JObj d) =>
      keyed d /\ (status_of d = Some "success" \/ status_of d = Some "error")
  | EvJsonDump _ _ => False
  | _ => True
  end.

Definition reportable (s : state) : Prop :=
  keyed (st_report s) /\ Forall dump_sound (st_trace s).

(** The names of a path, between its slashes. *)
Fixpoint components_from (name rest : string) : list string :=
  match rest with
  | EmptyString => [name]
  | String c rest' =>
      if Ascii.eqb c "/"%char then name :: components_from "" rest'
      else components_from (name +:+ String c EmptyString) rest'
  end.

Definition components (rel : string) : list string := components_from "" rel.

(** A path as a git tree has it, and as the changed-file list of a pull
    request gives it: relative, and every name of it a proper one (not
    empty, not [.] or [..]). *)
Definition repo_path (rel : string) : bool :=
  forallb (fun name => negb (String.eqb name "" || String.eqb name "." || String.eqb name ".."))
    (components rel).

(** One path runs through the other: one of them would have to be a
    directory and a regular file at once. *)
Definition clashes (p q : string) : bool :=
  bool_decide (p ∈ ancestors q) || bool_decide (q ∈ ancestors p).

(** The changed files that are laid over the tree [ws] fit into it: each
    has the path of a git tree, which clashes with no file of [ws] and with
    the path of no other changed file that is laid over. *)
Definition overlay_fits_in (ws : gmap string file_content) (overlay : list pr_file) : Prop :=
  forall f, In f overlay -> status f <> "removed" ->
    repo_path (filename f) = true
    /\ (forall k, is_Some (ws !! k) -> clashes (filename f) k = false)
    /\ (forall g, In g overlay -> status g <> "removed" ->
          clashes (filename f) (filename g) = false).

(** The same, as a check that can be run. *)
Definition overlay_fits (ws : gmap string file_content) (overlay : list pr_file) : bool :=
  forallb
    (fun f =>
       String.eqb (status f) "removed"
       || (repo_path (filename f)
           && bool_decide (map_Forall (fun k _ => clashes (filename f) k = false) ws)
           && forallb
                (fun g =>
                   String.eqb (status g) "removed"
                   || negb (clashes (filename f) (filename g)))
                overlay))
    overlay.

(** The events of the overlay loop on a list of changed files whose
    downloads succeed: one request and one write per file that is not
    removed, in list order. *)
Definition overlay_events (base_dir : string) (overlay : list pr_file) : list event :=
  flat_map
    (fun f =>
       if String.eqb (status f) "removed" then []
       else [EvHttpGet (raw_url f); EvWrite (path_join base_dir (filename f))])
    overlay.

(** The download of the changed file [f] succeeds with [content]. *)
Definition downloaded (w : world) (hd : headers) (f : pr_file) (content : string) : Prop :=
  exists r, get_raw w (raw_url f) hd = Responded r
            /\ http_error (raw_url f) r = None /\ payload r = content.

(** The download of the changed file [f] fails with [e]: the request
    raises, or the status is an error status. *)
Definition download_fails (w : world) (hd : headers) (f : pr_file) (e : exn) : Prop :=
  get_raw w (raw_url f) hd = ConnectionFailed e
  \/ exists r, get_raw w (raw_url f) hd = Responded r /\ http_error (raw_url f) r = Some e.

(** What a step of a run for the scratch directory [base_dir] may do to
    the state: other directories stay as they are, the scratch directory
    does not disappear, and the report keeps its [pr_number] and
    [timestamp]. *)
Definition within (base_dir : string) (s s' : state) : Prop :=
  (forall d, d <> base_dir -> st_fs s' !! d = st_fs s !! d)
  /\ (is_Some (st_fs s !! base_dir) -> is_Some (st_fs s' !! base_dir))
  /\ dict_get "pr_number" (st_report s') = dict_get "pr_number" (st_report s)
  /\ dict_get "timestamp" (st_report s') = dict_get "timestamp" (st_report s).

Definition tidy {A} (base_dir : string) (m : M A) : Prop :=
  forall s, within base_dir s (snd (m s)).

(** The report file of [base_dir] holds the report of the state, and
    writing it was the last thing done. *)
Definition persisted (base_dir : string) (s : state) : Prop :=
  st_fs s !! base_dir ≫= (.!! report_name) = Some (JsonText (JObj (st_report s)))
  /\ last (st_trace s)
     = Some (EvJsonDump (path_join base_dir report_name) (JObj (st_report s))).

(** The request for the changed files of pull request [n] is answered with
    [files]. *)
Definition files_answer (w : world) (n : Z) (hd : headers) (files : list pr_file) : Prop :=
  exists r, get_pull_files w (pulls_url n +:+ "/files") hd = Responded r
            /\ http_error (pulls_url n +:+ "/files") r = None /\ payload r = files.

Definition venv_python (base_dir : string) : string :=
  path_join (path_join (path_join base_dir "venv") "bin") "python".

(** Every check passes for these files under this interpreter. *)
Definition all_pass (w : world) (base_dir python_exe : string) (dag_files : list string)
  : Prop :=
  (forall f, In f dag_files -> compile_ok w base_dir python_exe f = true)
  /\ returncode (dagbag_load w python_exe (path_join base_dir "dags")) = 0
  /\ (forall f, In f dag_files -> structure_ok w base_dir python_exe f = true).

(** What is known when the body of [validate_pr] returns [report] in the
    state [s]: the report is the one of the state, and either the run was
    skipped, nothing was persisted and no changed file is a DAG file, or
    the run succeeded, the report is persisted and every check passed under
    the interpreter in use. *)
Definition outcome_ok (w : world) (n : Z) (hd : headers) (base_dir : string)
  (report : dict) (s : state) : Prop :=
  report = st_report s
  /\ ((status_of report = Some "skipped" /\ undumped s
       /\ exists files, files_answer w n hd files /\ changed_dag_files files = [])
      \/ (status_of report = Some "success" /\ persisted base_dir s
          /\ exists files python_exe,
              files_answer w n hd files
              /\ changed_dag_files files <> []
              /\ (python_exe = sys_executable w \/ python_exe = venv_python base_dir)
              /\ all_pass w base_dir python_exe (changed_dag_files files))).

End ValidatorSpec.

(** ** Properties *)

Example path_join_rel : path_join "/tmp/airflow_pr_7" "dags/a.py" = "/tmp/airflow_pr_7/dags/a.py".
Proof. reflexivity. Qed.

Example endswith_py : endswith "dags/a.py" ".py" = true /\ endswith "dags/a.pyc" ".py" = false.
Proof. split; reflexivity. Qed.

Example str_of_Z_42 : str_of_Z 42 = "42" /\ str_of_Z (-3) = "-3" /\ str_of_nat 0 = "0".
Proof. repeat split; reflexivity. Qed.

Lemma dict_get_set (k k' : string) (v : json) (d : dict) :
  dict_get k (dict_set k' v d) = if String.eqb k k' then Some v else dict_get k d.
Proof.
  induction d as [|[k0 v0] d IH]; simpl.
  - reflexivity.
  - destruct (String.eqb_spec k' k0) as [->|Hne]; simpl.
    + destruct (String.eqb k k0); reflexivity.
    + rewrite IH. destruct (String.eqb_spec k k0) as [->|Hne']; [|reflexivity].
      destruct (String.eqb_spec k0 k'); congruence.
Qed.

Lemma dict_get_set_eq (k : string) (v : json) (d : dict) :
  dict_get k (dict_set k v d) = Some v.
Proof. rewrite dict_get_set, String.eqb_refl. reflexivity. Qed.

Lemma dict_get_set_ne (k k' : string) (v : json) (d : dict) :
  k <> k' -> dict_get k (dict_set k' v d) = dict_get k d.
Proof.
  intros Hne. rewrite dict_get_set. destruct (String.eqb_spec k k'); congruence.
Qed.

(** *** The polling job *)

Module AutoDeployFacts.
Import AutoDeploy.

Lemma py_ne_str (last : option string) (sha : string) :
  py_ne last (JStr sha) = negb (bool_decide (last = Some sha)).
Proof.
  destruct last as [s|]; simpl.
  - destruct (String.eqb_spec s sha) as [->|Hne].
    + rewrite bool_decide_eq_true_2; reflexivity.
    + rewrite bool_decide_eq_false_2; [reflexivity | congruence].
  - reflexivity.
Qed.

(** C8.  When the latest commit is fetched as the string [sha] and the
    persisted variable reads [last] (a string, or [None] when absent),
    [check_for_updates] returns [True] and pushes [sha] to XCom under
    ["new_commit"] exactly when [last] differs from [sha]; otherwise it
    returns [False] and leaves XCom alone. *)
Theorem check_for_updates_reports_change
  (w : world) (xcom : gmap string json) (r : response (option json))
  (body : json) (sha : string) (last : option string) :
  requests_get w repo_url = Responded r ->
  http_error repo_url r = None ->
  payload r = Some body ->
  subscript body "sha" = Ok (JStr sha) ->
  Variable_get w last_deployed_key = Ok last ->
  (check_for_updates w xcom = (Ok true, <["new_commit" := JStr sha]> xcom)
     <-> last <> Some sha)
  /\ (check_for_updates w xcom = (Ok false, xcom) <-> last = Some sha)
  /\ (fst (check_for_updates w xcom) = Ok true <-> last <> Some sha).
Proof.
  intros Hget Hstatus Hbody Hsha Hvar.
  unfold check_for_updates, check_body.
  rewrite Hget, Hstatus, Hbody, Hsha, Hvar, py_ne_str.
  destruct (decide (last = Some sha)) as [Heq|Hne].
  - rewrite bool_decide_eq_true_2 by exact Heq. simpl.
    repeat split; intros; congruence.
  - rewrite bool_decide_eq_false_2 by exact Hne. simpl.
    repeat split; intros; congruence.
Qed.

Lemma check_for_updates_reports_change_witness :
  check_for_updates Scenarios.poll_new_commit ∅
  = (Ok true, <["new_commit" := JStr "b2c4"]> ∅).
Proof.
  apply (check_for_updates_reports_change Scenarios.poll_new_commit ∅
           (Response 200 "OK" (Some (JObj [("sha", JStr "b2c4")])))
           (JObj [("sha", JStr "b2c4")]) "b2c4" (Some "a1f3")
           eq_refl eq_refl eq_refl eq_refl eq_refl).
  discriminate.
Defined.

(** C9.  [check_for_updates] never raises: it always returns a boolean, and
    it returns [False] without touching XCom whenever the fetch of the
    latest commit fails (the request raises, the status is an error status,
    the body is not JSON, ["sha"] is missing) or the read of the persisted
    variable raises. *)
Theorem check_for_updates_swallows_errors (w : world) (xcom : gmap string json) :
  (exists b xcom', check_for_updates w xcom = (Ok b, xcom'))
  /\ (fetch_fails w \/ (exists e, Variable_get w last_deployed_key = Raise e) ->
      check_for_updates w xcom = (Ok false, xcom)).
Proof.
  unfold check_for_updates, check_body, fetch_fails. split.
  - destruct (requests_get w repo_url) as [e|r]; [eauto|].
    destruct (http_error repo_url r); [eauto|].
    destruct (payload r) as [body|]; [|eauto].
    destruct (subscript body "sha") as [latest|e]; [|eauto].
    destruct (Variable_get w last_deployed_key) as [last|e]; [|eauto].
    destruct (py_ne last latest); eauto.
  - intros Hfail.
    destruct (requests_get w repo_url) as [e|r]; [reflexivity|].
    destruct (http_error repo_url r) as [e|] eqn:Hstatus; [reflexivity|].
    destruct (payload r) as [body|] eqn:Hbody; [|reflexivity].
    destruct (subscript body "sha") as [latest|e] eqn:Hsha; [|reflexivity].
    destruct Hfail as [[Hs|[Hp|(body' & e & Hp & Hs)]]|[e Hvar]].
    + destruct Hs; discriminate.
    + discriminate.
    + congruence.
    + rewrite Hvar. reflexivity.
Qed.

Lemma check_for_updates_swallows_errors_witness :
  check_for_updates Scenarios.poll_timeout ∅ = (Ok false, ∅).
Proof.
  apply (proj2 (check_for_updates_swallows_errors Scenarios.poll_timeout ∅)).
  left. exact I.
Defined.

End AutoDeployFacts.

(** *** The validator: quiet computations *)

Module ValidatorFacts.
Import Validator ValidatorSpec.

(** The two ways a write ends. *)
Lemma write_file_cases (dir rel : string) (c : file_content) (ev : event) (s : state) :
  (exists e, write_file dir rel c ev s = (Raise e, s))
  \/ (exists ws,
        st_fs s !! dir = Some ws
        /\ write_file dir rel c ev s
           = (Ok tt,
              State (<[dir := <[rel := c]> ws]> (st_fs s)) (st_report s)
                (st_trace s ++ [ev]))).
Proof.
  unfold write_file. destruct (st_fs s !! dir) as [ws|]; [|eauto].
  destruct (open_error dir ws rel (ancestors rel)); [eauto|].
  destruct (is_directory ws rel); eauto.
Qed.

Lemma write_file_makedirs_cases (dir rel : string) (c : file_content) (s : state) :
  (exists e, write_file_makedirs dir rel c s = (Raise e, s))
  \/ write_file_makedirs dir rel c s
     = (Ok tt,
        State (<[dir := <[rel := c]> (default ∅ (st_fs s !! dir))]> (st_fs s)) (st_report s)
          (st_trace s ++ [EvWrite (path_join dir rel)])).
Proof.
  unfold write_file_makedirs.
  destruct (makedirs_error dir (default ∅ (st_fs s !! dir)) (ancestors rel)); [eauto|].
  destruct (is_directory (default ∅ (st_fs s !! dir)) rel); eauto.
Qed.

Lemma save_report_cases (base_dir : string) (s : state) :
  (exists e, save_report base_dir s = (Raise e, s))
  \/ (exists ws,
        st_fs s !! base_dir = Some ws
        /\ save_report base_dir s
           = (Ok tt,
              State (<[base_dir := <[report_name := JsonText (JObj (st_report s))]> ws]>
                       (st_fs s))
                (st_report s)
                (st_trace s
                   ++ [EvJsonDump (path_join base_dir report_name) (JObj (st_report s))]))).
Proof.
  unfold save_report, bind, get_report.
  destruct (write_file_cases base_dir report_name (JsonText (JObj (st_report s)))
              (EvJsonDump (path_join base_dir report_name) (JObj (st_report s))) s)
    as [[e ->]|(ws & Hws & ->)]; eauto.
Qed.

Lemma quiet_ret {A} (a : A) : quiet (ret a).
Proof. intros s. split; [reflexivity|]. exists []. rewrite app_nil_r. auto. Qed.

Lemma quiet_raise {A} (e : exn) : quiet (@raise A e).
Proof. intros s. split; [reflexivity|]. exists []. rewrite app_nil_r. auto. Qed.

Lemma quiet_bind {A B} (m : M A) (k : A -> M B) :
  quiet m -> (forall a, quiet (k a)) -> quiet (bind m k).
Proof.
  intros Hm Hk s. unfold bind.
  destruct (Hm s) as [Hr (evs & Ht & Hp)].
  destruct (m s) as [[a|e] s1]; simpl in *.
  - destruct (Hk a s1) as [Hr' (evs' & Ht' & Hp')].
    split; [congruence|]. exists (evs ++ evs').
    rewrite Ht', Ht, app_assoc. split; [reflexivity|]. apply Forall_app; auto.
  - split; [assumption|]. exists evs. auto.
Qed.

Lemma quiet_emit (e : event) : plain e = true -> quiet (emit e).
Proof. intros He s. split; [reflexivity|]. exists [e]. simpl. auto. Qed.

Lemma quiet_if {A} (b : bool) (m1 m2 : M A) :
  quiet m1 -> quiet m2 -> quiet (if b then m1 else m2).
Proof. destruct b; auto. Qed.

Lemma quiet_for_each {A} (l : list A) (body : A -> M unit) :
  (forall x, quiet (body x)) -> quiet (for_each l body).
Proof.
  intros Hbody. induction l as [|x l IH]; simpl.
  - apply quiet_ret.
  - apply quiet_bind; auto.
Qed.

Lemma quiet_path_exists (dir : string) : quiet (path_exists dir).
Proof. intros s. split; [reflexivity|]. exists []. rewrite app_nil_r. auto. Qed.

Lemma quiet_rmtree (dir : string) : quiet (rmtree dir).
Proof.
  intros s. unfold rmtree. destruct (st_fs s !! dir); simpl.
  - split; [reflexivity|]. exists [EvRmtree dir]. auto.
  - split; [reflexivity|]. exists []. rewrite app_nil_r. auto.
Qed.

Lemma quiet_makedirs (dir : string) : quiet (makedirs dir).
Proof.
  intros s. unfold makedirs. destruct (st_fs s !! dir); simpl.
  - split; [reflexivity|]. exists []. rewrite app_nil_r. auto.
  - split; [reflexivity|]. exists [EvMakedirs dir]. auto.
Qed.

Lemma quiet_copytree (tree : gmap string file_content) (dst : string) :
  quiet (copytree tree dst).
Proof. intros s. split; [reflexivity|]. exists [EvCopytree dst]. auto. Qed.

Lemma quiet_write_file (dir rel : string) (c : file_content) (e : event) :
  plain e = true -> quiet (write_file dir rel c e).
Proof.
  intros He s.
  destruct (write_file_cases dir rel c e s) as [[e0 ->]|(ws & _ & ->)];
    cbn [snd st_report st_trace].
  - split; [reflexivity|]. exists []. rewrite app_nil_r. auto.
  - split; [reflexivity|]. exists [e]. auto.
Qed.

Lemma quiet_write_file_makedirs (dir rel : string) (c : file_content) :
  quiet (write_file_makedirs dir rel c).
Proof.
  intros s.
  destruct (write_file_makedirs_cases dir rel c s) as [[e0 ->]| ->];
    cbn [snd st_report st_trace].
  - split; [reflexivity|]. exists []. rewrite app_nil_r. auto.
  - split; [reflexivity|]. exists [EvWrite (path_join dir rel)]. auto.
Qed.

Lemma quiet_http_get {A} (url : string) (answer : http_result A) :
  quiet (http_get url answer).
Proof.
  unfold http_get. apply quiet_bind; [apply quiet_emit; reflexivity|]. intros _.
  destruct answer as [e|r]; [apply quiet_raise|].
  destruct (http_error url r); [apply quiet_raise | apply quiet_ret].
Qed.

Lemma quiet_check_call (cmd : list string) (e : event) (exit_status : Z) :
  plain e = true -> quiet (check_call cmd e exit_status).
Proof.
  intros He. unfold check_call. apply quiet_bind; [apply quiet_emit; exact He|].
  intros _. apply quiet_if; [apply quiet_ret | apply quiet_raise].
Qed.

Create HintDb quiet.
#[local] Hint Resolve quiet_ret quiet_raise quiet_bind quiet_emit quiet_if quiet_for_each
  quiet_path_exists quiet_rmtree quiet_makedirs quiet_copytree quiet_write_file
  quiet_write_file_makedirs quiet_http_get quiet_check_call : quiet.

Lemma quiet_clean_previous_runs (base_dir : string) : quiet (clean_previous_runs base_dir).
Proof. unfold clean_previous_runs. auto 10 with quiet. Qed.

Lemma quiet_fetch_pr_info (w : world) (n : Z) (hd : headers) : quiet (fetch_pr_info w n hd).
Proof. unfold fetch_pr_info. auto with quiet. Qed.

Lemma quiet_fetch_pr_files (w : world) (n : Z) (hd : headers) : quiet (fetch_pr_files w n hd).
Proof. unfold fetch_pr_files. auto with quiet. Qed.

Lemma quiet_download_branch_archive (w : world) (branch base_dir : string) (hd : headers) :
  quiet (download_branch_archive w branch base_dir hd).
Proof.
  unfold download_branch_archive. apply quiet_bind; [auto with quiet|].
  intros [[|[name [bytes|tree]] rest]|]; auto with quiet.
Qed.

Lemma quiet_download_pr_file (w : world) (file_path url base_dir : string) (hd : headers) :
  quiet (download_pr_file w file_path url base_dir hd).
Proof. unfold download_pr_file. auto with quiet. Qed.

Lemma quiet_overlay_pr_changes (w : world) (pr_files : list pr_file) (base_dir : string)
  (hd : headers) : quiet (overlay_pr_changes w pr_files base_dir hd).
Proof.
  unfold overlay_pr_changes. apply quiet_for_each. intros f.
  apply quiet_if; [apply quiet_download_pr_file | apply quiet_ret].
Qed.

Lemma quiet_setup_virtual_environment (w : world) (base_dir requirements : string) :
  quiet (setup_virtual_environment w base_dir requirements).
Proof.
  intros s. unfold setup_virtual_environment.
  destruct (exists_in (default ∅ (st_fs s !! base_dir)) requirements); cbn [negb].
  - revert s. fold (quiet (A := string * string)).
    repeat (apply quiet_bind; [apply quiet_check_call; reflexivity | intros _]).
    apply quiet_ret.
  - apply quiet_ret.
Qed.

Lemma quiet_initialize_test_database (w : world) (python_exe : string) :
  quiet (initialize_test_database w python_exe).
Proof.
  unfold initialize_test_database.
  apply quiet_bind; [apply quiet_emit; reflexivity | intros _].
  apply quiet_if; [apply quiet_raise | apply quiet_ret].
Qed.

Lemma quiet_environment_setup (w : world) (base_dir : string) :
  quiet (environment_setup w base_dir).
Proof.
  unfold environment_setup.
  apply quiet_bind; [apply quiet_setup_virtual_environment | intros venv].
  apply quiet_bind; [apply quiet_initialize_test_database | intros _].
  apply quiet_ret.
Qed.

(** *** Triples *)

Lemma hoare_ret {A} (P : state -> Prop) (a : A) (Q : A -> state -> Prop)
  (E : exn -> state -> Prop) :
  (forall s, P s -> Q a s) -> hoare P (ret a) Q E.
Proof. intros H s Hs. simpl. auto. Qed.

Lemma hoare_bind {A B} (P : state -> Prop) (m : M A) (k : A -> M B)
  (Q : A -> state -> Prop) (R : B -> state -> Prop) (E : exn -> state -> Prop) :
  hoare P m Q E -> (forall a, hoare (Q a) (k a) R E) -> hoare P (bind m k) R E.
Proof.
  intros Hm Hk s Hs. unfold bind. specialize (Hm s Hs).
  destruct (m s) as [[a|e] s1]; [apply Hk; assumption | assumption].
Qed.

Lemma hoare_conseq {A} (P P' : state -> Prop) (m : M A)
  (Q Q' : A -> state -> Prop) (E E' : exn -> state -> Prop) :
  hoare P' m Q' E' ->
  (forall s, P s -> P' s) -> (forall a s, Q' a s -> Q a s) -> (forall e s, E' e s -> E e s) ->
  hoare P m Q E.
Proof.
  intros Hm HP HQ HE s Hs. specialize (Hm s (HP s Hs)).
  destruct (m s) as [[a|e] s1]; auto.
Qed.

Lemma hoare_try_except {A} (P : state -> Prop) (m : M A) (h : exn -> M A)
  (Q : A -> state -> Prop) (E' E : exn -> state -> Prop) :
  hoare P m Q E' -> (forall e, hoare (E' e) (h e) Q E) -> hoare P (try_except m h) Q E.
Proof.
  intros Hm Hh s Hs. unfold try_except. specialize (Hm s Hs).
  destruct (m s) as [[a|e] s1]; [assumption | apply Hh; assumption].
Qed.

Lemma hoare_preserves {A} (I : state -> Prop) (m : M A) :
  preserves I m -> hoare I m (fun _ => I) (fun _ => I).
Proof.
  intros Hm s Hs. specialize (Hm s Hs). destruct (m s) as [[a|e] s1]; exact Hm.
Qed.

Lemma hoare_final {A} (P Q : state -> Prop) (m : M A) (s : state) :
  hoare P m (fun _ => Q) (fun _ => Q) -> P s -> Q (snd (m s)).
Proof.
  intros Hm Hs. specialize (Hm s Hs). destruct (m s) as [[a|e] s1]; exact Hm.
Qed.

Lemma quiet_preserves {A} (I : state -> Prop) (m : M A) :
  plain_closed I -> quiet m -> preserves I m.
Proof.
  intros HI Hm s Hs. destruct (Hm s) as [Hr (evs & Ht & Hp)].
  exact (HI s (snd (m s)) evs Hr Ht Hp Hs).
Qed.

Lemma hoare_quiet {A} (I : state -> Prop) (m : M A) :
  plain_closed I -> quiet m -> hoare I m (fun _ => I) (fun _ => I).
Proof. intros HI Hm. apply hoare_preserves, quiet_preserves; assumption. Qed.

Lemma preserves_ret {A} (I : state -> Prop) (a : A) : preserves I (ret a).
Proof. intros s Hs. exact Hs. Qed.

Lemma preserves_raise {A} (I : state -> Prop) (e : exn) : preserves I (@raise A e).
Proof. intros s Hs. exact Hs. Qed.

Lemma preserves_bind {A B} (I : state -> Prop) (m : M A) (k : A -> M B) :
  preserves I m -> (forall a, preserves I (k a)) -> preserves I (bind m k).
Proof.
  intros Hm Hk s Hs. unfold bind. specialize (Hm s Hs).
  destruct (m s) as [[a|e] s1]; [apply Hk|]; exact Hm.
Qed.

(** *** The check stages, run *)

Lemma validate_syntax_loop_run (w : world) (base_dir python_exe : string)
  (dag_files : list string) (acc : check_result) (s : state) :
  validate_syntax_loop w base_dir python_exe dag_files acc s
  = (Ok (CheckResult
           (passed acc ++ passed (syntax_outcome w base_dir python_exe dag_files))
           (failed acc ++ failed (syntax_outcome w base_dir python_exe dag_files))),
     State (st_fs s) (st_report s)
       (st_trace s ++ map (fun f => EvPyCompile python_exe (path_join base_dir f)) dag_files)).
Proof.
  revert acc s. induction dag_files as [|f rest IH]; intros acc s.
  - simpl. unfold ret. rewrite !app_nil_r. destruct acc, s; reflexivity.
  - cbn [validate_syntax_loop]. unfold bind, emit.
    change (returncode (py_compile w python_exe (path_join base_dir f)) =? 0)
      with (compile_ok w base_dir python_exe f).
    change (stderr (py_compile w python_exe (path_join base_dir f)))
      with (compile_error w base_dir python_exe f).
    cbn [syntax_outcome List.filter passed failed].
    destruct (compile_ok w base_dir python_exe f) eqn:Hok; rewrite IH;
      cbn [negb syntax_outcome passed failed map st_fs st_report st_trace];
      rewrite <- !app_assoc; reflexivity.
Qed.

Lemma validate_syntax_run (w : world) (dag_files : list string) (base_dir python_exe : string)
  (s : state) :
  validate_syntax w dag_files base_dir python_exe s
  = (Ok (syntax_outcome w base_dir python_exe dag_files),
     State (st_fs s) (st_report s)
       (st_trace s ++ EvStage Syntax
          :: map (fun f => EvPyCompile python_exe (path_join base_dir f)) dag_files)).
Proof.
  unfold validate_syntax, bind, emit. rewrite validate_syntax_loop_run.
  cbn [passed failed st_fs st_report st_trace app]. rewrite <- app_assoc. reflexivity.
Qed.

Lemma validate_dag_structure_loop_run (w : world) (base_dir python_exe : string)
  (dag_files : list string) (acc : check_result) (s : state) :
  validate_dag_structure_loop w base_dir python_exe dag_files acc s
  = (Ok (CheckResult
           (passed acc ++ passed (structure_outcome w base_dir python_exe dag_files))
           (failed acc ++ failed (structure_outcome w base_dir python_exe dag_files))),
     State (st_fs s) (st_report s)
       (st_trace s
          ++ map (fun f => EvDagCheck python_exe (path_join base_dir "dags")
                             (path_join base_dir f)) dag_files)).
Proof.
  revert acc s. induction dag_files as [|f rest IH]; intros acc s.
  - simpl. unfold ret. rewrite !app_nil_r. destruct acc, s; reflexivity.
  - cbn [validate_dag_structure_loop]. unfold bind, emit.
    change (returncode (dag_check w python_exe (path_join base_dir "dags")
                          (path_join base_dir f)) =? 0)
      with (structure_ok w base_dir python_exe f).
    change (stderr (dag_check w python_exe (path_join base_dir "dags")
                      (path_join base_dir f)))
      with (structure_error w base_dir python_exe f).
    cbn [structure_outcome List.filter passed failed].
    destruct (structure_ok w base_dir python_exe f) eqn:Hok; rewrite IH;
      cbn [negb structure_outcome passed failed map st_fs st_report st_trace];
      rewrite <- !app_assoc; reflexivity.
Qed.

Lemma validate_dag_structure_run (w : world) (dag_files : list string)
  (base_dir python_exe : string) (s : state) :
  validate_dag_structure w dag_files base_dir python_exe s
  = (Ok (structure_outcome w base_dir python_exe dag_files),
     State (st_fs s) (st_report s)
       (st_trace s ++ EvStage Structure
          :: map (fun f => EvDagCheck python_exe (path_join base_dir "dags")
                             (path_join base_dir f)) dag_files)).
Proof.
  unfold validate_dag_structure, bind, emit. rewrite validate_dag_structure_loop_run.
  cbn [passed failed st_fs st_report st_trace app]. rewrite <- app_assoc. reflexivity.
Qed.

(** *** Counting in filtered lists *)

Lemma count_occ_filter (p : string -> bool) (l : list string) (x : string) :
  count_occ string_dec (List.filter p l) x
  = if p x then count_occ string_dec l x else 0%nat.
Proof.
  induction l as [|y l IH]; simpl.
  - destruct (p x); reflexivity.
  - destruct (p y) eqn:Hy; simpl; destruct (string_dec y x) as [->|Hne];
      rewrite ?IH, ?Hy; reflexivity.
Qed.

Lemma map_fst_tagged {B} (e : string -> B) (l : list string) :
  map fst (map (fun f => (f, e f)) l) = l.
Proof. induction l as [|x l IH]; simpl; congruence. Qed.

Lemma in_tagged {B} (e : string -> B) (l : list string) (f : string) (b : B) :
  In (f, b) (map (fun f => (f, e f)) l) <-> In f l /\ b = e f.
Proof.
  rewrite in_map_iff. split.
  - intros (x & Hx & Hin). inversion Hx; subst. auto.
  - intros [Hin ->]. eauto.
Qed.

(** *** The syntax stage *)

(** C4.  [validate_syntax] always returns, and it partitions its input:
    a file whose compile check succeeds occurs in ["passed"] as often as in
    the input and never in ["failed"]; a file whose compile check fails
    occurs in ["failed"] as often as in the input, always paired with the
    error text of its own check, and never in ["passed"].  On a list of
    changed files (no path twice) each file therefore appears exactly once,
    on its side.  What is in the two lists does not depend on the order of
    the input. *)
Theorem validate_syntax_partitions (w : world) (dag_files : list string)
  (base_dir python_exe : string) (s : state) :
  exists r s',
    validate_syntax w dag_files base_dir python_exe s = (Ok r, s')
    /\ (forall f, compile_ok w base_dir python_exe f = true ->
          count_occ string_dec (passed r) f = count_occ string_dec dag_files f
          /\ ~ In f (map fst (failed r)))
    /\ (forall f, compile_ok w base_dir python_exe f = false ->
          count_occ string_dec (map fst (failed r)) f = count_occ string_dec dag_files f
          /\ ~ In f (passed r)
          /\ forall e, In (f, e) (failed r) -> e = compile_error w base_dir python_exe f)
    /\ (List.NoDup dag_files -> forall f, In f dag_files ->
          if compile_ok w base_dir python_exe f
          then count_occ string_dec (passed r) f = 1%nat
          else count_occ string_dec (map fst (failed r)) f = 1%nat
               /\ In (f, compile_error w base_dir python_exe f) (failed r))
    /\ (forall dag_files' s2, Permutation dag_files dag_files' ->
          exists r' s2',
            validate_syntax w dag_files' base_dir python_exe s2 = (Ok r', s2')
            /\ (forall f, In f (passed r) <-> In f (passed r'))
            /\ (forall fe, In fe (failed r) <-> In fe (failed r'))).
Proof.
  rewrite validate_syntax_run. eexists _, _. split; [reflexivity|].
  cbn [syntax_outcome passed failed]. rewrite map_fst_tagged.
  split; [|split; [|split]].
  - intros f Hok. rewrite count_occ_filter, Hok. split; [reflexivity|].
    rewrite filter_In, Hok. intros [_ H]; discriminate.
  - intros f Hbad. rewrite count_occ_filter, Hbad. split; [reflexivity|].
    split.
    + rewrite filter_In, Hbad. intros [_ H]; discriminate.
    + intros e He. apply in_tagged in He. apply He.
  - intros Hnd f Hin.
    assert (Hone : count_occ string_dec dag_files f = 1%nat).
    { exact (proj1 (NoDup_count_occ' string_dec dag_files) Hnd f Hin). }
    destruct (compile_ok w base_dir python_exe f) eqn:Hok.
    + rewrite count_occ_filter, Hok. exact Hone.
    + rewrite count_occ_filter, Hok. split; [exact Hone|].
      apply in_tagged. split; [|reflexivity]. apply filter_In. rewrite Hok. auto.
  - intros dag_files' s2 Hperm. rewrite validate_syntax_run.
    eexists _, _. split; [reflexivity|]. cbn [syntax_outcome passed failed]. split.
    + intros f. rewrite !filter_In. split; intros [Hin Hok]; split; auto.
      * eapply Permutation_in; eassumption.
      * eapply Permutation_in; [apply Permutation_sym|]; eassumption.
    + intros [f e]. rewrite !in_tagged, !filter_In.
      split; intros [[Hin Hok] He]; repeat split; auto.
      * eapply Permutation_in; eassumption.
      * eapply Permutation_in; [apply Permutation_sym|]; eassumption.
Qed.

Lemma validate_syntax_partitions_witness :
  exists r s',
    validate_syntax Scenarios.pr_syntax_error ["dags/a.py"; "dags/b.py"]
      "/tmp/airflow_pr_7" "/usr/bin/python3" Scenarios.fresh_state = (Ok r, s')
    /\ count_occ string_dec (passed r) "dags/b.py" = 1%nat
    /\ count_occ string_dec (map fst (failed r)) "dags/a.py" = 1%nat
    /\ In ("dags/a.py", "SyntaxError: invalid syntax") (failed r).
Proof.
  destruct (validate_syntax_partitions Scenarios.pr_syntax_error ["dags/a.py"; "dags/b.py"]
              "/tmp/airflow_pr_7" "/usr/bin/python3" Scenarios.fresh_state)
    as (r & s' & Hrun & _ & _ & Hnodup & _).
  assert (Hnd : List.NoDup ["dags/a.py"; "dags/b.py"]).
  { repeat constructor; simpl; intuition discriminate. }
  exists r, s'. split; [exact Hrun|]. split; [|].
  - exact (Hnodup Hnd "dags/b.py" (or_intror (or_introl eq_refl))).
  - exact (Hnodup Hnd "dags/a.py" (or_introl eq_refl)).
Defined.

(** *** Stage order and fail-fast *)

Lemma plain_unstaged (e : event) : plain e = true -> stage_of e = None.
Proof. unfold plain. destruct (stage_of e); [discriminate | reflexivity]. Qed.

Lemma plain_not_dump (e : event) : plain e = true -> is_dump e = false.
Proof.
  unfold plain. destruct (stage_of e); [discriminate|].
  destruct (is_dump e); [discriminate | reflexivity].
Qed.

Lemma call_of_stage_of (e : event) (st : stage) : call_of e = Some st -> stage_of e = Some st.
Proof. destruct e; simpl; congruence. Qed.

Lemma omap_stage_of_unstaged (evs : list event) :
  Forall (fun e => stage_of e = None) evs -> omap stage_of evs = [].
Proof.
  induction 1 as [|e evs He _ IH]; [reflexivity|]. cbn. rewrite He. exact IH.
Qed.

Lemma omap_call_of_unstaged (evs : list event) :
  Forall (fun e => stage_of e = None) evs -> omap call_of evs = [].
Proof.
  induction 1 as [|e evs He _ IH]; [reflexivity|]. cbn.
  destruct (call_of e) as [st|] eqn:Hcall; [|exact IH].
  apply call_of_stage_of in Hcall. congruence.
Qed.

Lemma unstaged_of_omap (t : list event) :
  omap stage_of t = [] -> Forall (fun e => stage_of e = None) t.
Proof.
  induction t as [|e t IH]; [constructor|]. cbn.
  destruct (stage_of e) eqn:He; [discriminate|]. auto.
Qed.

Lemma stages_of_py_compile (python_exe base_dir : string) (files : list string) :
  omap stage_of (map (fun f => EvPyCompile python_exe (path_join base_dir f)) files)
  = replicate (length files) Syntax
  /\ omap call_of (map (fun f => EvPyCompile python_exe (path_join base_dir f)) files) = [].
Proof.
  induction files as [|f files [IH1 IH2]]; [split; reflexivity|].
  cbn [omap list_omap map stage_of call_of length replicate]. rewrite IH1, IH2.
  split; reflexivity.
Qed.

Lemma stages_of_dag_check (python_exe base_dir : string) (files : list string) :
  omap stage_of (map (fun f => EvDagCheck python_exe (path_join base_dir "dags")
                                 (path_join base_dir f)) files)
  = replicate (length files) Structure
  /\ omap call_of (map (fun f => EvDagCheck python_exe (path_join base_dir "dags")
                                   (path_join base_dir f)) files) = [].
Proof.
  induction files as [|f files [IH1 IH2]]; [split; reflexivity|].
  cbn [omap list_omap map stage_of call_of length replicate]. rewrite IH1, IH2.
  split; reflexivity.
Qed.

Lemma check_failed_frame (name : string) (d d' : dict) :
  dict_get "checks" d' = dict_get "checks" d -> check_failed name d' = check_failed name d.
Proof. intros H. unfold check_failed. rewrite H. reflexivity. Qed.

Lemma fail_fast_frame (s s' : state) (evs : list event) :
  dict_get "checks" (st_report s') = dict_get "checks" (st_report s) ->
  st_trace s' = st_trace s ++ evs ->
  Forall (fun e => stage_of e = None) evs ->
  fail_fast s -> fail_fast s'.
Proof.
  intros Hc Ht Hev H. unfold fail_fast, stage_calls in *.
  rewrite Ht, !omap_app, (omap_stage_of_unstaged evs Hev),
    (omap_call_of_unstaged evs Hev), !app_nil_r.
  rewrite !(check_failed_frame _ _ _ Hc). exact H.
Qed.

Lemma fail_fast_plain_closed : plain_closed fail_fast.
Proof.
  intros s s' evs Hr Ht Hp. apply (fail_fast_frame s s' evs); [congruence | exact Ht |].
  eapply Forall_impl; [exact Hp|]. apply plain_unstaged.
Qed.

Lemma pristine_plain_closed : plain_closed pristine.
Proof.
  intros s s' evs Hr Ht Hp [H1 H2]. unfold pristine.
  rewrite Ht, Hr, omap_app, H1. split; [|exact H2].
  apply omap_stage_of_unstaged. eapply Forall_impl; [exact Hp|]. apply plain_unstaged.
Qed.

Lemma pristine_fail_fast (s : state) : pristine s -> fail_fast s.
Proof.
  intros [Ht Hc]. unfold fail_fast, stage_calls, check_failed.
  rewrite Ht, Hc, (omap_call_of_unstaged _ (unstaged_of_omap _ Ht)). cbn.
  split; [exists 0%nat, 0%nat, 0%nat; repeat split; discriminate|].
  split; [apply prefix_nil|]. split; discriminate.
Qed.

Lemma result_failed_check (r : check_result) :
  result_failed (json_of_check_result r)
  = match failed r with [] => false | _ :: _ => true end.
Proof. destruct r as [p [|fe fes]]; reflexivity. Qed.

Lemma result_failed_import (r : import_result) :
  result_failed (json_of_import_result r) = negb (success r).
Proof. destruct r as [[|] [e|]]; reflexivity. Qed.

Ltac dict_simpl :=
  repeat (rewrite dict_get_set; simpl (String.eqb _ _); cbv iota).

Lemma validate_imports_run (w : world) (base_dir python_exe : string) (s : state) :
  validate_imports w base_dir python_exe s
  = (Ok (import_outcome w base_dir python_exe),
     State (st_fs s) (st_report s)
       (st_trace s ++ [EvStage Imports; EvDagBagLoad python_exe (path_join base_dir "dags")])).
Proof.
  unfold validate_imports, import_outcome, bind, emit. cbn [st_fs st_report st_trace].
  rewrite <- app_assoc.
  destruct (negb (returncode (dagbag_load w python_exe (path_join base_dir "dags")) =? 0));
    reflexivity.
Qed.

Lemma validation_phase_fail_fast (w : world) (changed_dags : list string)
  (base_dir python_exe : string) :
  hoare pristine (validation_phase w changed_dags base_dir python_exe)
    (fun _ => fail_fast) (fun _ => fail_fast).
Proof.
  intros s [Ht Hc]. unfold validation_phase.
  unfold bind at 1. rewrite validate_syntax_run.
  unfold bind at 1, report_set_check at 1. cbn [st_report st_fs st_trace]. rewrite Hc.
  pose proof (omap_call_of_unstaged _ (unstaged_of_omap _ Ht)) as Hcall.
  destruct (stages_of_py_compile python_exe base_dir changed_dags) as [Hpy1 Hpy2].
  destruct (stages_of_dag_check python_exe base_dir changed_dags) as [Hdc1 Hdc2].
  destruct (failed (syntax_outcome w base_dir python_exe changed_dags)) as [|fe fes] eqn:Hf.
  - unfold bind at 1. rewrite validate_imports_run.
    unfold bind at 1, report_set_check at 1. cbn [st_report st_fs st_trace].
    dict_simpl.
    assert (Hsyn : result_failed
                     (json_of_check_result
                        (syntax_outcome w base_dir python_exe changed_dags)) = false).
    { rewrite result_failed_check, Hf. reflexivity. }
    pose proof (result_failed_import (import_outcome w base_dir python_exe)) as Himp.
    destruct (success (import_outcome w base_dir python_exe)) eqn:Hi; cbn [negb] in *.
    + unfold bind at 1. rewrite validate_dag_structure_run.
      unfold bind at 1, report_set_check at 1. cbn [st_report st_fs st_trace].
      dict_simpl.
      assert (Hfinal : forall rep' : dict,
                 dict_get "checks" rep' = Some (JObj (dict_set "structure"
                    (json_of_check_result
                       (structure_outcome w base_dir python_exe changed_dags))
                    (dict_set "imports"
                       (json_of_import_result (import_outcome w base_dir python_exe))
                       (dict_set "syntax"
                          (json_of_check_result
                             (syntax_outcome w base_dir python_exe changed_dags)) [])))) ->
                 fail_fast (State (st_fs s) rep'
                    (((st_trace s ++ EvStage Syntax
                         :: map (fun f => EvPyCompile python_exe (path_join base_dir f))
                              changed_dags)
                        ++ [EvStage Imports;
                            EvDagBagLoad python_exe (path_join base_dir "dags")])
                       ++ EvStage Structure
                       :: map (fun f => EvDagCheck python_exe (path_join base_dir "dags")
                                          (path_join base_dir f)) changed_dags))).
      { intros rep' Hrep. unfold fail_fast, stage_calls, check_failed.
        cbn [st_trace st_report]. rewrite Hrep.
        repeat (cbn [dict_set dict_get]; simpl (String.eqb _ _); cbv iota).
        rewrite Hsyn, Himp.
        rewrite !omap_app, Ht, Hcall. cbn [omap list_omap stage_of call_of].
        rewrite Hpy1, Hpy2, Hdc1, Hdc2. cbn [app negb].
        split; [exists (S (length changed_dags)), 2%nat, (S (length changed_dags));
                split; [cbn [replicate app]; rewrite <- !app_assoc; reflexivity
                       | split; discriminate]|].
        split; [exists []; reflexivity|]. split; discriminate. }
      destruct (failed (structure_outcome w base_dir python_exe changed_dags));
        cbn [bind report_set raise ret st_fs st_report st_trace];
        apply Hfinal; dict_simpl; reflexivity.
    + cbn [bind report_set raise st_fs st_report st_trace].
      unfold fail_fast, stage_calls, check_failed. cbn [st_trace st_report].
      dict_simpl. cbn [dict_set dict_get]. simpl (String.eqb _ _). cbv iota.
      rewrite Hsyn, Himp.
      rewrite !omap_app, Ht, Hcall. cbn [omap list_omap stage_of call_of].
      rewrite Hpy1, Hpy2. cbn [app negb].
      split; [exists (S (length changed_dags)), 2%nat, 0%nat; cbn [replicate app];
              repeat split; discriminate|].
      split; [exists [Structure]; reflexivity|].
      split; [discriminate | reflexivity].
  - cbn [bind report_set raise st_fs st_report st_trace].
    unfold fail_fast, stage_calls, check_failed. cbn [st_trace st_report].
    dict_simpl. cbn [dict_set dict_get]. simpl (String.eqb _ _). cbv iota.
    rewrite !omap_app, Ht, Hcall. cbn [omap list_omap stage_of call_of].
    rewrite Hpy1, Hpy2. cbn [app].
    split; [exists (S (length changed_dags)), 0%nat, 0%nat; cbn [replicate app];
            rewrite app_nil_r; repeat split; discriminate|].
    split; [exists [Imports; Structure]; reflexivity|].
    split; [reflexivity | discriminate].
Qed.

Lemma hoare_pristine_quiet {A} (m : M A) :
  quiet m -> hoare pristine m (fun _ => pristine) (fun _ => fail_fast).
Proof.
  intros Hm s Hs.
  pose proof (quiet_preserves pristine m pristine_plain_closed Hm s Hs) as H.
  destruct (m s) as [[a|e] s1]; simpl in H; [exact H | apply pristine_fail_fast, H].
Qed.

Lemma preserves_fail_fast_report_set (k : string) (v : json) :
  k <> "checks" -> preserves fail_fast (report_set k v).
Proof.
  intros Hk s Hs. apply (fail_fast_frame s _ []); cbn [report_set snd st_report st_trace].
  - apply dict_get_set_ne. congruence.
  - rewrite app_nil_r. reflexivity.
  - constructor.
  - exact Hs.
Qed.

Lemma preserves_fail_fast_get_report : preserves fail_fast get_report.
Proof. intros s Hs. exact Hs. Qed.

Lemma preserves_fail_fast_save_report (base_dir : string) :
  preserves fail_fast (save_report base_dir).
Proof.
  intros s Hs.
  destruct (save_report_cases base_dir s) as [[e ->]|(ws & _ & ->)]; cbn [snd];
    [exact Hs|].
  apply (fail_fast_frame s _ [EvJsonDump (path_join base_dir report_name)
                                (JObj (st_report s))]);
    cbn [st_report st_trace]; auto.
Qed.

Lemma preserves_fail_fast_on_exception (base_dir : string) (e : exn) :
  preserves fail_fast (on_exception base_dir e).
Proof.
  unfold on_exception.
  apply preserves_bind; [apply preserves_fail_fast_report_set; discriminate | intros _].
  apply preserves_bind; [apply preserves_fail_fast_report_set; discriminate | intros _].
  apply preserves_bind; [apply preserves_fail_fast_save_report | intros _].
  apply preserves_raise.
Qed.

Lemma validate_body_fail_fast (w : world) (pr_number : Z) (hd : headers) (base_dir : string) :
  hoare pristine (validate_body w pr_number hd base_dir)
    (fun _ => fail_fast) (fun _ => fail_fast).
Proof.
  pose proof (fun A (m : M A) B (k : A -> M B) (Hm : quiet m) =>
                hoare_bind pristine m k (fun _ => pristine) (fun _ => fail_fast)
                  (fun _ => fail_fast) (hoare_pristine_quiet m Hm)) as Hstep.
  unfold validate_body.
  apply Hstep; [apply quiet_clean_previous_runs | intros _].
  apply Hstep; [apply quiet_ret | intros _].
  apply Hstep; [apply quiet_fetch_pr_info | intros pr_info].
  apply Hstep; [apply quiet_fetch_pr_files | intros pr_files].
  destruct (changed_dag_files pr_files) as [|dag dags].
  - eapply hoare_conseq;
      [apply (hoare_preserves fail_fast) | apply pristine_fail_fast | auto | auto].
    apply preserves_bind; [apply preserves_fail_fast_report_set; discriminate | intros _].
    apply preserves_bind; [apply preserves_fail_fast_report_set; discriminate | intros _].
    apply preserves_fail_fast_get_report.
  - apply Hstep; [apply quiet_download_branch_archive | intros _].
    apply Hstep; [apply quiet_overlay_pr_changes | intros _].
    apply Hstep; [apply quiet_write_file; reflexivity | intros _].
    apply Hstep; [apply quiet_environment_setup | intros py].
    apply (hoare_bind pristine _ _ (fun _ => fail_fast));
      [apply validation_phase_fail_fast | intros _].
    apply hoare_preserves.
    apply preserves_bind; [apply preserves_fail_fast_report_set; discriminate | intros _].
    apply preserves_bind; [apply preserves_fail_fast_report_set; discriminate | intros _].
    apply preserves_bind; [apply preserves_fail_fast_save_report | intros _].
    apply preserves_fail_fast_get_report.
Qed.

Lemma validate_pr_fail_fast (w : world) (conf : dag_run_conf)
  (fs : gmap string (gmap string file_content)) :
  fail_fast (snd (validate_pr w conf fs)).
Proof.
  assert (Hinit : forall n, pristine (State fs (initial_report w n) [])).
  { intros n. split; reflexivity. }
  assert (Hrun : forall n,
             fail_fast (snd (try_except (validate_body w n (headers_of (conf_github_token conf))
                                           (base_dir_of n))
                               (on_exception (base_dir_of n))
                               (State fs (initial_report w n) [])))).
  { intros n. apply (hoare_final pristine); [|apply Hinit].
    apply (hoare_try_except pristine _ _ (fun _ => fail_fast) (fun _ => fail_fast));
      [apply validate_body_fail_fast|].
    intros e. apply hoare_preserves, preserves_fail_fast_on_exception. }
  unfold validate_pr. destruct (conf_pr_number conf) as [[|p|p]|]; try apply Hrun.
  all: unfold fail_fast, stage_calls, check_failed; cbn.
  all: split; [exists 0%nat, 0%nat, 0%nat; repeat split; discriminate|].
  all: split; [apply prefix_nil|]; split; discriminate.
Qed.

Lemma stages_absent (t : list event) (l : list stage) (st : stage) :
  omap stage_of t = l -> st ∉ l -> Forall (fun e => stage_of e <> Some st) t.
Proof.
  intros Heq Hnot. apply Forall_forall. intros e He Hst. apply Hnot.
  rewrite <- Heq. apply list_elem_of_omap. eauto.
Qed.

(** C2.  In every run the stage functions are called in the order syntax,
    imports, structure, each at most once, and so are their subprocesses.
    When the syntax stage records a failure, it is the only stage called and
    nothing of the import or structure stage happens; when the import stage
    records a failure, the structure stage is never entered. *)
Theorem later_stage_never_runs_after_failure (w : world) (conf : dag_run_conf)
  (fs : gmap string (gmap string file_content)) :
  stage_calls (st_trace (snd (validate_pr w conf fs)))
    `prefix_of` [Syntax; Imports; Structure]
  /\ (exists a b c : nat,
        omap stage_of (st_trace (snd (validate_pr w conf fs)))
        = replicate a Syntax ++ replicate b Imports ++ replicate c Structure)
  /\ (check_failed "syntax" (st_report (snd (validate_pr w conf fs))) = true ->
      stage_calls (st_trace (snd (validate_pr w conf fs))) = [Syntax]
      /\ Forall (fun e => stage_of e <> Some Imports /\ stage_of e <> Some Structure)
           (st_trace (snd (validate_pr w conf fs))))
  /\ (check_failed "imports" (st_report (snd (validate_pr w conf fs))) = true ->
      stage_calls (st_trace (snd (validate_pr w conf fs))) = [Syntax; Imports]
      /\ Forall (fun e => stage_of e <> Some Structure)
           (st_trace (snd (validate_pr w conf fs)))).
Proof.
  destruct (validate_pr_fail_fast w conf fs)
    as ((a & b & c & Hord & Hsyn & Himp) & Hpre & Hsyn' & Himp').
  split; [exact Hpre|]. split; [eauto|]. split.
  - intros Hfail. split; [auto|]. destruct (Hsyn Hfail) as [-> ->].
    cbn [replicate app] in Hord. rewrite app_nil_r in Hord.
    apply Forall_and. split; apply (stages_absent _ _ _ Hord);
      intros Hin; apply elem_of_replicate in Hin; destruct Hin; discriminate.
  - intros Hfail. split; [auto|]. rewrite (Himp Hfail) in Hord.
    cbn [replicate] in Hord. rewrite app_nil_r in Hord.
    apply (stages_absent _ _ _ Hord). intros Hin.
    apply elem_of_app in Hin. destruct Hin as [Hin|Hin];
      apply elem_of_replicate in Hin; destruct Hin; discriminate.
Qed.

Lemma later_stage_never_runs_after_failure_witness :
  stage_calls
    (st_trace (snd (validate_pr Scenarios.pr_syntax_error (Conf (Some 7) None) ∅)))
  = [Syntax].
Proof.
  apply (later_stage_never_runs_after_failure Scenarios.pr_syntax_error
           (Conf (Some 7) None) ∅).
  vm_compute. reflexivity.
Defined.

(** *** What gets persisted *)

Lemma dict_has_set (k k' : string) (v : json) (d : dict) :
  dict_has k d = true -> dict_has k (dict_set k' v d) = true.
Proof.
  unfold dict_has. rewrite dict_get_set. destruct (String.eqb k k'); auto.
Qed.

Lemma keyed_dict_set (k : string) (v : json) (d : dict) : keyed d -> keyed (dict_set k v d).
Proof. intros (H1 & H2 & H3). repeat split; apply dict_has_set; assumption. Qed.

Lemma dump_sound_other (e : event) : is_dump e = false -> dump_sound e.
Proof. destruct e; simpl; intros; try discriminate; exact I. Qed.

Lemma reportable_extend (s s' : state) (evs : list event) :
  keyed (st_report s') ->
  st_trace s' = st_trace s ++ evs ->
  Forall (fun e => is_dump e = false) evs ->
  reportable s -> reportable s'.
Proof.
  intros Hk Ht Hev [_ Hd]. split; [exact Hk|]. rewrite Ht. apply Forall_app. split; [exact Hd|].
  eapply Forall_impl; [exact Hev|]. apply dump_sound_other.
Qed.

Lemma reportable_plain_closed : plain_closed reportable.
Proof.
  intros s s' evs Hr Ht Hp Hs. apply (reportable_extend s s' evs); auto.
  - rewrite Hr. apply Hs.
  - eapply Forall_impl; [exact Hp|]. apply plain_not_dump.
Qed.

Lemma preserves_reportable_report_set (k : string) (v : json) :
  preserves reportable (report_set k v).
Proof.
  intros s Hs. apply (reportable_extend s _ []); cbn [report_set snd st_report st_trace].
  - apply keyed_dict_set, Hs.
  - rewrite app_nil_r. reflexivity.
  - constructor.
  - exact Hs.
Qed.

Lemma preserves_reportable_report_set_check (name : string) (v : json) :
  preserves reportable (report_set_check name v).
Proof.
  intros s Hs. unfold report_set_check.
  destruct (dict_get "checks" (st_report s)) as [[| | | | |checks]|]; try exact Hs.
  apply (reportable_extend s _ []); cbn [snd st_report st_trace].
  - apply keyed_dict_set, Hs.
  - rewrite app_nil_r. reflexivity.
  - constructor.
  - exact Hs.
Qed.

Lemma preserves_reportable_validate_syntax (w : world) (files : list string)
  (base_dir python_exe : string) :
  preserves reportable (validate_syntax w files base_dir python_exe).
Proof.
  intros s Hs. rewrite validate_syntax_run.
  eapply (reportable_extend s); cbn [snd st_report st_trace];
    [apply Hs | reflexivity | | exact Hs].
  constructor; [reflexivity|]. apply Forall_forall. intros e He.
  apply list_elem_of_fmap in He. destruct He as (f & -> & _). reflexivity.
Qed.

Lemma preserves_reportable_validate_imports (w : world) (base_dir python_exe : string) :
  preserves reportable (validate_imports w base_dir python_exe).
Proof.
  intros s Hs. rewrite validate_imports_run.
  eapply (reportable_extend s); cbn [snd st_report st_trace];
    [apply Hs | reflexivity | | exact Hs].
  repeat constructor.
Qed.

Lemma preserves_reportable_validate_dag_structure (w : world) (files : list string)
  (base_dir python_exe : string) :
  preserves reportable (validate_dag_structure w files base_dir python_exe).
Proof.
  intros s Hs. rewrite validate_dag_structure_run.
  eapply (reportable_extend s); cbn [snd st_report st_trace];
    [apply Hs | reflexivity | | exact Hs].
  constructor; [reflexivity|]. apply Forall_forall. intros e He.
  apply list_elem_of_fmap in He. destruct He as (f & -> & _). reflexivity.
Qed.

Lemma preserves_reportable_stage_failure (msg : string) (e : exn) :
  preserves reportable
    (report_set "status" (JStr "failed") >> report_set "message" (JStr msg) >> @raise unit e).
Proof.
  apply preserves_bind; [apply preserves_reportable_report_set | intros _].
  apply preserves_bind; [apply preserves_reportable_report_set | intros _].
  apply preserves_raise.
Qed.

Lemma preserves_reportable_validation_phase (w : world) (changed_dags : list string)
  (base_dir python_exe : string) :
  preserves reportable (validation_phase w changed_dags base_dir python_exe).
Proof.
  unfold validation_phase.
  apply preserves_bind; [apply preserves_reportable_validate_syntax | intros syn].
  apply preserves_bind; [apply preserves_reportable_report_set_check | intros _].
  destruct (failed syn); [|apply preserves_reportable_stage_failure].
  apply preserves_bind; [apply preserves_reportable_validate_imports | intros imp].
  apply preserves_bind; [apply preserves_reportable_report_set_check | intros _].
  destruct (negb (success imp)); [apply preserves_reportable_stage_failure|].
  apply preserves_bind; [apply preserves_reportable_validate_dag_structure | intros str].
  apply preserves_bind; [apply preserves_reportable_report_set_check | intros _].
  destruct (failed str); [apply preserves_ret | apply preserves_reportable_stage_failure].
Qed.

(** Setting the status and one more key, then saving: what is saved carries
    that status. *)
Lemma preserves_reportable_finish {A} (st k : string) (v : json) (base_dir : string)
  (rest : M A) :
  st = "success" \/ st = "error" -> k <> "status" ->
  preserves reportable rest ->
  preserves reportable
    (report_set "status" (JStr st) >> report_set k v >> save_report base_dir >> rest).
Proof.
  intros Hst Hk Hrest s Hs.
  unfold bind at 1, report_set at 1. unfold bind at 1, report_set at 1.
  cbn [st_fs st_report st_trace].
  set (report := dict_set k v (dict_set "status" (JStr st) (st_report s))).
  assert (Hkeyed : keyed report) by (apply keyed_dict_set, keyed_dict_set, Hs).
  unfold bind at 1.
  destruct (save_report_cases base_dir (State (st_fs s) report (st_trace s)))
    as [[e ->]|(ws & _ & ->)]; cbn [st_fs st_report st_trace].
  - cbn [snd]. split; [exact Hkeyed | apply Hs].
  - apply Hrest. split; [exact Hkeyed|]. cbn [st_trace].
    apply Forall_app. split; [apply Hs|]. constructor; [|constructor].
    cbn [dump_sound]. split; [exact Hkeyed|].
    unfold status_of, report. rewrite dict_get_set_ne, dict_get_set_eq by congruence.
    destruct Hst as [-> | ->]; auto.
Qed.

Lemma preserves_reportable_validate_body (w : world) (pr_number : Z) (hd : headers)
  (base_dir : string) :
  preserves reportable (validate_body w pr_number hd base_dir).
Proof.
  pose proof (fun A (m : M A) (Hm : quiet m) =>
                quiet_preserves reportable m reportable_plain_closed Hm) as Hquiet.
  unfold validate_body.
  apply preserves_bind; [apply Hquiet, quiet_clean_previous_runs | intros _].
  apply preserves_bind; [apply Hquiet, quiet_ret | intros _].
  apply preserves_bind; [apply Hquiet, quiet_fetch_pr_info | intros pr_info].
  apply preserves_bind; [apply Hquiet, quiet_fetch_pr_files | intros pr_files].
  destruct (changed_dag_files pr_files) as [|dag dags].
  - apply preserves_bind; [apply preserves_reportable_report_set | intros _].
    apply preserves_bind; [apply preserves_reportable_report_set | intros _].
    intros s Hs. exact Hs.
  - apply preserves_bind; [apply Hquiet, quiet_download_branch_archive | intros _].
    apply preserves_bind; [apply Hquiet, quiet_overlay_pr_changes | intros _].
    apply preserves_bind; [apply Hquiet, quiet_write_file; reflexivity | intros _].
    apply preserves_bind; [apply Hquiet, quiet_environment_setup | intros py].
    apply preserves_bind; [apply preserves_reportable_validation_phase | intros _].
    apply preserves_reportable_finish; [auto | discriminate |].
    intros s Hs. exact Hs.
Qed.

Lemma preserves_reportable_on_exception (base_dir : string) (e : exn) :
  preserves reportable (on_exception base_dir e).
Proof.
  unfold on_exception.
  apply preserves_reportable_finish; [auto | discriminate | apply preserves_raise].
Qed.

Lemma validate_pr_reportable (w : world) (conf : dag_run_conf)
  (fs : gmap string (gmap string file_content)) :
  Forall dump_sound (st_trace (snd (validate_pr w conf fs))).
Proof.
  assert (Hrun : forall n,
             reportable (snd (try_except (validate_body w n (headers_of (conf_github_token conf))
                                           (base_dir_of n))
                               (on_exception (base_dir_of n))
                               (State fs (initial_report w n) [])))).
  { intros n. apply (hoare_final reportable).
    - apply (hoare_try_except reportable _ _ (fun _ => reportable) (fun _ => reportable)).
      + apply hoare_preserves, preserves_reportable_validate_body.
      + intros e. apply hoare_preserves, preserves_reportable_on_exception.
    - split; [repeat split | constructor]. }
  unfold validate_pr. destruct (conf_pr_number conf) as [[|p|p]|];
    try apply Hrun; constructor.
Qed.

(** C6.  Every document handed to [json.dump] is a single JSON object with
    the keys [pr_number], [timestamp] and [status], and its status is one of
    running, skipped, success, failed, error. *)
Theorem persisted_report_is_well_formed (w : world) (conf : dag_run_conf)
  (fs : gmap string (gmap string file_content)) (path : string) (doc : json) :
  In (EvJsonDump path doc) (st_trace (snd (validate_pr w conf fs))) -> is_report doc.
Proof.
  intros Hin. pose proof (validate_pr_reportable w conf fs) as Hall.
  rewrite List.Forall_forall in Hall. specialize (Hall _ Hin). cbn [dump_sound] in Hall.
  destruct doc as [| | | | |d]; try contradiction.
  destruct Hall as ((Hn & Ht & Hs) & Hstatus). cbn [is_report].
  split; [exact Hn|]. split; [exact Ht|].
  unfold valid_status. destruct Hstatus as [H|H]; eexists; (split; [exact H|]);
    simpl; auto 6.
Qed.

Lemma persisted_report_is_well_formed_witness : is_report (JObj Scenarios.report_7).
Proof.
  apply (persisted_report_is_well_formed Scenarios.pr_syntax_error (Conf (Some 7) None) ∅
           "/tmp/airflow_pr_7/validation_report.json").
  vm_compute. repeat first [left; reflexivity | right].
Defined.

(** C1.  On pull request 7, whose [dags/a.py] does not compile, the syntax
    stage records the failure, [validate_pr] raises and neither later stage
    runs; the report left in [validation_report.json] names the failing
    stage in its message, but its status is ["error"]: the [except] clause
    overwrites the ["failed"] that the stage had set. *)
Theorem stage_failure_is_persisted_as_error :
  fst (validate_pr Scenarios.pr_syntax_error (Conf (Some 7) None) ∅)
    = Raise (Exn "Exception" "Syntax errors in 1 file(s)")
  /\ check_failed "syntax"
       (st_report (snd (validate_pr Scenarios.pr_syntax_error (Conf (Some 7) None) ∅)))
     = true
  /\ stage_calls (st_trace (snd (validate_pr Scenarios.pr_syntax_error (Conf (Some 7) None) ∅)))
     = [Syntax]
  /\ st_fs (snd (validate_pr Scenarios.pr_syntax_error (Conf (Some 7) None) ∅))
       !! "/tmp/airflow_pr_7" ≫= (.!! "validation_report.json")
     = Some (JsonText (JObj Scenarios.report_7))
  /\ status_of Scenarios.report_7 = Some "error"
  /\ status_of Scenarios.report_7 <> Some "failed"
  /\ dict_get "message" Scenarios.report_7 = Some (JStr "Syntax validation failed").
Proof.
  repeat split; try (vm_compute; reflexivity). discriminate.
Qed.

(** *** The first steps of a run *)

Lemma clean_previous_runs_run (base_dir : string) (s : state) :
  clean_previous_runs base_dir s
  = (Ok tt,
     State (<[base_dir := ∅]> (st_fs s)) (st_report s)
       (st_trace s
          ++ removal (st_fs s) base_dir
          ++ [EvMakedirs base_dir])).
Proof.
  unfold clean_previous_runs, bind, path_exists, rmtree, makedirs, ret, removal.
  destruct (st_fs s !! base_dir) as [ws|] eqn:Hdir.
  - rewrite bool_decide_eq_true_2 by eauto. cbn [st_fs st_report st_trace].
    rewrite Hdir. cbn [st_fs st_report st_trace].
    rewrite lookup_delete_eq, insert_delete_eq, <- app_assoc. reflexivity.
  - rewrite bool_decide_eq_false_2 by (intros [? ?]; discriminate).
    cbn [st_fs]. rewrite Hdir. reflexivity.
Qed.

Lemma http_get_run {A} (url : string) (r : response A) (s : state) :
  http_error url r = None ->
  http_get url (Responded r) s
  = (Ok (payload r), State (st_fs s) (st_report s) (st_trace s ++ [EvHttpGet url])).
Proof. intros Hr. unfold http_get, bind, emit. rewrite Hr. reflexivity. Qed.

Lemma skipped_run (w : world) (n : Z) (tok : option string)
  (fs : gmap string (gmap string file_content)) (info : pr_info) (files : list pr_file) :
  n <> 0 ->
  fetched w n (headers_of tok) info files ->
  changed_dag_files files = [] ->
  validate_pr w (Conf (Some n) tok) fs
  = (Ok (skipped_report w n),
     State (<[base_dir_of n := ∅]> fs) (skipped_report w n)
       (removal fs (base_dir_of n)
          ++ [EvMakedirs (base_dir_of n);
              EvHttpGet (pulls_url n);
              EvHttpGet (pulls_url n +:+ "/files")])).
Proof.
  intros Hn [(ri & Hi & Hie & <-) (rf & Hf & Hfe & <-)] Hnone.
  assert (Hrun : try_except (validate_body w n (headers_of tok) (base_dir_of n))
                   (on_exception (base_dir_of n)) (State fs (initial_report w n) [])
                 = (Ok (skipped_report w n),
                    State (<[base_dir_of n := ∅]> fs) (skipped_report w n)
                      (removal fs (base_dir_of n)
                         ++ [EvMakedirs (base_dir_of n);
                             EvHttpGet (pulls_url n);
                             EvHttpGet (pulls_url n +:+ "/files")]))).
  { unfold try_except, validate_body.
    unfold bind at 1. rewrite clean_previous_runs_run.
    unfold bind at 1, setup_logger at 1, ret at 1.
    unfold bind at 1, fetch_pr_info at 1. rewrite Hi, (http_get_run _ _ _ Hie).
    unfold bind at 1, fetch_pr_files at 1. rewrite Hf, (http_get_run _ _ _ Hfe).
    rewrite Hnone. cbn [bind report_set get_report st_fs st_report st_trace app].
    rewrite <- !app_assoc. reflexivity. }
  unfold validate_pr. cbn [conf_pr_number conf_github_token].
  destruct n as [|p|p]; [congruence | exact Hrun | exact Hrun].
Qed.

(** *** The skipped path *)

(** C3.  When the changed-file list of the pull request holds no DAG file,
    [validate_pr] returns the report with status ["skipped"], and the run
    has provisioned no environment and called no check stage. *)
Theorem no_dag_file_skips_validation (w : world) (n : Z) (tok : option string)
  (fs : gmap string (gmap string file_content)) (info : pr_info) (files : list pr_file) :
  n <> 0 ->
  fetched w n (headers_of tok) info files ->
  changed_dag_files files = [] ->
  exists report s,
    validate_pr w (Conf (Some n) tok) fs = (Ok report, s)
    /\ status_of report = Some "skipped"
    /\ Forall (fun e => is_provisioning e = false /\ stage_of e = None) (st_trace s).
Proof.
  intros Hn Hfetched Hnone. rewrite (skipped_run w n tok fs info files Hn Hfetched Hnone).
  eexists _, _. split; [reflexivity|]. split; [reflexivity|].
  cbn [st_trace]. unfold removal. destruct (fs !! base_dir_of n); repeat constructor.
Qed.

Lemma no_dag_file_skips_validation_witness :
  exists report s,
    validate_pr Scenarios.pr_docs_only (Conf (Some 8) None) ∅ = (Ok report, s)
    /\ status_of report = Some "skipped"
    /\ Forall (fun e => is_provisioning e = false /\ stage_of e = None) (st_trace s).
Proof.
  apply (no_dag_file_skips_validation Scenarios.pr_docs_only 8 None ∅
           (PrInfo "Fix typos" "main" "docs/typos")
           [PrFile "README.md" "modified" "https://raw.example/README.md"]).
  - discriminate.
  - split; eexists; (split; [reflexivity|]); split; reflexivity.
  - reflexivity.
Defined.

(** *** Re-running *)

Lemma bind_cong {A B} (m : M A) (k : A -> M B) (s1 s2 : state) :
  m s1 = m s2 -> bind m k s1 = bind m k s2.
Proof. unfold bind. intros ->. reflexivity. Qed.

(** C7.  A run for a pull request whose scratch directory exists first
    removes that directory and recreates it empty, and from there on
    nothing depends on what the directory held: result, final filesystem
    and trace are those of a run that found the directory empty. *)
Theorem rerun_replaces_scratch_workspace (w : world) (conf : dag_run_conf) (n : Z)
  (fs : gmap string (gmap string file_content)) (ws : gmap string file_content) :
  conf_pr_number conf = Some n ->
  n <> 0 ->
  (forall s, st_fs s !! base_dir_of n = Some ws ->
     exists s', clean_previous_runs (base_dir_of n) s = (Ok tt, s')
                /\ st_fs s' !! base_dir_of n = Some ∅
                /\ (forall d, d <> base_dir_of n -> st_fs s' !! d = st_fs s !! d)
                /\ st_trace s'
                   = st_trace s ++ [EvRmtree (base_dir_of n); EvMakedirs (base_dir_of n)])
  /\ validate_pr w conf (<[base_dir_of n := ws]> fs)
     = validate_pr w conf (<[base_dir_of n := ∅]> fs).
Proof.
  intros Hconf Hn. split.
  - intros s Hdir. rewrite clean_previous_runs_run. eexists. split; [reflexivity|].
    cbn [st_fs st_trace]. split; [apply lookup_insert_eq|].
    split; [intros d Hd; apply lookup_insert_ne; congruence|].
    unfold removal. rewrite Hdir. reflexivity.
  - assert (Hrun : try_except (validate_body w n (headers_of (conf_github_token conf))
                                 (base_dir_of n))
                     (on_exception (base_dir_of n))
                     (State (<[base_dir_of n := ws]> fs) (initial_report w n) [])
                   = try_except (validate_body w n (headers_of (conf_github_token conf))
                                   (base_dir_of n))
                       (on_exception (base_dir_of n))
                       (State (<[base_dir_of n := ∅]> fs) (initial_report w n) [])).
    { assert (Hbody : validate_body w n (headers_of (conf_github_token conf)) (base_dir_of n)
                        (State (<[base_dir_of n := ws]> fs) (initial_report w n) [])
                      = validate_body w n (headers_of (conf_github_token conf))
                          (base_dir_of n)
                          (State (<[base_dir_of n := ∅]> fs) (initial_report w n) [])).
      { unfold validate_body. apply bind_cong.
        rewrite !clean_previous_runs_run. unfold removal. cbn [st_fs st_report st_trace].
        rewrite !lookup_insert_eq, !insert_insert_eq. reflexivity. }
      unfold try_except. rewrite Hbody. reflexivity. }
    unfold validate_pr. rewrite Hconf.
    destruct n as [|p|p]; [congruence | exact Hrun | exact Hrun].
Qed.

Lemma rerun_replaces_scratch_workspace_witness :
  validate_pr Scenarios.pr_docs_only (Conf (Some 8) None)
    (<[base_dir_of 8 := Scenarios.stale_workspace]> ∅)
  = validate_pr Scenarios.pr_docs_only (Conf (Some 8) None) (<[base_dir_of 8 := ∅]> ∅).
Proof.
  apply (rerun_replaces_scratch_workspace Scenarios.pr_docs_only (Conf (Some 8) None) 8 ∅
           Scenarios.stale_workspace); [reflexivity | discriminate].
Defined.

(** *** Where the report is written *)

Lemma dumpless_ret {A} (a : A) : dumpless (ret a).
Proof. intros s. exists []. rewrite app_nil_r. auto. Qed.

Lemma dumpless_raise {A} (e : exn) : dumpless (@raise A e).
Proof. intros s. exists []. rewrite app_nil_r. auto. Qed.

Lemma dumpless_bind {A B} (m : M A) (k : A -> M B) :
  dumpless m -> (forall a, dumpless (k a)) -> dumpless (bind m k).
Proof.
  intros Hm Hk s. unfold bind. destruct (Hm s) as (evs & Ht & Hp).
  destruct (m s) as [[a|e] s1]; cbn [snd] in *; [|eauto].
  destruct (Hk a s1) as (evs' & Ht' & Hp'). exists (evs ++ evs').
  rewrite Ht', Ht, app_assoc. split; [reflexivity|]. apply Forall_app; auto.
Qed.

Lemma dumpless_of_quiet {A} (m : M A) : quiet m -> dumpless m.
Proof.
  intros Hm s. destruct (Hm s) as [_ (evs & Ht & Hp)]. exists evs. split; [exact Ht|].
  eapply Forall_impl; [exact Hp|]. apply plain_not_dump.
Qed.

Lemma dumpless_report_set (k : string) (v : json) : dumpless (report_set k v).
Proof. intros s. exists []. cbn. rewrite app_nil_r. auto. Qed.

Lemma dumpless_report_set_check (name : string) (v : json) :
  dumpless (report_set_check name v).
Proof.
  intros s. exists []. unfold report_set_check.
  destruct (dict_get "checks" (st_report s)) as [[| | | | |checks]|];
    cbn [snd st_trace]; rewrite app_nil_r; auto.
Qed.

Lemma dumpless_validate_syntax (w : world) (files : list string)
  (base_dir python_exe : string) :
  dumpless (validate_syntax w files base_dir python_exe).
Proof.
  intros s. rewrite validate_syntax_run. eexists. split; [reflexivity|].
  constructor; [reflexivity|]. apply Forall_forall. intros e He.
  apply list_elem_of_fmap in He. destruct He as (f & -> & _). reflexivity.
Qed.

Lemma dumpless_validate_imports (w : world) (base_dir python_exe : string) :
  dumpless (validate_imports w base_dir python_exe).
Proof.
  intros s. rewrite validate_imports_run. eexists. split; [reflexivity|].
  repeat constructor.
Qed.

Lemma dumpless_validate_dag_structure (w : world) (files : list string)
  (base_dir python_exe : string) :
  dumpless (validate_dag_structure w files base_dir python_exe).
Proof.
  intros s. rewrite validate_dag_structure_run. eexists. split; [reflexivity|].
  constructor; [reflexivity|]. apply Forall_forall. intros e He.
  apply list_elem_of_fmap in He. destruct He as (f & -> & _). reflexivity.
Qed.

Lemma dumpless_stage_failure (msg : string) (e : exn) :
  dumpless
    (report_set "status" (JStr "failed") >> report_set "message" (JStr msg) >> @raise unit e).
Proof.
  apply dumpless_bind; [apply dumpless_report_set | intros _].
  apply dumpless_bind; [apply dumpless_report_set | intros _].
  apply dumpless_raise.
Qed.

Lemma dumpless_validation_phase (w : world) (changed_dags : list string)
  (base_dir python_exe : string) :
  dumpless (validation_phase w changed_dags base_dir python_exe).
Proof.
  unfold validation_phase.
  apply dumpless_bind; [apply dumpless_validate_syntax | intros syn].
  apply dumpless_bind; [apply dumpless_report_set_check | intros _].
  destruct (failed syn); [|apply dumpless_stage_failure].
  apply dumpless_bind; [apply dumpless_validate_imports | intros imp].
  apply dumpless_bind; [apply dumpless_report_set_check | intros _].
  destruct (negb (success imp)); [apply dumpless_stage_failure|].
  apply dumpless_bind; [apply dumpless_validate_dag_structure | intros str].
  apply dumpless_bind; [apply dumpless_report_set_check | intros _].
  destruct (failed str); [apply dumpless_ret | apply dumpless_stage_failure].
Qed.

Lemma hoare_dumpless {A} (m : M A) :
  dumpless m -> hoare undumped m (fun _ => undumped) (fun _ _ => True).
Proof.
  intros Hm s Hs. destruct (Hm s) as (evs & Ht & Hp).
  destruct (m s) as [[a|e] s1]; [|exact I]. cbn [snd] in Ht.
  unfold undumped. rewrite Ht. apply Forall_app. auto.
Qed.

Lemma validate_body_dumps (w : world) (pr_number : Z) (hd : headers) (base_dir : string) :
  hoare undumped (validate_body w pr_number hd base_dir)
    (fun report s => undumped s \/ status_of report = Some "success")
    (fun _ _ => True).
Proof.
  pose proof (fun A (m : M A) B (k : A -> M B) R (Hm : dumpless m) =>
                hoare_bind undumped m k (fun _ => undumped) R (fun _ _ => True)
                  (hoare_dumpless m Hm)) as Hstep.
  unfold validate_body.
  apply Hstep; [apply dumpless_of_quiet, quiet_clean_previous_runs | intros _].
  apply Hstep; [apply dumpless_ret | intros _].
  apply Hstep; [apply dumpless_of_quiet, quiet_fetch_pr_info | intros pr_info].
  apply Hstep; [apply dumpless_of_quiet, quiet_fetch_pr_files | intros pr_files].
  destruct (changed_dag_files pr_files) as [|dag dags].
  - intros s Hs. cbn [bind report_set get_report]. left. exact Hs.
  - apply Hstep; [apply dumpless_of_quiet, quiet_download_branch_archive | intros _].
    apply Hstep; [apply dumpless_of_quiet, quiet_overlay_pr_changes | intros _].
    apply Hstep; [apply dumpless_of_quiet, quiet_write_file; reflexivity | intros _].
    apply Hstep; [apply dumpless_of_quiet, quiet_environment_setup | intros py].
    apply Hstep; [apply dumpless_validation_phase | intros _].
    intros s Hs. unfold bind at 1, report_set at 1. unfold bind at 1, report_set at 1.
    cbn [st_fs st_report st_trace]. unfold bind at 1.
    destruct (save_report_cases base_dir
                (State (st_fs s)
                   (dict_set "message" (JStr "All validations passed")
                      (dict_set "status" (JStr "success") (st_report s)))
                   (st_trace s)))
      as [[e ->]|(ws & _ & ->)]; [exact I|].
    cbn [get_report st_report]. right. unfold status_of.
    rewrite dict_get_set_ne, dict_get_set_eq by discriminate. reflexivity.
Qed.

Lemma on_exception_raises (base_dir : string) (e : exn) (s : state) :
  exists e' s', on_exception base_dir e s = (Raise e', s').
Proof.
  unfold on_exception. unfold bind at 1, report_set at 1. unfold bind at 1, report_set at 1.
  cbn [st_fs st_report st_trace]. unfold bind at 1.
  destruct (save_report_cases base_dir
              (State (st_fs s)
                 (dict_set "error" (JStr (exn_msg e))
                    (dict_set "status" (JStr "error") (st_report s)))
                 (st_trace s)))
    as [[e' ->]|(ws & _ & ->)]; eauto.
Qed.

(** C10.  A run that returns after handing a report to [json.dump] returns
    the success report; and on the skipped path [validate_pr] returns the
    report without writing anything: no file is opened for writing, nothing
    is handed to [json.dump], and the scratch directory is left as it was
    created, empty. *)
Theorem skipped_run_persists_no_report (w : world) (conf : dag_run_conf)
  (fs : gmap string (gmap string file_content)) :
  (forall report s,
      validate_pr w conf fs = (Ok report, s) ->
      Exists (fun e => is_dump e = true) (st_trace s) ->
      status_of report = Some "success")
  /\ (forall n info files,
        conf_pr_number conf = Some n ->
        n <> 0 ->
        fetched w n (headers_of (conf_github_token conf)) info files ->
        changed_dag_files files = [] ->
        exists report s,
          validate_pr w conf fs = (Ok report, s)
          /\ status_of report = Some "skipped"
          /\ Forall (fun e => is_dump e = false /\ forall p, e <> EvWrite p) (st_trace s)
          /\ st_fs s = <[base_dir_of n := ∅]> fs).
Proof.
  split.
  - assert (Hrun : forall n report s,
               try_except (validate_body w n (headers_of (conf_github_token conf))
                             (base_dir_of n))
                 (on_exception (base_dir_of n)) (State fs (initial_report w n) [])
               = (Ok report, s) ->
               undumped s \/ status_of report = Some "success").
    { intros n report s. unfold try_except.
      pose proof (validate_body_dumps w n (headers_of (conf_github_token conf))
                    (base_dir_of n) (State fs (initial_report w n) [])
                    (List.Forall_nil _)) as Hbody.
      destruct (validate_body w n (headers_of (conf_github_token conf)) (base_dir_of n)
                  (State fs (initial_report w n) [])) as [[r|e] s1].
      - intros [= <- <-]. exact Hbody.
      - destruct (on_exception_raises (base_dir_of n) e s1) as (e' & s' & ->).
        discriminate. }
    intros report s Hret Hdump.
    assert (Hcases : undumped s \/ status_of report = Some "success").
    { unfold validate_pr in Hret.
      destruct (conf_pr_number conf) as [[|p|p]|]; try discriminate; eapply Hrun, Hret. }
    destruct Hcases as [Hnone|Hsuccess]; [|exact Hsuccess].
    apply List.Exists_exists in Hdump. destruct Hdump as (e & Hin & He).
    unfold undumped in Hnone. rewrite List.Forall_forall in Hnone.
    specialize (Hnone e Hin). congruence.
  - intros n info files Hconf Hn Hfetched Hnone. destruct conf as [pr tok].
    cbn [conf_pr_number conf_github_token] in *. subst pr.
    rewrite (skipped_run w n tok fs info files Hn Hfetched Hnone).
    eexists _, _. split; [reflexivity|]. split; [reflexivity|].
    cbn [st_trace st_fs]. split; [|reflexivity].
    unfold removal. destruct (fs !! base_dir_of n); repeat constructor; discriminate.
Qed.

Lemma skipped_run_persists_no_report_witness :
  exists report s,
    validate_pr Scenarios.pr_docs_only (Conf (Some 8) None)
      (<[base_dir_of 8 := Scenarios.stale_workspace]> ∅) = (Ok report, s)
    /\ status_of report = Some "skipped"
    /\ Forall (fun e => is_dump e = false /\ forall p, e <> EvWrite p) (st_trace s)
    /\ st_fs s = <[base_dir_of 8 := ∅]> (<[base_dir_of 8 := Scenarios.stale_workspace]> ∅).
Proof.
  apply (proj2 (skipped_run_persists_no_report Scenarios.pr_docs_only (Conf (Some 8) None)
                  (<[base_dir_of 8 := Scenarios.stale_workspace]> ∅))
           8 (PrInfo "Fix typos" "main" "docs/typos")
           [PrFile "README.md" "modified" "https://raw.example/README.md"]).
  - reflexivity.
  - discriminate.
  - split; eexists; (split; [reflexivity|]); split; reflexivity.
  - reflexivity.
Defined.

(** *** The fetch phase *)

Lemma overlay_tree_cons (content : pr_file -> string) (g : pr_file) (rest : list pr_file)
  (ws : gmap string file_content) :
  overlay_tree content (g :: rest) ws
  = overlay_tree content rest
      (if String.eqb (status g) "removed" then ws
       else <[filename g := Raw (content g)]> ws).
Proof. reflexivity. Qed.

Lemma overlay_tree_untouched (content : pr_file -> string) (overlay : list pr_file)
  (ws : gmap string file_content) (p : string) :
  (forall f, In f overlay -> status f <> "removed" -> filename f <> p) ->
  overlay_tree content overlay ws !! p = ws !! p.
Proof.
  revert ws. induction overlay as [|g rest IH]; intros ws Hother; [reflexivity|].
  rewrite overlay_tree_cons.
  rewrite IH by (intros f Hin; apply Hother; right; exact Hin).
  destruct (String.eqb_spec (status g) "removed") as [Hrem|Hkeep]; [reflexivity|].
  apply lookup_insert_ne. apply Hother; [left; reflexivity | exact Hkeep].
Qed.

Lemma overlay_tree_written (content : pr_file -> string) (overlay : list pr_file)
  (ws : gmap string file_content) (f : pr_file) :
  List.NoDup (map filename overlay) ->
  In f overlay -> status f <> "removed" ->
  overlay_tree content overlay ws !! filename f = Some (Raw (content f)).
Proof.
  revert ws. induction overlay as [|g rest IH]; intros ws Hnd Hin Hkeep; [destruct Hin|].
  cbn [map] in Hnd. apply List.NoDup_cons_iff in Hnd. destruct Hnd as [Hfresh Hnd].
  rewrite overlay_tree_cons.
  destruct Hin as [->|Hin]; [|apply IH; assumption].
  destruct (String.eqb_spec (status f) "removed") as [Hrem|_]; [contradiction|].
  rewrite overlay_tree_untouched; [apply lookup_insert_eq|].
  intros f' Hin' _ Heq. apply Hfresh. rewrite <- Heq. apply in_map. exact Hin'.
Qed.

Lemma clashes_above (p a : string) : a ∈ ancestors p -> clashes p a = true.
Proof.
  intros Hin. unfold clashes. rewrite (bool_decide_eq_true_2 (a ∈ ancestors p)) by exact Hin.
  apply orb_true_r.
Qed.

Lemma clashes_below (p k : string) : p ∈ ancestors k -> clashes p k = true.
Proof.
  intros Hin. unfold clashes. rewrite (bool_decide_eq_true_2 (p ∈ ancestors k)) by exact Hin.
  reflexivity.
Qed.

Lemma makedirs_error_none (dir : string) (ws : gmap string file_content)
  (dirs : list string) :
  (forall a, a ∈ dirs -> ws !! a = None) -> makedirs_error dir ws dirs = None.
Proof.
  induction dirs as [|d rest IH]; intros Hfree; [reflexivity|]. cbn [makedirs_error].
  rewrite (Hfree d) by (left; reflexivity). apply IH. intros a Ha. apply Hfree. right.
  exact Ha.
Qed.

(** A write that clashes with no file of the tree goes through. *)
Lemma write_file_makedirs_fits (dir rel : string) (c : file_content) (s : state)
  (ws : gmap string file_content) :
  st_fs s !! dir = Some ws ->
  (forall k, is_Some (ws !! k) -> clashes rel k = false) ->
  write_file_makedirs dir rel c s
  = (Ok tt,
     State (<[dir := <[rel := c]> ws]> (st_fs s)) (st_report s)
       (st_trace s ++ [EvWrite (path_join dir rel)])).
Proof.
  intros Hdir Hfit. unfold write_file_makedirs. rewrite Hdir. cbn [from_option id].
  rewrite makedirs_error_none.
  - unfold is_directory. rewrite bool_decide_eq_false_2; [reflexivity|].
    intros Hex. apply map_Exists_lookup in Hex. destruct Hex as (k & x & Hk & Hin).
    specialize (Hfit k (ex_intro _ x Hk)). rewrite (clashes_below _ _ Hin) in Hfit.
    discriminate.
  - intros a Ha. destruct (ws !! a) as [x|] eqn:Hfile; [|reflexivity].
    specialize (Hfit a (ex_intro _ x Hfile)). rewrite (clashes_above _ _ Ha) in Hfit.
    discriminate.
Qed.

Lemma overlay_fits_in_skip (ws : gmap string file_content) (g : pr_file)
  (rest : list pr_file) :
  overlay_fits_in ws (g :: rest) -> overlay_fits_in ws rest.
Proof.
  intros Hfit f Hin Hkeep.
  destruct (Hfit f (or_intror Hin) Hkeep) as (Hpath & Hws & Hpairs).
  split; [exact Hpath|]. split; [exact Hws|]. intros h Hh. apply Hpairs. right. exact Hh.
Qed.

Lemma overlay_fits_in_step (ws : gmap string file_content) (g : pr_file)
  (rest : list pr_file) (c : file_content) :
  overlay_fits_in ws (g :: rest) -> status g <> "removed" ->
  overlay_fits_in (<[filename g := c]> ws) rest.
Proof.
  intros Hfit Hg f Hin Hkeep.
  destruct (Hfit f (or_intror Hin) Hkeep) as (Hpath & Hws & Hpairs).
  split; [exact Hpath|]. split.
  - intros k Hk. destruct (decide (filename g = k)) as [<-|Hne].
    + apply Hpairs; [left; reflexivity | exact Hg].
    + rewrite lookup_insert_ne in Hk by exact Hne. apply Hws. exact Hk.
  - intros h Hh. apply Hpairs. right. exact Hh.
Qed.

Lemma overlay_fits_spec (ws : gmap string file_content) (overlay : list pr_file) :
  overlay_fits ws overlay = true -> overlay_fits_in ws overlay.
Proof.
  unfold overlay_fits. rewrite forallb_forall. intros Hall f Hin Hkeep.
  specialize (Hall f Hin). apply orb_true_iff in Hall.
  destruct Hall as [Hrem|Hall]; [apply String.eqb_eq in Hrem; contradiction|].
  apply andb_true_iff in Hall. destruct Hall as [Hall Hpairs].
  apply andb_true_iff in Hall. destruct Hall as [Hpath Hws].
  apply bool_decide_eq_true in Hws. rewrite forallb_forall in Hpairs.
  split; [exact Hpath|]. split.
  - intros k [x Hk]. exact (Hws k x Hk).
  - intros g Hg Hgkeep. specialize (Hpairs g Hg). apply orb_true_iff in Hpairs.
    destruct Hpairs as [Hrem|Hfree]; [apply String.eqb_eq in Hrem; contradiction|].
    apply negb_true_iff. exact Hfree.
Qed.

Lemma overlay_pr_changes_run (w : world) (overlay : list pr_file) (base_dir : string)
  (hd : headers) (content : pr_file -> string) :
  (forall f, In f overlay -> status f <> "removed" ->
     exists r, get_raw w (raw_url f) hd = Responded r
               /\ http_error (raw_url f) r = None /\ payload r = content f) ->
  forall s ws, st_fs s !! base_dir = Some ws ->
    overlay_fits_in ws overlay ->
    exists s', overlay_pr_changes w overlay base_dir hd s = (Ok tt, s')
               /\ st_fs s' !! base_dir = Some (overlay_tree content overlay ws).
Proof.
  unfold overlay_pr_changes.
  induction overlay as [|g rest IH]; intros Hraw s ws Hdir Hfit.
  - exists s. split; [reflexivity | exact Hdir].
  - cbn [for_each]. rewrite overlay_tree_cons.
    unfold bind at 1.
    destruct (String.eqb_spec (status g) "removed") as [Hrem|Hkeep]; cbn [negb].
    + cbn [ret]. apply IH; [|exact Hdir|exact (overlay_fits_in_skip _ _ _ Hfit)].
      intros f Hin. apply Hraw. right. exact Hin.
    + destruct (Hraw g (or_introl eq_refl) Hkeep) as (r & Hget & Herr & Hpay).
      unfold download_pr_file, bind at 1. rewrite Hget, (http_get_run _ _ _ Herr), Hpay.
      rewrite (write_file_makedirs_fits _ _ _ _ ws)
        by (cbn [st_fs]; first [exact Hdir | apply (proj2 (Hfit g (or_introl eq_refl) Hkeep))]).
      apply IH; [intros f Hin; apply Hraw; right; exact Hin| |].
      * cbn [st_fs]. apply lookup_insert_eq.
      * apply overlay_fits_in_step; assumption.
Qed.

Lemma download_branch_archive_run (w : world) (branch base_dir : string) (hd : headers)
  (root : string) (tree : gmap string file_content) (others : archive) (s : state) :
  (exists r, get_zipball w (zipball_url branch) hd = Responded r
             /\ http_error (zipball_url branch) r = None
             /\ payload r = Some ((root, ZDir tree) :: others)) ->
  download_branch_archive w branch base_dir hd s
  = (Ok tt,
     State (<[base_dir := tree ∪ default ∅ (st_fs s !! base_dir)]> (st_fs s)) (st_report s)
       ((st_trace s ++ [EvHttpGet (zipball_url branch)]) ++ [EvCopytree base_dir])).
Proof.
  intros (r & Hget & Herr & Hpay).
  unfold download_branch_archive, bind. rewrite Hget, (http_get_run _ _ _ Herr), Hpay.
  reflexivity.
Qed.

(** C5, as the code has it.  On a freshly created scratch directory,
    with the archive of the base branch holding the tree [B], every
    download of a non-removed changed file succeeding, and the changed
    files that are laid over fitting into [B] (their paths are those of a
    git tree, and none of them runs through a file of [B] or of the
    overlay, or is a directory of them),
    the fetch phase completes and leaves [B] with the changed files laid
    over it: each changed file that is not removed holds the content of the
    pull request, each removed file is what it was in [B] (still there,
    when [B] has it), and every other path is as in [B]. *)
Theorem fetch_phase_overlays_base_branch (w : world) (branch base_dir : string)
  (hd : headers) (overlay : list pr_file) (content : pr_file -> string)
  (root : string) (B : gmap string file_content) (others : archive) (s : state) :
  st_fs s !! base_dir = Some ∅ ->
  (exists r, get_zipball w (zipball_url branch) hd = Responded r
             /\ http_error (zipball_url branch) r = None
             /\ payload r = Some ((root, ZDir B) :: others)) ->
  (forall f, In f overlay -> status f <> "removed" ->
     exists r, get_raw w (raw_url f) hd = Responded r
               /\ http_error (raw_url f) r = None /\ payload r = content f) ->
  List.NoDup (map filename overlay) ->
  overlay_fits B overlay = true ->
  exists s' ws,
    (download_branch_archive w branch base_dir hd >>
     overlay_pr_changes w overlay base_dir hd) s = (Ok tt, s')
    /\ st_fs s' !! base_dir = Some ws
    /\ ws = overlay_tree content overlay B
    /\ (forall f, In f overlay -> status f <> "removed" ->
          ws !! filename f = Some (Raw (content f)))
    /\ (forall f, In f overlay -> status f = "removed" ->
          ws !! filename f = B !! filename f)
    /\ (forall p, ~ In p (map filename overlay) -> ws !! p = B !! p).
Proof.
  intros Hfresh Hzip Hraw Hnd Hfit.
  unfold bind. rewrite (download_branch_archive_run _ _ _ _ _ _ _ _ Hzip), Hfresh.
  cbn [from_option id]. rewrite (map_union_empty B).
  destruct (overlay_pr_changes_run w overlay base_dir hd content Hraw
              (State (<[base_dir := B]> (st_fs s)) (st_report s)
                 ((st_trace s ++ [EvHttpGet (zipball_url branch)]) ++ [EvCopytree base_dir]))
              B) as (s' & Hrun & Hws).
  { cbn [st_fs]. apply lookup_insert_eq. }
  { apply overlay_fits_spec. exact Hfit. }
  rewrite Hrun. exists s', (overlay_tree content overlay B).
  split; [reflexivity|]. split; [exact Hws|]. split; [reflexivity|].
  split; [|split].
  - intros f Hin Hkeep. apply overlay_tree_written; assumption.
  - intros f Hin Hrem. apply overlay_tree_untouched. intros g Hg Hkeep Heq.
    assert (g = f); [|congruence].
    clear -Hnd Hin Hg Heq. induction overlay as [|h rest IH]; [destruct Hin|].
    cbn [map] in Hnd. apply List.NoDup_cons_iff in Hnd. destruct Hnd as [Hh Hnd].
    destruct Hin as [->|Hin], Hg as [->|Hg]; auto.
    + exfalso. apply Hh. rewrite <- Heq. apply in_map. exact Hg.
    + exfalso. apply Hh. rewrite Heq. apply in_map. exact Hin.
  - intros p Hp. apply overlay_tree_untouched. intros g Hg _ Heq. apply Hp.
    rewrite <- Heq. apply in_map. exact Hg.
Qed.

Lemma fetch_phase_overlays_base_branch_witness :
  exists s' ws,
    (download_branch_archive Scenarios.pr_syntax_error "main" "/tmp/airflow_pr_7" [] >>
     overlay_pr_changes Scenarios.pr_syntax_error Scenarios.pr_files_7 "/tmp/airflow_pr_7" [])
      (State {[ "/tmp/airflow_pr_7" := ∅ ]} [] []) = (Ok tt, s')
    /\ st_fs s' !! "/tmp/airflow_pr_7" = Some ws
    /\ ws !! "dags/a.py" = Some (Raw "def (")
    /\ ws !! "dags/b.py" = Some (Raw "print(1)")
    /\ ws !! "docs/old.md" = Some (Raw "old notes").
Proof.
  destruct (fetch_phase_overlays_base_branch Scenarios.pr_syntax_error "main"
              "/tmp/airflow_pr_7" [] Scenarios.pr_files_7 Scenarios.raw_content_7
              "colav-impactu_airflow-0a1b" Scenarios.base_tree_7 []
              (State {[ "/tmp/airflow_pr_7" := ∅ ]} [] []))
    as (s' & ws & Hrun & Hws & _ & Hkept & Hremoved & _).
  - reflexivity.
  - eexists. split; [reflexivity|]. split; reflexivity.
  - intros f [<-|[<-|[<-|[]]]] Hkeep.
    + eexists. split; [reflexivity|]. split; reflexivity.
    + eexists. split; [reflexivity|]. split; reflexivity.
    + exfalso. apply Hkeep. reflexivity.
  - repeat constructor; simpl; intuition discriminate.
  - vm_compute. reflexivity.
  - exists s', ws. split; [exact Hrun|]. split; [exact Hws|]. split; [|split].
    + exact (Hkept (PrFile "dags/a.py" "added" "https://raw.example/a.py")
               (or_introl eq_refl) ltac:(discriminate)).
    + exact (Hkept (PrFile "dags/b.py" "modified" "https://raw.example/b.py")
               (or_intror (or_introl eq_refl)) ltac:(discriminate)).
    + exact (Hremoved (PrFile "docs/old.md" "removed" "https://raw.example/old.md")
               (or_intror (or_intror (or_introl eq_refl))) eq_refl).
Defined.

(** C5 as the spec words it, for all base trees and overlays, fails on pull
    request 5: the archive and the download succeed and no file name
    occurs twice, but the removed file [pkg] is still in the tree when
    [pkg/mod.py] is written, [os.makedirs] raises [FileExistsError], and
    the fetch phase produces no workspace. *)
Lemma fetch_phase_blocked_by_removed_file :
  downloaded Scenarios.pr_file_becomes_package []
    (PrFile "pkg/mod.py" "added" "https://raw.example/mod.py") "x = 1"
  /\ List.NoDup (map filename Scenarios.pr_files_5)
  /\ fst ((download_branch_archive Scenarios.pr_file_becomes_package "main"
             "/tmp/airflow_pr_5" [] >>
           overlay_pr_changes Scenarios.pr_file_becomes_package Scenarios.pr_files_5
             "/tmp/airflow_pr_5" [])
            (State {[ "/tmp/airflow_pr_5" := ∅ ]} [] []))
     = Raise (Exn "FileExistsError" "[Errno 17] File exists: '/tmp/airflow_pr_5/pkg'")
  /\ ~ (exists s' ws,
          (download_branch_archive Scenarios.pr_file_becomes_package "main"
             "/tmp/airflow_pr_5" [] >>
           overlay_pr_changes Scenarios.pr_file_becomes_package Scenarios.pr_files_5
             "/tmp/airflow_pr_5" [])
            (State {[ "/tmp/airflow_pr_5" := ∅ ]} [] []) = (Ok tt, s')
          /\ st_fs s' !! "/tmp/airflow_pr_5" = Some ws
          /\ ws !! "pkg/mod.py" = Some (Raw "x = 1")
          /\ ws !! "pkg" = Scenarios.base_tree_5 !! "pkg").
Proof.
  split; [eexists; split; [reflexivity|]; split; reflexivity|].
  split; [repeat constructor; simpl; intuition discriminate|].
  split; [vm_compute; reflexivity|].
  intros (s' & ws & Hrun & _). vm_compute in Hrun. discriminate.
Qed.

End ValidatorFacts.

(** *** The update and save tasks *)

Module AutoDeployTasksFacts.
Import AutoDeploy AutoDeployTasks.

(** X1.  [update_package_locally] returns [True] exactly when [pip] runs to
    completion with exit status 0, and never returns [False].  A non-zero
    exit raises the "Update failed" exception inside the [try], which the
    generic handler wraps once more; a timeout is reported as "Update
    timeout". *)
Theorem update_package_locally_outcome (w : world) :
  (update_package_locally w = Ok true
     <-> exists r, subprocess_run w (pip_command w) = Ok r /\ Validator.returncode r = 0)
  /\ update_package_locally w <> Ok false
  /\ (forall r, subprocess_run w (pip_command w) = Ok r -> Validator.returncode r <> 0 ->
        update_package_locally w
        = Raise (Exn "Exception"
                   ("Error updating package: Update failed: " +:+ Validator.stderr r)))
  /\ (forall e, subprocess_run w (pip_command w) = Raise e ->
        exn_type e = "TimeoutExpired" ->
        update_package_locally w = Raise (Exn "Exception" "Update timeout")).
Proof.
  unfold update_package_locally, update_body.
  destruct (subprocess_run w (pip_command w)) as [r|e].
  - destruct (Z.eqb_spec (Validator.returncode r) 0) as [Hz|Hnz]; cbn.
    + split; [split; [eauto | reflexivity]|]. split; [discriminate|].
      split; [intros r' [= <-] Hne; contradiction | intros e [=]].
    + split; [split; [discriminate | intros (r' & [= <-] & Hz); contradiction]|].
      split; [discriminate|].
      split; [intros r' [= <-] _; reflexivity | intros e [=]].
  - split; [split; [destruct (String.eqb _ _); discriminate | intros (r & [=] & _)]|].
    split; [destruct (String.eqb _ _); discriminate|].
    split; [intros r [=]|]. intros e' [= <-] Ht. rewrite Ht. reflexivity.
Qed.

Lemma update_package_locally_outcome_witness :
  update_package_locally Scenarios.pip_fails
  = Raise (Exn "Exception"
             "Error updating package: Update failed: ERROR: Could not find a version").
Proof.
  apply (proj1 (proj2 (proj2 (update_package_locally_outcome Scenarios.pip_fails)))
           (Validator.Completed 1 "" "ERROR: Could not find a version")).
  - reflexivity.
  - discriminate.
Defined.

Lemma check_for_updates_polling (sha : string) (variables : gmap string string)
  (xcom : gmap string json) :
  check_for_updates (polling (commit_answer sha) variables) xcom
  = if bool_decide (variables !! last_deployed_key = Some sha)
    then (Ok false, xcom)
    else (Ok true, <["new_commit" := JStr sha]> xcom).
Proof.
  unfold check_for_updates, check_body, polling, commit_answer.
  cbn [requests_get Variable_get payload]. 
  change (http_error repo_url (Response 200 "OK" (Some (JObj [("sha", JStr sha)])))) with (@None exn).
  change (subscript (JObj [("sha", JStr sha)]) "sha") with (Ok (JStr sha)).
  cbv beta iota. rewrite AutoDeployFacts.py_ne_str.
  destruct (bool_decide (variables !! last_deployed_key = Some sha)); reflexivity.
Qed.

(** X2.  One poll followed by [save_deployed_commit] settles the job on a
    non-empty commit: the poll reports a change exactly when the variable
    differs from the commit, the save leaves the variable equal to the
    commit and touches no other variable, and every later poll of the same
    commit reports no change and pushes nothing. *)
Theorem deploy_cycle_settles (w : world) (sha : string) (variables : gmap string string) :
  sha <> "" ->
  (fst (check_for_updates (polling (commit_answer sha) variables) ∅) = Ok true
     <-> variables !! last_deployed_key <> Some sha)
  /\ save_deployed_commit w
       (snd (check_for_updates (polling (commit_answer sha) variables) ∅)) variables
       !! last_deployed_key = Some sha
  /\ (forall key, key <> last_deployed_key ->
        save_deployed_commit w
          (snd (check_for_updates (polling (commit_answer sha) variables) ∅)) variables
          !! key = variables !! key)
  /\ (forall xcom,
        check_for_updates
          (polling (commit_answer sha)
             (save_deployed_commit w
                (snd (check_for_updates (polling (commit_answer sha) variables) ∅))
                variables))
          xcom
        = (Ok false, xcom)).
Proof.
  intros Hsha. rewrite check_for_updates_polling.
  assert (Hnonempty : String.eqb sha "" = false) by (apply String.eqb_neq; exact Hsha).
  destruct (decide (variables !! last_deployed_key = Some sha)) as [Hsame|Hnew].
  - rewrite bool_decide_eq_true_2 by exact Hsame. cbn [fst snd].
    unfold save_deployed_commit, xcom_pull. rewrite lookup_empty. cbn [default truthy].
    split; [split; [discriminate | contradiction]|].
    split; [exact Hsame|]. split; [reflexivity|].
    intros xcom. rewrite check_for_updates_polling, bool_decide_eq_true_2 by exact Hsame.
    reflexivity.
  - rewrite bool_decide_eq_false_2 by exact Hnew. cbn [fst snd].
    unfold save_deployed_commit, xcom_pull. rewrite lookup_insert_eq.
    cbn [default from_option id truthy stored_form]. rewrite Hnonempty. cbn [negb].
    split; [split; [intros _; exact Hnew | reflexivity]|].
    split; [apply lookup_insert_eq|].
    split; [intros key Hkey; apply lookup_insert_ne; congruence|].
    intros xcom. rewrite check_for_updates_polling, bool_decide_eq_true_2; [reflexivity|].
    apply lookup_insert_eq.
Qed.

Lemma deploy_cycle_settles_witness :
  save_deployed_commit Scenarios.pip_fails
    (snd (check_for_updates (polling (commit_answer "b2c4") {[ last_deployed_key := "a1f3" ]})
            ∅))
    {[ last_deployed_key := "a1f3" ]}
    !! last_deployed_key = Some "b2c4".
Proof.
  apply (deploy_cycle_settles Scenarios.pip_fails "b2c4" {[ last_deployed_key := "a1f3" ]}).
  discriminate.
Defined.

(** X3.  [save_deployed_commit] writes nothing when no commit was pushed,
    or the pushed value is [None] or the empty string.  An empty commit is
    therefore reported as a change by the poll and still not recorded by
    the save. *)
Theorem falsy_commit_is_never_saved (w : world) (xcom : gmap string json)
  (variables : gmap string string) :
  (xcom !! "new_commit" = None \/ xcom !! "new_commit" = Some JNull
   \/ xcom !! "new_commit" = Some (JStr "") ->
   save_deployed_commit w xcom variables = variables)
  /\ (variables !! last_deployed_key <> Some "" ->
      fst (check_for_updates (polling (commit_answer "") variables) xcom) = Ok true
      /\ save_deployed_commit w
           (snd (check_for_updates (polling (commit_answer "") variables) xcom)) variables
         = variables).
Proof.
  split.
  - unfold save_deployed_commit, xcom_pull. intros [-> | [-> | ->]]; reflexivity.
  - intros Hne. rewrite check_for_updates_polling, bool_decide_eq_false_2 by exact Hne.
    split; [reflexivity|]. unfold save_deployed_commit, xcom_pull. cbn [snd].
    rewrite lookup_insert_eq. reflexivity.
Qed.

Lemma falsy_commit_is_never_saved_witness :
  save_deployed_commit Scenarios.pip_fails {[ "new_commit" := JStr "" ]}
    {[ last_deployed_key := "a1f3" ]}
  = {[ last_deployed_key := "a1f3" ]}.
Proof.
  apply (proj1 (falsy_commit_is_never_saved Scenarios.pip_fails {[ "new_commit" := JStr "" ]}
                  {[ last_deployed_key := "a1f3" ]})).
  right. right. reflexivity.
Defined.

End AutoDeployTasksFacts.

(** *** The validator: further properties of the run *)

Module ValidatorRuns.
Import Validator ValidatorSpec ValidatorFacts.

(** *** Provisioning *)

(** X4.  When nothing exists at the requirements path,
    [setup_virtual_environment] runs nothing and hands back the
    interpreter of the caller.  When something does, it
    returns only after [uv venv] and both installs exited with status 0, in
    that order, and then always with the interpreter of the new
    environment; when [uv venv] fails, [CalledProcessError] is raised and
    no install is attempted. *)
Theorem setup_virtual_environment_outcome (w : world) (base_dir requirements : string)
  (s : state) :
  (exists_in (default ∅ (st_fs s !! base_dir)) requirements = false ->
   setup_virtual_environment w base_dir requirements s
   = (Ok (path_join base_dir "venv", sys_executable w), s))
  /\ (exists_in (default ∅ (st_fs s !! base_dir)) requirements = true ->
      forall venv python_exe s',
        setup_virtual_environment w base_dir requirements s = (Ok (venv, python_exe), s') ->
        python_exe = path_join (path_join (path_join base_dir "venv") "bin") "python"
        /\ uv_venv w (path_join base_dir "venv") = 0
        /\ uv_pip_install w python_exe ["-r"; path_join base_dir requirements] = 0
        /\ uv_pip_install w python_exe airflow_packages = 0
        /\ st_trace s'
           = st_trace s
               ++ [EvUvVenv (path_join base_dir "venv");
                   EvUvPipInstall python_exe ["-r"; path_join base_dir requirements];
                   EvUvPipInstall python_exe airflow_packages])
  /\ (exists_in (default ∅ (st_fs s !! base_dir)) requirements = true ->
      uv_venv w (path_join base_dir "venv") <> 0 ->
      exists e,
        setup_virtual_environment w base_dir requirements s
        = (Raise e,
           State (st_fs s) (st_report s)
             (st_trace s ++ [EvUvVenv (path_join base_dir "venv")]))
        /\ exn_type e = "CalledProcessError").
Proof.
  unfold setup_virtual_environment.
  destruct (exists_in (default ∅ (st_fs s !! base_dir)) requirements) eqn:Hreq; cbn [negb].
  - split; [discriminate|]. split.
    + intros _ venv python_exe s'. unfold bind, check_call, emit, ret, raise.
      cbn [st_fs st_report st_trace].
      destruct (Z.eqb_spec (uv_venv w (path_join base_dir "venv")) 0) as [Hv|Hv];
        [|discriminate].
      destruct (Z.eqb_spec
                  (uv_pip_install w
                     (path_join (path_join (path_join base_dir "venv") "bin") "python")
                     ["-r"; path_join base_dir requirements]) 0) as [Hr|Hr];
        [|discriminate].
      destruct (Z.eqb_spec
                  (uv_pip_install w
                     (path_join (path_join (path_join base_dir "venv") "bin") "python")
                     airflow_packages) 0) as [Ha|Ha];
        [|discriminate].
      intros [= <- <- <-]. cbn [st_trace]. rewrite <- !app_assoc. auto.
    + intros _ Hv. unfold bind, check_call, emit, raise. cbn [st_fs st_report st_trace].
      destruct (Z.eqb_spec (uv_venv w (path_join base_dir "venv")) 0) as [Hz|_];
        [contradiction|].
      eexists. split; reflexivity.
  - split; [reflexivity|]. split; discriminate.
Qed.

Lemma setup_virtual_environment_outcome_witness :
  setup_virtual_environment Scenarios.pr_syntax_error "/tmp/airflow_pr_7" "requirements.txt"
    Scenarios.fresh_state
  = (Ok ("/tmp/airflow_pr_7/venv", "/usr/bin/python3"), Scenarios.fresh_state)
  /\ uv_pip_install Scenarios.pr_syntax_error "/tmp/airflow_pr_7/venv/bin/python"
       airflow_packages = 0.
Proof.
  split.
  - apply (proj1 (setup_virtual_environment_outcome Scenarios.pr_syntax_error
                    "/tmp/airflow_pr_7" "requirements.txt" Scenarios.fresh_state)).
    vm_compute. reflexivity.
  - refine (proj1 (proj2 (proj2 (proj2
              (proj1 (proj2 (setup_virtual_environment_outcome Scenarios.pr_syntax_error
                        "/tmp/airflow_pr_7" "requirements.txt"
                        Scenarios.state_with_requirements))
                 _ "/tmp/airflow_pr_7/venv" "/tmp/airflow_pr_7/venv/bin/python"
                 (State {[ "/tmp/airflow_pr_7" :=
                             {[ "requirements.txt" := Validator.Raw "requests" ]} ]} []
                    [EvUvVenv "/tmp/airflow_pr_7/venv";
                     EvUvPipInstall "/tmp/airflow_pr_7/venv/bin/python"
                       ["-r"; "/tmp/airflow_pr_7/requirements.txt"];
                     EvUvPipInstall "/tmp/airflow_pr_7/venv/bin/python" airflow_packages])
                 _))))).
    + vm_compute. reflexivity.
    + reflexivity.
Defined.

(** *** Fetching, when things go wrong *)



Lemma for_each_app {A} (l1 l2 : list A) (body : A -> M unit) (s : state) :
  for_each (l1 ++ l2) body s = (for_each l1 body >> for_each l2 body) s.
Proof.
  revert s. induction l1 as [|x l1 IH]; intros s; [reflexivity|].
  cbn [app for_each]. unfold bind.
  destruct (body x s) as [[[]|e] s1]; [|reflexivity].
  rewrite IH. reflexivity.
Qed.

Lemma overlay_events_cons (base_dir : string) (g : pr_file) (rest : list pr_file) :
  overlay_events base_dir (g :: rest)
  = (if String.eqb (status g) "removed" then []
     else [EvHttpGet (raw_url g); EvWrite (path_join base_dir (filename g))])
      ++ overlay_events base_dir rest.
Proof. reflexivity. Qed.

Lemma overlay_pr_changes_completes (w : world) (overlay : list pr_file) (base_dir : string)
  (hd : headers) (content : pr_file -> string) :
  (forall f, In f overlay -> status f <> "removed" -> downloaded w hd f (content f)) ->
  forall s ws, st_fs s !! base_dir = Some ws ->
    overlay_fits_in ws overlay ->
    overlay_pr_changes w overlay base_dir hd s
    = (Ok tt,
       State (<[base_dir := overlay_tree content overlay ws]> (st_fs s)) (st_report s)
         (st_trace s ++ overlay_events base_dir overlay)).
Proof.
  unfold overlay_pr_changes.
  induction overlay as [|g rest IH]; intros Hraw s ws Hdir Hfit.
  - cbn [for_each overlay_tree fold_left overlay_events flat_map]. unfold ret.
    rewrite app_nil_r, (insert_id _ _ _ Hdir). destruct s; reflexivity.
  - cbn [for_each]. rewrite overlay_tree_cons, overlay_events_cons. unfold bind at 1.
    destruct (String.eqb_spec (status g) "removed") as [Hrem|Hkeep]; cbn [negb].
    + cbn [ret app]. apply IH; [|exact Hdir|exact (overlay_fits_in_skip _ _ _ Hfit)].
      intros f Hin. apply Hraw. right. exact Hin.
    + destruct (Hraw g (or_introl eq_refl) Hkeep) as (r & Hget & Herr & Hpay).
      unfold download_pr_file, bind at 1. rewrite Hget, (http_get_run _ _ _ Herr), Hpay.
      rewrite (write_file_makedirs_fits _ _ _ _ ws)
        by (cbn [st_fs]; first [exact Hdir | apply (proj2 (Hfit g (or_introl eq_refl) Hkeep))]).
      rewrite (IH (fun f Hin => Hraw f (or_intror Hin)) _
                 (<[filename g := Raw (content g)]> ws))
        by (first [cbn [st_fs]; apply lookup_insert_eq
                  | apply overlay_fits_in_step; assumption]).
      cbn [st_fs st_report st_trace]. rewrite insert_insert_eq, <- !app_assoc. reflexivity.
Qed.

(** X6.  The overlay loop stops at the first download that fails: when the
    changed files listed before it fit into the tree and are downloaded,
    the error is raised as it is, those files are already written over the
    tree, and nothing listed after it is requested or written. *)
Theorem overlay_stops_at_first_failed_download (w : world) (earlier later : list pr_file)
  (g : pr_file) (base_dir : string) (hd : headers) (content : pr_file -> string)
  (s : state) (ws : gmap string file_content) (e : exn) :
  st_fs s !! base_dir = Some ws ->
  (forall f, In f earlier -> status f <> "removed" -> downloaded w hd f (content f)) ->
  overlay_fits ws earlier = true ->
  status g <> "removed" ->
  download_fails w hd g e ->
  overlay_pr_changes w (earlier ++ g :: later) base_dir hd s
  = (Raise e,
     State (<[base_dir := overlay_tree content earlier ws]> (st_fs s)) (st_report s)
       (st_trace s ++ overlay_events base_dir earlier ++ [EvHttpGet (raw_url g)])).
Proof.
  intros Hdir Hraw Hfit Hkeep Hfail. unfold overlay_pr_changes. rewrite for_each_app.
  unfold bind at 1.
  fold (overlay_pr_changes w earlier base_dir hd).
  rewrite (overlay_pr_changes_completes w earlier base_dir hd content Hraw s ws Hdir
             (overlay_fits_spec _ _ Hfit)).
  cbn [for_each]. unfold bind at 1.
  destruct (String.eqb_spec (status g) "removed") as [Hrem|_]; [contradiction|].
  cbn [negb]. unfold download_pr_file, bind at 1, http_get, bind at 1, emit, raise.
  cbn [st_fs st_report st_trace]. rewrite <- app_assoc.
  destruct Hfail as [->|(r & -> & ->)]; reflexivity.
Qed.

Lemma overlay_stops_at_first_failed_download_witness :
  fst (overlay_pr_changes Scenarios.pr_download_fails Scenarios.pr_files_7
         "/tmp/airflow_pr_7" [] (State {[ "/tmp/airflow_pr_7" := ∅ ]} [] []))
  = Raise (Exn "HTTPError"
             "404 Client Error: Not Found for url: https://raw.example/b.py").
Proof.
  refine (f_equal fst
            (overlay_stops_at_first_failed_download Scenarios.pr_download_fails
               [PrFile "dags/a.py" "added" "https://raw.example/a.py"]
               [PrFile "docs/old.md" "removed" "https://raw.example/old.md"]
               (PrFile "dags/b.py" "modified" "https://raw.example/b.py")
               "/tmp/airflow_pr_7" [] Scenarios.raw_content_7
               (State {[ "/tmp/airflow_pr_7" := ∅ ]} [] []) ∅
               (Exn "HTTPError"
                  "404 Client Error: Not Found for url: https://raw.example/b.py")
               _ _ _ _ _)).
  - reflexivity.
  - intros f [<-|[]] _. eexists. split; [reflexivity|]. split; reflexivity.
  - vm_compute. reflexivity.
  - discriminate.
  - right. eexists. split; reflexivity.
Defined.

(** *** The structure stage *)

(** X7.  [validate_dag_structure] always returns, and it sorts its input
    the way the syntax stage does: a file whose check exits with 0 occurs
    in ["passed"] as often as in the input and never in ["failed"]; any
    other file occurs in ["failed"] as often as in the input, paired with
    the error text of its own check, and never in ["passed"]; and the
    ["failed"] list is empty exactly when every file of the input passes. *)
Theorem validate_dag_structure_partitions (w : world) (dag_files : list string)
  (base_dir python_exe : string) (s : state) :
  exists r s',
    validate_dag_structure w dag_files base_dir python_exe s = (Ok r, s')
    /\ (forall f, structure_ok w base_dir python_exe f = true ->
          count_occ string_dec (passed r) f = count_occ string_dec dag_files f
          /\ ~ In f (map fst (failed r)))
    /\ (forall f, structure_ok w base_dir python_exe f = false ->
          count_occ string_dec (map fst (failed r)) f = count_occ string_dec dag_files f
          /\ ~ In f (passed r)
          /\ forall e, In (f, e) (failed r) -> e = structure_error w base_dir python_exe f)
    /\ (failed r = [] <-> forall f, In f dag_files -> structure_ok w base_dir python_exe f = true).
Proof.
  rewrite validate_dag_structure_run. eexists _, _. split; [reflexivity|].
  cbn [structure_outcome passed failed]. rewrite map_fst_tagged.
  split; [|split; [|split]].
  - intros f Hok. rewrite count_occ_filter, Hok. split; [reflexivity|].
    rewrite filter_In, Hok. intros [_ H]; discriminate.
  - intros f Hbad. rewrite count_occ_filter, Hbad. split; [reflexivity|].
    split.
    + rewrite filter_In, Hbad. intros [_ H]; discriminate.
    + intros e He. apply in_tagged in He. apply He.
  - intros Hnone f Hin. destruct (structure_ok w base_dir python_exe f) eqn:Hok;
      [reflexivity|].
    assert (Hf : In (f, structure_error w base_dir python_exe f)
                   (map (fun f => (f, structure_error w base_dir python_exe f))
                      (List.filter (fun f => negb (structure_ok w base_dir python_exe f))
                         dag_files))).
    { apply in_tagged. split; [|reflexivity]. apply filter_In. rewrite Hok. auto. }
    rewrite Hnone in Hf. destruct Hf.
  - intros Hall.
    destruct (List.filter (fun f => negb (structure_ok w base_dir python_exe f)) dag_files)
      as [|f bad] eqn:Hbad; [reflexivity|].
    assert (Hf : In f (List.filter (fun f => negb (structure_ok w base_dir python_exe f))
                         dag_files)) by (rewrite Hbad; left; reflexivity).
    apply filter_In in Hf. destruct Hf as [Hin Hnok]. rewrite (Hall f Hin) in Hnok.
    discriminate.
Qed.

Lemma validate_dag_structure_partitions_witness :
  exists r s',
    validate_dag_structure Scenarios.pr_download_fails ["dags/a.py"; "dags/b.py"]
      "/tmp/airflow_pr_7" "/usr/bin/python3" Scenarios.fresh_state = (Ok r, s')
    /\ count_occ string_dec (passed r) "dags/b.py" = 1%nat
    /\ count_occ string_dec (map fst (failed r)) "dags/a.py" = 1%nat.
Proof.
  destruct (validate_dag_structure_partitions Scenarios.pr_download_fails
              ["dags/a.py"; "dags/b.py"] "/tmp/airflow_pr_7" "/usr/bin/python3"
              Scenarios.fresh_state)
    as (r & s' & Hrun & Hok & Hbad & _).
  exists r, s'. split; [exact Hrun|]. split.
  - exact (proj1 (Hok "dags/b.py" eq_refl)).
  - exact (proj1 (Hbad "dags/a.py" eq_refl)).
Defined.

(** *** The footprint of a run *)

Lemma within_refl (base_dir : string) (s : state) : within base_dir s s.
Proof. repeat split; auto. Qed.

Lemma within_trans (base_dir : string) (s1 s2 s3 : state) :
  within base_dir s1 s2 -> within base_dir s2 s3 -> within base_dir s1 s3.
Proof.
  intros (Ha & Hb & Hc & Hd) (Ha' & Hb' & Hc' & Hd'). repeat split.
  - intros d Hne. rewrite Ha', Ha by exact Hne. reflexivity.
  - auto.
  - congruence.
  - congruence.
Qed.

(** A step that changes neither the filesystem nor the report. *)
Lemma within_trace (base_dir : string) (s : state) (t : list event) :
  within base_dir s (State (st_fs s) (st_report s) t).
Proof. repeat split; auto. Qed.

(** A step that writes into the scratch directory. *)
Lemma within_insert (base_dir : string) (s : state) (ws : gmap string file_content)
  (t : list event) :
  within base_dir s (State (<[base_dir := ws]> (st_fs s)) (st_report s) t).
Proof.
  repeat split; cbn [st_fs st_report].
  - intros d Hne. apply lookup_insert_ne. congruence.
  - intros _. rewrite lookup_insert_eq. eauto.
Qed.

Lemma tidy_ret {A} (base_dir : string) (a : A) : tidy base_dir (ret a).
Proof. intros s. apply within_refl. Qed.

Lemma tidy_raise {A} (base_dir : string) (e : exn) : tidy base_dir (@raise A e).
Proof. intros s. apply within_refl. Qed.

Lemma tidy_bind {A B} (base_dir : string) (m : M A) (k : A -> M B) :
  tidy base_dir m -> (forall a, tidy base_dir (k a)) -> tidy base_dir (bind m k).
Proof.
  intros Hm Hk s. unfold bind. specialize (Hm s).
  destruct (m s) as [[a|e] s1]; cbn [snd] in *; [|exact Hm].
  eapply within_trans; [exact Hm | apply Hk].
Qed.

Lemma tidy_if {A} (base_dir : string) (b : bool) (m1 m2 : M A) :
  tidy base_dir m1 -> tidy base_dir m2 -> tidy base_dir (if b then m1 else m2).
Proof. destruct b; auto. Qed.

Lemma tidy_for_each {A} (base_dir : string) (l : list A) (body : A -> M unit) :
  (forall x, tidy base_dir (body x)) -> tidy base_dir (for_each l body).
Proof.
  intros Hbody. induction l as [|x l IH]; cbn [for_each].
  - apply tidy_ret.
  - apply tidy_bind; auto.
Qed.

Lemma tidy_emit (base_dir : string) (e : event) : tidy base_dir (emit e).
Proof. intros s. apply within_trace. Qed.

Lemma tidy_http_get {A} (base_dir url : string) (answer : http_result A) :
  tidy base_dir (http_get url answer).
Proof.
  unfold http_get. apply tidy_bind; [apply tidy_emit | intros _].
  destruct answer as [e|r]; [apply tidy_raise|].
  destruct (http_error url r); [apply tidy_raise | apply tidy_ret].
Qed.

Lemma tidy_copytree (base_dir : string) (tree : gmap string file_content) :
  tidy base_dir (copytree tree base_dir).
Proof. intros s. apply within_insert. Qed.

Lemma tidy_write_file (base_dir rel : string) (c : file_content) (e : event) :
  tidy base_dir (write_file base_dir rel c e).
Proof.
  intros s.
  destruct (write_file_cases base_dir rel c e s) as [[e0 ->]|(ws & _ & ->)];
    [apply within_refl | apply within_insert].
Qed.

Lemma tidy_write_file_makedirs (base_dir rel : string) (c : file_content) :
  tidy base_dir (write_file_makedirs base_dir rel c).
Proof.
  intros s.
  destruct (write_file_makedirs_cases base_dir rel c s) as [[e0 ->]| ->];
    [apply within_refl | apply within_insert].
Qed.

Lemma tidy_check_call (base_dir : string) (cmd : list string) (e : event) (status : Z) :
  tidy base_dir (check_call cmd e status).
Proof.
  unfold check_call. apply tidy_bind; [apply tidy_emit | intros _].
  apply tidy_if; [apply tidy_ret | apply tidy_raise].
Qed.

Lemma tidy_report_set (base_dir k : string) (v : json) :
  k <> "pr_number" -> k <> "timestamp" -> tidy base_dir (report_set k v).
Proof.
  intros Hp Ht s. repeat split; cbn [report_set snd st_fs st_report]; auto.
  - apply dict_get_set_ne. congruence.
  - apply dict_get_set_ne. congruence.
Qed.

Lemma tidy_report_set_check (base_dir name : string) (v : json) :
  tidy base_dir (report_set_check name v).
Proof.
  intros s. unfold report_set_check.
  destruct (dict_get "checks" (st_report s)) as [[| | | | |checks]|];
    try apply within_refl.
  repeat split; cbn [snd st_fs st_report]; auto; apply dict_get_set_ne; discriminate.
Qed.

Lemma tidy_clean_previous_runs (base_dir : string) :
  tidy base_dir (clean_previous_runs base_dir).
Proof. intros s. rewrite clean_previous_runs_run. apply within_insert. Qed.

Lemma tidy_download_branch_archive (w : world) (branch base_dir : string) (hd : headers) :
  tidy base_dir (download_branch_archive w branch base_dir hd).
Proof.
  unfold download_branch_archive. apply tidy_bind; [apply tidy_http_get|].
  intros [[|[name [bytes|tree]] rest]|];
    first [apply tidy_raise | apply tidy_copytree].
Qed.

Lemma tidy_overlay_pr_changes (w : world) (pr_files : list pr_file) (base_dir : string)
  (hd : headers) : tidy base_dir (overlay_pr_changes w pr_files base_dir hd).
Proof.
  unfold overlay_pr_changes. apply tidy_for_each. intros f.
  apply tidy_if; [|apply tidy_ret]. unfold download_pr_file.
  apply tidy_bind; [apply tidy_http_get | intros c; apply tidy_write_file_makedirs].
Qed.

Lemma tidy_environment_setup (w : world) (base_dir : string) :
  tidy base_dir (environment_setup w base_dir).
Proof.
  unfold environment_setup. apply tidy_bind.
  - intros s. unfold setup_virtual_environment.
    destruct (exists_in (default ∅ (st_fs s !! base_dir)) "requirements.txt"); cbn [negb].
    + revert s. fold (tidy (A := string * string) base_dir).
      repeat (apply tidy_bind; [apply tidy_check_call | intros _]). apply tidy_ret.
    + apply within_refl.
  - intros venv. unfold initialize_test_database.
    apply tidy_bind; [|intros _; apply tidy_ret].
    apply tidy_bind; [apply tidy_emit | intros _].
    apply tidy_if; [apply tidy_raise | apply tidy_ret].
Qed.

Lemma tidy_stage_failure (base_dir msg : string) (e : exn) :
  tidy base_dir
    (report_set "status" (JStr "failed") >> report_set "message" (JStr msg) >> @raise unit e).
Proof.
  apply tidy_bind; [apply tidy_report_set; discriminate | intros _].
  apply tidy_bind; [apply tidy_report_set; discriminate | intros _].
  apply tidy_raise.
Qed.

Lemma tidy_validation_phase (w : world) (changed_dags : list string)
  (base_dir python_exe : string) :
  tidy base_dir (validation_phase w changed_dags base_dir python_exe).
Proof.
  unfold validation_phase.
  apply tidy_bind;
    [intros s; rewrite validate_syntax_run; apply within_trace | intros syn].
  apply tidy_bind; [apply tidy_report_set_check | intros _].
  destruct (failed syn); [|apply tidy_stage_failure].
  apply tidy_bind;
    [intros s; rewrite validate_imports_run; apply within_trace | intros imp].
  apply tidy_bind; [apply tidy_report_set_check | intros _].
  destruct (negb (success imp)); [apply tidy_stage_failure|].
  apply tidy_bind;
    [intros s; rewrite validate_dag_structure_run; apply within_trace | intros str].
  apply tidy_bind; [apply tidy_report_set_check | intros _].
  destruct (failed str); [apply tidy_ret | apply tidy_stage_failure].
Qed.

Lemma tidy_save_report (base_dir : string) : tidy base_dir (save_report base_dir).
Proof.
  unfold save_report. apply tidy_bind; [intros s; apply within_refl | intros report].
  apply tidy_write_file.
Qed.

Lemma tidy_validate_body (w : world) (pr_number : Z) (hd : headers) (base_dir : string) :
  tidy base_dir (validate_body w pr_number hd base_dir).
Proof.
  unfold validate_body.
  apply tidy_bind; [apply tidy_clean_previous_runs | intros _].
  apply tidy_bind; [apply tidy_ret | intros _].
  apply tidy_bind; [apply tidy_http_get | intros pr_info].
  apply tidy_bind; [apply tidy_http_get | intros pr_files].
  destruct (changed_dag_files pr_files) as [|dag dags].
  - apply tidy_bind; [apply tidy_report_set; discriminate | intros _].
    apply tidy_bind; [apply tidy_report_set; discriminate | intros _].
    intros s. apply within_refl.
  - apply tidy_bind; [apply tidy_download_branch_archive | intros _].
    apply tidy_bind; [apply tidy_overlay_pr_changes | intros _].
    apply tidy_bind; [apply tidy_write_file | intros _].
    apply tidy_bind; [apply tidy_environment_setup | intros py].
    apply tidy_bind; [apply tidy_validation_phase | intros _].
    apply tidy_bind; [apply tidy_report_set; discriminate | intros _].
    apply tidy_bind; [apply tidy_report_set; discriminate | intros _].
    apply tidy_bind; [apply tidy_save_report | intros _].
    intros s. apply within_refl.
Qed.

Lemma tidy_on_exception (base_dir : string) (e : exn) : tidy base_dir (on_exception base_dir e).
Proof.
  unfold on_exception.
  apply tidy_bind; [apply tidy_report_set; discriminate | intros _].
  apply tidy_bind; [apply tidy_report_set; discriminate | intros _].
  apply tidy_bind; [apply tidy_save_report | intros _].
  apply tidy_raise.
Qed.

Lemma tidy_try_except {A} (base_dir : string) (m : M A) (h : exn -> M A) :
  tidy base_dir m -> (forall e, tidy base_dir (h e)) -> tidy base_dir (try_except m h).
Proof.
  intros Hm Hh s. unfold try_except. specialize (Hm s).
  destruct (m s) as [[a|e] s1]; cbn [snd] in *; [exact Hm|].
  eapply within_trans; [exact Hm | apply Hh].
Qed.

(** *** One scratch directory per pull request *)




Lemma validate_pr_within (w : world) (conf : dag_run_conf)
  (fs : gmap string (gmap string file_content)) (n : Z) :
  conf_pr_number conf = Some n -> n <> 0 ->
  within (base_dir_of n) (State fs (initial_report w n) []) (snd (validate_pr w conf fs)).
Proof.
  intros Hconf Hn. unfold validate_pr. rewrite Hconf.
  destruct n as [|p|p]; [congruence| |];
    apply (tidy_try_except _ _ _ (tidy_validate_body _ _ _ _) (tidy_on_exception _)).
Qed.



(** *** Writes that the tree blocks *)





(** *** How a run ends *)

Lemma http_get_answer {A} (url : string) (answer : http_result A) (s s' : state) (a : A) :
  http_get url answer s = (Ok a, s') ->
  exists r, answer = Responded r /\ http_error url r = None /\ payload r = a.
Proof.
  unfold http_get, bind, emit, raise, ret. destruct answer as [e|r]; [discriminate|].
  destruct (http_error url r) eqn:Herr; [discriminate|]. intros [= <- _].
  exists r. auto.
Qed.

Lemma setup_virtual_environment_python (w : world) (base_dir requirements : string)
  (s s' : state) (venv python_exe : string) :
  setup_virtual_environment w base_dir requirements s = (Ok (venv, python_exe), s') ->
  python_exe = sys_executable w \/ python_exe = venv_python base_dir.
Proof.
  unfold setup_virtual_environment.
  destruct (exists_in (default ∅ (st_fs s !! base_dir)) requirements); cbn [negb].
  - unfold bind, check_call, emit, ret, raise. cbn [st_fs st_report st_trace].
    repeat match goal with
           | |- context [if ?c =? 0 then _ else _] => destruct (c =? 0)
           end; try discriminate.
    intros [= _ <- _]. right. reflexivity.
  - intros [= _ <- _]. left. reflexivity.
Qed.

Lemma environment_setup_python (w : world) (base_dir : string) (s s' : state)
  (python_exe : string) :
  environment_setup w base_dir s = (Ok python_exe, s') ->
  python_exe = sys_executable w \/ python_exe = venv_python base_dir.
Proof.
  unfold environment_setup, bind at 1.
  destruct (setup_virtual_environment w base_dir "requirements.txt" s)
    as [[[venv py]|e] s1] eqn:Hsetup; [|discriminate].
  apply setup_virtual_environment_python in Hsetup. cbn [snd].
  unfold bind. destruct (initialize_test_database w py s1) as [[[]|e] s2]; [|discriminate].
  intros [= <- _]. exact Hsetup.
Qed.

Lemma no_failures {B} (ok : string -> bool) (err : string -> B) (l : list string) :
  map (fun f => (f, err f)) (List.filter (fun f => negb (ok f)) l) = [] ->
  forall f, In f l -> ok f = true.
Proof.
  intros Hnone f Hin. destruct (ok f) eqn:Hok; [reflexivity|].
  assert (Hf : In f (List.filter (fun f => negb (ok f)) l)).
  { apply filter_In. rewrite Hok. auto. }
  apply (in_map (fun f => (f, err f))) in Hf. rewrite Hnone in Hf. destruct Hf.
Qed.

Lemma validation_phase_passes (w : world) (changed_dags : list string)
  (base_dir python_exe : string) (s s' : state) :
  validation_phase w changed_dags base_dir python_exe s = (Ok tt, s') ->
  all_pass w base_dir python_exe changed_dags.
Proof.
  unfold validation_phase. unfold bind at 1. rewrite validate_syntax_run.
  unfold bind at 1.
  destruct (report_set_check "syntax"
              (json_of_check_result (syntax_outcome w base_dir python_exe changed_dags)) _)
    as [[[]|e] s1]; [|discriminate].
  destruct (failed (syntax_outcome w base_dir python_exe changed_dags)) eqn:Hsyn;
    [|cbn [bind report_set raise]; discriminate].
  unfold bind at 1. rewrite validate_imports_run. unfold bind at 1.
  destruct (report_set_check "imports"
              (json_of_import_result (import_outcome w base_dir python_exe)) _)
    as [[[]|e] s2]; [|discriminate].
  destruct (success (import_outcome w base_dir python_exe)) eqn:Himp;
    [|cbn [negb bind report_set raise]; discriminate].
  cbn [negb]. unfold bind at 1. rewrite validate_dag_structure_run. unfold bind at 1.
  destruct (report_set_check "structure"
              (json_of_check_result (structure_outcome w base_dir python_exe changed_dags)) _)
    as [[[]|e] s3]; [|discriminate].
  destruct (failed (structure_outcome w base_dir python_exe changed_dags)) eqn:Hstr;
    [|cbn [bind report_set raise]; discriminate].
  intros _. split; [|split].
  - exact (no_failures _ _ _ Hsyn).
  - unfold import_outcome in Himp.
    destruct (Z.eqb_spec (returncode (dagbag_load w python_exe (path_join base_dir "dags"))) 0)
      as [Hz|Hnz]; [exact Hz | discriminate].
  - exact (no_failures _ _ _ Hstr).
Qed.

Lemma hoare_dumpless_raise {A} (m : M A) :
  dumpless m -> hoare undumped m (fun _ => undumped) (fun _ => undumped).
Proof.
  intros Hm s Hs. destruct (Hm s) as (evs & Ht & Hp).
  assert (Hd : undumped (snd (m s))).
  { unfold undumped. rewrite Ht. apply Forall_app. auto. }
  destruct (m s) as [[a|e] s1]; exact Hd.
Qed.

Lemma hoare_dumpless_with {A} (m : M A) (fact : A -> Prop) :
  dumpless m ->
  (forall s a s', m s = (Ok a, s') -> fact a) ->
  hoare undumped m (fun a s => undumped s /\ fact a) (fun _ => undumped).
Proof.
  intros Hm Hfact s Hs. pose proof (hoare_dumpless_raise m Hm s Hs) as Hd.
  destruct (m s) as [[a|e] s1] eqn:Hrun; [|exact Hd]. split; [exact Hd | eauto].
Qed.

Lemma hoare_assume {A} (P : state -> Prop) (fact : Prop) (m : M A)
  (Q : A -> state -> Prop) (E : exn -> state -> Prop) :
  (fact -> hoare P m Q E) -> hoare (fun s => P s /\ fact) m Q E.
Proof. intros H s [Hs Hfact]. apply H; assumption. Qed.

Lemma validate_body_outcome (w : world) (n : Z) (hd : headers) (base_dir : string) :
  hoare undumped (validate_body w n hd base_dir) (outcome_ok w n hd base_dir)
    (fun _ => undumped).
Proof.
  pose proof (fun A (m : M A) B (k : A -> M B) R (Hm : dumpless m) =>
                hoare_bind undumped m k (fun _ => undumped) R (fun _ => undumped)
                  (hoare_dumpless_raise m Hm)) as Hstep.
  unfold validate_body.
  apply Hstep; [apply dumpless_of_quiet, quiet_clean_previous_runs | intros _].
  apply Hstep; [apply dumpless_ret | intros _].
  apply Hstep; [apply dumpless_of_quiet, quiet_fetch_pr_info | intros pr_info].
  apply (hoare_bind undumped _ _
           (fun files s => undumped s /\ files_answer w n hd files)).
  { apply hoare_dumpless_with; [apply dumpless_of_quiet, quiet_fetch_pr_files|].
    intros s files s' Hrun. exact (http_get_answer _ _ _ _ _ Hrun). }
  intros pr_files. apply hoare_assume. intros Hfiles.
  destruct (changed_dag_files pr_files) as [|dag dags] eqn:Hchanged.
  - intros s Hs. cbn [bind report_set get_report st_fs st_report st_trace].
    split; [reflexivity|]. left. split; [|split; [exact Hs | eauto]].
    unfold status_of. rewrite dict_get_set_ne, dict_get_set_eq by discriminate. reflexivity.
  - apply Hstep; [apply dumpless_of_quiet, quiet_download_branch_archive | intros _].
    apply Hstep; [apply dumpless_of_quiet, quiet_overlay_pr_changes | intros _].
    apply Hstep; [apply dumpless_of_quiet, quiet_write_file; reflexivity | intros _].
    apply (hoare_bind undumped _ _
             (fun py s => undumped s
                          /\ (py = sys_executable w \/ py = venv_python base_dir))).
    { apply hoare_dumpless_with; [apply dumpless_of_quiet, quiet_environment_setup|].
      intros s py s' Hrun. exact (environment_setup_python _ _ _ _ _ Hrun). }
    intros py. apply hoare_assume. intros Hpy.
    apply (hoare_bind undumped _ _
             (fun _ s => undumped s /\ all_pass w base_dir py (dag :: dags))).
    { apply hoare_dumpless_with; [apply dumpless_validation_phase|].
      intros s [] s' Hrun. exact (validation_phase_passes _ _ _ _ _ _ Hrun). }
    intros _. apply hoare_assume. intros Hpass.
    intros s Hs. unfold bind at 1, report_set at 1. unfold bind at 1, report_set at 1.
    cbn [st_fs st_report st_trace]. unfold bind at 1.
    match goal with
    | |- context [save_report base_dir ?s0] =>
        destruct (save_report_cases base_dir s0) as [[e ->]|(ws & Hws & ->)]
    end; [exact Hs|].
    unfold get_report. cbn [st_fs st_report st_trace].
    split; [reflexivity|]. right. cbn [st_report]. split; [|split].
    + unfold status_of. rewrite dict_get_set_ne, dict_get_set_eq by discriminate.
      reflexivity.
    + split; cbn [st_fs st_report st_trace].
      * rewrite lookup_insert_eq. cbn [mbind option_bind]. apply lookup_insert_eq.
      * apply last_snoc.
    + exists pr_files, py. rewrite Hchanged. repeat split; try assumption; try apply Hpass.
      discriminate.
Qed.

Lemma on_exception_run (base_dir : string) (e : exn) (s : state)
  (ws : gmap string file_content) :
  st_fs s !! base_dir = Some ws ->
  on_exception base_dir e s
  = if is_directory ws report_name
    then (Raise (is_a_directory_error (path_join base_dir report_name)),
          State (st_fs s)
            (dict_set "error" (JStr (exn_msg e))
               (dict_set "status" (JStr "error") (st_report s)))
            (st_trace s))
    else (Raise e,
          State
            (<[base_dir :=
                 <[report_name :=
                     JsonText (JObj (dict_set "error" (JStr (exn_msg e))
                                       (dict_set "status" (JStr "error") (st_report s))))]>
                   ws]>
               (st_fs s))
            (dict_set "error" (JStr (exn_msg e))
               (dict_set "status" (JStr "error") (st_report s)))
            (st_trace s
               ++ [EvJsonDump (path_join base_dir report_name)
                     (JObj (dict_set "error" (JStr (exn_msg e))
                              (dict_set "status" (JStr "error") (st_report s))))])).
Proof.
  intros Hdir. assert (Hflat : ancestors report_name = []) by reflexivity.
  cbv [on_exception bind report_set save_report get_report write_file raise].
  cbn [st_fs st_report st_trace]. rewrite Hdir, Hflat. cbn [open_error].
  destruct (is_directory ws report_name); reflexivity.
Qed.

Lemma validate_body_keeps_directory (w : world) (n : Z) (hd : headers) (base_dir : string)
  (s : state) :
  is_Some (st_fs (snd (validate_body w n hd base_dir s)) !! base_dir).
Proof.
  unfold validate_body, bind at 1. rewrite clean_previous_runs_run.
  match goal with
  | |- is_Some (st_fs (snd (?k ?s1)) !! _) => assert (Hk : tidy base_dir k)
  end.
  { apply tidy_bind; [apply tidy_ret | intros _].
    apply tidy_bind; [apply tidy_http_get | intros pr_info].
    apply tidy_bind; [apply tidy_http_get | intros pr_files].
    destruct (changed_dag_files pr_files) as [|dag dags].
    - apply tidy_bind; [apply tidy_report_set; discriminate | intros _].
      apply tidy_bind; [apply tidy_report_set; discriminate | intros _].
      intros s1. apply within_refl.
    - apply tidy_bind; [apply tidy_download_branch_archive | intros _].
      apply tidy_bind; [apply tidy_overlay_pr_changes | intros _].
      apply tidy_bind; [apply tidy_write_file | intros _].
      apply tidy_bind; [apply tidy_environment_setup | intros py].
      apply tidy_bind; [apply tidy_validation_phase | intros _].
      apply tidy_bind; [apply tidy_report_set; discriminate | intros _].
      apply tidy_bind; [apply tidy_report_set; discriminate | intros _].
      apply tidy_bind; [apply tidy_save_report | intros _].
      intros s1. apply within_refl. }
  apply Hk. cbn [st_fs]. rewrite lookup_insert_eq. eauto.
Qed.

(** X10.  A run with a pull request number ends in one of four ways.  It
    returns the report with status ["skipped"], having persisted nothing;
    or it returns the report with status ["success"], persisted as it is
    returned; or it raises, and then the report was persisted with status
    ["error"] and the text of the very exception that is raised; or, when
    the changed files made a directory of the path of the report, it raises
    the [IsADirectoryError] of the attempt to persist, and no report was
    written at all.  In each case the scratch directory exists and the
    report still carries the pull request number and the timestamp of the
    start. *)
Theorem run_ends_in_one_of_four_ways (w : world) (n : Z) (tok : option string)
  (fs : gmap string (gmap string file_content)) :
  n <> 0 ->
  dict_get "pr_number" (st_report (snd (validate_pr w (Conf (Some n) tok) fs)))
    = Some (JNum n)
  /\ dict_get "timestamp" (st_report (snd (validate_pr w (Conf (Some n) tok) fs)))
     = Some (JStr (now_isoformat w))
  /\ is_Some (st_fs (snd (validate_pr w (Conf (Some n) tok) fs)) !! base_dir_of n)
  /\ ((fst (validate_pr w (Conf (Some n) tok) fs)
        = Ok (st_report (snd (validate_pr w (Conf (Some n) tok) fs)))
       /\ status_of (st_report (snd (validate_pr w (Conf (Some n) tok) fs))) = Some "skipped"
       /\ undumped (snd (validate_pr w (Conf (Some n) tok) fs)))
      \/ (fst (validate_pr w (Conf (Some n) tok) fs)
           = Ok (st_report (snd (validate_pr w (Conf (Some n) tok) fs)))
          /\ status_of (st_report (snd (validate_pr w (Conf (Some n) tok) fs)))
             = Some "success"
          /\ persisted (base_dir_of n) (snd (validate_pr w (Conf (Some n) tok) fs)))
      \/ (exists e,
            fst (validate_pr w (Conf (Some n) tok) fs) = Raise e
            /\ status_of (st_report (snd (validate_pr w (Conf (Some n) tok) fs)))
               = Some "error"
            /\ dict_get "error" (st_report (snd (validate_pr w (Conf (Some n) tok) fs)))
               = Some (JStr (exn_msg e))
            /\ persisted (base_dir_of n) (snd (validate_pr w (Conf (Some n) tok) fs)))
      \/ (exists ws,
            st_fs (snd (validate_pr w (Conf (Some n) tok) fs)) !! base_dir_of n = Some ws
            /\ is_directory ws report_name = true
            /\ fst (validate_pr w (Conf (Some n) tok) fs)
               = Raise (is_a_directory_error (path_join (base_dir_of n) report_name))
            /\ status_of (st_report (snd (validate_pr w (Conf (Some n) tok) fs)))
               = Some "error"
            /\ undumped (snd (validate_pr w (Conf (Some n) tok) fs)))).
Proof.
  intros Hn.
  destruct (validate_pr_within w (Conf (Some n) tok) fs n eq_refl Hn)
    as (_ & _ & Hnumber & Hstamp).
  split; [rewrite Hnumber; reflexivity|]. split; [rewrite Hstamp; reflexivity|].
  clear Hnumber Hstamp.
  assert (Hrun : validate_pr w (Conf (Some n) tok) fs
                 = try_except (validate_body w n (headers_of tok) (base_dir_of n))
                     (on_exception (base_dir_of n)) (State fs (initial_report w n) [])).
  { unfold validate_pr. cbn [conf_pr_number conf_github_token].
    destruct n as [|p|p]; [congruence | reflexivity | reflexivity]. }
  rewrite Hrun. clear Hrun. unfold try_except.
  pose proof (validate_body_outcome w n (headers_of tok) (base_dir_of n)
                (State fs (initial_report w n) []) (List.Forall_nil _)) as Hout.
  pose proof (validate_body_keeps_directory w n (headers_of tok) (base_dir_of n)
                (State fs (initial_report w n) [])) as Hdir.
  destruct (validate_body w n (headers_of tok) (base_dir_of n)
              (State fs (initial_report w n) [])) as [[report|e] s1].
  - cbn [fst snd] in *. split; [exact Hdir|].
    destruct Hout as [-> [(Hst & Hund & _)|(Hst & Hper & _)]]; auto.
  - cbn [snd] in Hdir. destruct Hdir as [ws Hws].
    rewrite (on_exception_run _ _ _ _ Hws).
    assert (Hstatus : status_of (dict_set "error" (JStr (exn_msg e))
                                   (dict_set "status" (JStr "error") (st_report s1)))
                      = Some "error").
    { unfold status_of. rewrite dict_get_set_ne, dict_get_set_eq by discriminate.
      reflexivity. }
    destruct (is_directory ws report_name) eqn:Hisdir;
      cbn [fst snd st_fs st_report st_trace].
    + split; [eauto|]. right. right. right. exists ws. auto.
    + split; [rewrite lookup_insert_eq; eauto|]. right. right. left. exists e.
      split; [reflexivity|]. split; [exact Hstatus|]. split; [apply dict_get_set_eq|].
      split; cbn [st_fs st_report st_trace].
      * rewrite lookup_insert_eq. cbn [mbind option_bind]. apply lookup_insert_eq.
      * apply last_snoc.
Qed.

Lemma run_ends_in_one_of_four_ways_witness :
  dict_get "pr_number"
    (st_report (snd (validate_pr Scenarios.pr_syntax_error (Conf (Some 7) None) ∅)))
  = Some (JNum 7).
Proof.
  apply (run_ends_in_one_of_four_ways Scenarios.pr_syntax_error 7 None ∅). discriminate.
Defined.

Lemma try_except_returns {A} (m : M A) (h : exn -> M A) (s s' : state) (a : A) :
  (forall e s1, exists e' s2, h e s1 = (Raise e', s2)) ->
  try_except m h s = (Ok a, s') -> m s = (Ok a, s').
Proof.
  intros Hh. unfold try_except. destruct (m s) as [[r|e] s1]; [auto|].
  destruct (Hh e s1) as (e' & s2 & ->). discriminate.
Qed.

Lemma validate_pr_returns (w : world) (n : Z) (tok : option string)
  (fs : gmap string (gmap string file_content)) (report : dict) (s : state) :
  validate_pr w (Conf (Some n) tok) fs = (Ok report, s) ->
  validate_body w n (headers_of tok) (base_dir_of n) (State fs (initial_report w n) [])
  = (Ok report, s).
Proof.
  unfold validate_pr. cbn [conf_pr_number conf_github_token].
  destruct n as [|p|p]; [discriminate| |];
    apply try_except_returns; apply on_exception_raises.
Qed.

(** X11.  A report with status ["success"] is returned only when the pull
    request changed at least one DAG file and, under the interpreter the
    run used (the caller's or the one of the new environment), every
    changed DAG file compiled, the DAG folder loaded without import error
    and every changed DAG file passed the structure check. *)
Theorem success_means_every_check_passed (w : world) (n : Z) (tok : option string)
  (fs : gmap string (gmap string file_content)) (report : dict) (s : state) :
  validate_pr w (Conf (Some n) tok) fs = (Ok report, s) ->
  status_of report = Some "success" ->
  exists files python_exe,
    files_answer w n (headers_of tok) files
    /\ changed_dag_files files <> []
    /\ (python_exe = sys_executable w \/ python_exe = venv_python (base_dir_of n))
    /\ all_pass w (base_dir_of n) python_exe (changed_dag_files files).
Proof.
  intros Hrun Hstatus.
  pose proof (validate_pr_returns w n tok fs report s Hrun) as Hbody.
  pose proof (validate_body_outcome w n (headers_of tok) (base_dir_of n)
                (State fs (initial_report w n) []) (List.Forall_nil _)) as Hout.
  rewrite Hbody in Hout. destruct Hout as [_ [(Hst & _)|(_ & _ & Hfacts)]].
  - congruence.
  - exact Hfacts.
Qed.

Lemma success_means_every_check_passed_witness :
  exists files python_exe,
    files_answer Scenarios.pr_passes 9 (headers_of None) files
    /\ changed_dag_files files <> []
    /\ (python_exe = sys_executable Scenarios.pr_passes
        \/ python_exe = venv_python (base_dir_of 9))
    /\ all_pass Scenarios.pr_passes (base_dir_of 9) python_exe (changed_dag_files files).
Proof.
  apply (success_means_every_check_passed Scenarios.pr_passes 9 None ∅
           (st_report (snd (validate_pr Scenarios.pr_passes (Conf (Some 9) None) ∅)))
           (snd (validate_pr Scenarios.pr_passes (Conf (Some 9) None) ∅))).
  - vm_compute. reflexivity.
  - vm_compute. reflexivity.
Defined.

(** X12.  A report with status ["skipped"] is returned only when no entry
    of the changed-file list, whatever its change status, is a Python file
    under [dags/].  A pull request that only removes a DAG file is
    therefore not skipped. *)
Theorem skipped_only_without_dag_file (w : world) (n : Z) (tok : option string)
  (fs : gmap string (gmap string file_content)) (report : dict) (s : state) :
  validate_pr w (Conf (Some n) tok) fs = (Ok report, s) ->
  status_of report = Some "skipped" ->
  exists files,
    files_answer w n (headers_of tok) files
    /\ forall f, In f files -> is_dag_file (filename f) = false.
Proof.
  intros Hrun Hstatus.
  pose proof (validate_pr_returns w n tok fs report s Hrun) as Hbody.
  pose proof (validate_body_outcome w n (headers_of tok) (base_dir_of n)
                (State fs (initial_report w n) []) (List.Forall_nil _)) as Hout.
  rewrite Hbody in Hout. destruct Hout as [_ [(_ & _ & files & Hfiles & Hnone)|(Hst & _)]].
  - exists files. split; [exact Hfiles|]. intros f Hin.
    destruct (is_dag_file (filename f)) eqn:Hdag; [|reflexivity].
    assert (Hmem : In (filename f) (changed_dag_files files)).
    { apply filter_In. split; [apply in_map; exact Hin | exact Hdag]. }
    rewrite Hnone in Hmem. destruct Hmem.
  - congruence.
Qed.

Lemma skipped_only_without_dag_file_witness :
  exists files,
    files_answer Scenarios.pr_docs_only 8 (headers_of None) files
    /\ forall f, In f files -> is_dag_file (filename f) = false.
Proof.
  apply (skipped_only_without_dag_file Scenarios.pr_docs_only 8 None ∅
           (st_report (snd (validate_pr Scenarios.pr_docs_only (Conf (Some 8) None) ∅)))
           (snd (validate_pr Scenarios.pr_docs_only (Conf (Some 8) None) ∅))).
  - vm_compute. reflexivity.
  - vm_compute. reflexivity.
Defined.

(** The fourth way is taken by pull request 11: every check passes, the
    report cannot be written over the directory of its name, and the run
    raises the [IsADirectoryError] of the second attempt, with nothing
    persisted. *)
Example shadowed_report_is_never_written :
  fst (validate_pr Scenarios.pr_shadows_report (Conf (Some 11) None) ∅)
  = Raise (Exn "IsADirectoryError"
             "[Errno 21] Is a directory: '/tmp/airflow_pr_11/validation_report.json'")
  /\ status_of (st_report (snd (validate_pr Scenarios.pr_shadows_report
                                  (Conf (Some 11) None) ∅)))
     = Some "error"
  /\ List.filter is_dump
       (st_trace (snd (validate_pr Scenarios.pr_shadows_report (Conf (Some 11) None) ∅)))
     = [].
Proof. vm_compute. auto. Qed.

End ValidatorRuns.
